(** * hillmaker: the Scenario front-end (src/hillmaker/scenario.py)

    A shallow embedding of the pydantic model [Scenario], of its validators,
    of the preprocessing of the stop records and of [create_scenario],
    followed by the properties of the configuration / validation front-end.

    Python objects that are shared and mutated (pandas DataFrames) live in
    an explicit store; everything else is a value. *)

From stdpp Require Import gmap strings list fin_maps pretty.
From Stdlib Require Import ZArith QArith.

Local Open Scope Z_scope.

(* ===================================================================== *)
(** ** Python values *)
(* ===================================================================== *)

(** A Python float is used by this module only through comparisons with
    [0.0] and [1.0]; a finite float is represented by the rational it
    denotes. *)
Inductive pyfloat :=
  | FFinite (q : Q)
  | FInf (negative : bool)
  | FNaN.

(** IEEE comparison [x > y] and [x < y]: every comparison with NaN is
    false. *)
Definition float_gt (x y : pyfloat) : bool :=
  match x, y with
  | FNaN, _ | _, FNaN => false
  | FFinite a, FFinite b => negb (Qle_bool a b)
  | FInf n, FFinite _ => negb n
  | FFinite _, FInf n => n
  | FInf n, FInf m => negb n && m
  end.

Definition float_lt (x y : pyfloat) : bool := float_gt y x.

(** numpy [datetime64] and pandas [Timestamp]: the instant, in
    nanoseconds since the epoch, [None] is NaT. The unit in which a value
    is stored is not tracked. *)
Definition datetime64 := option Z.

(** Comparisons of datetime64 values: false as soon as one side is NaT,
    and exact on the instants otherwise. This is how pandas compares a
    column with a scalar. numpy compares two scalars of different units
    after a cast to the finer unit, which wraps in 64 bits: its result is
    the exact one when both instants are in the nanosecond range of int64
    (see [datetime64_ns_range] below), and the statements on the order of
    the analysis dates are for such instants. *)
Definition dt64_lt (a b : datetime64) : bool :=
  match a, b with
  | Some x, Some y => bool_decide (x < y)
  | _, _ => false
  end.

Definition dt64_le (a b : datetime64) : bool :=
  match a, b with
  | Some x, Some y => bool_decide (x <= y)
  | _, _ => false
  end.

Definition dt64_ge (a b : datetime64) : bool := dt64_le b a.

(** *** pandas data *)

(** One cell of a column. *)
Inductive cell :=
  | CTime (ns : Z)       (* a naive timestamp, nanoseconds since the epoch *)
  | CNaT                 (* missing timestamp *)
  | CStr (s : string)
  | CNum (n : Z)
  | CNull.               (* None / NaN *)

Global Instance cell_eq_dec : EqDecision cell.
Proof. solve_decision. Defined.

(** A Series is the list of its values. Every Series of this module is a
    column of the one frame [stops_df] (or computed from such columns), so
    all of them carry that frame's index and pandas' index alignment is the
    identity; the index is kept on the frame. *)
Abbreviation Series := (list cell).

(** A DataFrame: the row labels and the columns in their order. *)
Record DataFrame := mkDataFrame {
  df_index : list Z;
  df_data : list (string * Series)
}.

Global Instance DataFrame_eq_dec : EqDecision DataFrame.
Proof. solve_decision. Defined.

(** [df.columns] *)
Definition columns (df : DataFrame) : list string := (df_data df).*1.

(** Lookup in an insertion-ordered dict (the first binding of the key). *)
Fixpoint dict_get {A} (d : list (string * A)) (k : string) : option A :=
  match d with
  | [] => None
  | (k', v) :: d' => if decide (k' = k) then Some v else dict_get d' k
  end.

(** [d[k] = v] on an insertion-ordered dict: an existing key keeps its
    position and takes the new value, a new key is appended. *)
Fixpoint dict_set {A} (d : list (string * A)) (k : string) (v : A)
  : list (string * A) :=
  match d with
  | [] => [(k, v)]
  | (k', v') :: d' =>
      if decide (k' = k) then (k, v) :: d' else (k', v') :: dict_set d' k v
  end.

(** [s.isna()] *)
Definition cell_isna (c : cell) : bool :=
  match c with
  | CNaT | CNull => true
  | _ => false
  end.

Definition isna (s : Series) : list bool := cell_isna <$> s.

(** [mask.sum()] on a boolean Series *)
Definition bool_sum (m : list bool) : nat := length (filter (λ b, b = true) m).

(** [~mask] and [m1 & m2] *)
Definition mask_not (m : list bool) : list bool := negb <$> m.
Definition mask_and (m1 m2 : list bool) : list bool := zip_with andb m1 m2.

(** [x.loc[mask]] on a list of values: the positions where the mask holds. *)
Fixpoint mask_filter {A} (m : list bool) (l : list A) : list A :=
  match m, l with
  | b :: m', x :: l' => if b then x :: mask_filter m' l' else mask_filter m' l'
  | _, _ => []
  end.

(** [df.loc[mask]] with a boolean mask: a new frame of the selected rows. *)
Definition df_loc (df : DataFrame) (m : list bool) : DataFrame :=
  {| df_index := mask_filter m (df_index df);
     df_data := prod_map id (mask_filter m) <$> df_data df |}.

(** [df.reset_index(drop=True)]: a new frame numbered 0, 1, ... *)
Definition reset_index_drop (df : DataFrame) : DataFrame :=
  {| df_index := Z.of_nat <$> seq 0 (length (df_index df));
     df_data := df_data df |}.

(** *** The result of a computed scenario ([hills]) *)

Inductive flow_metric := Arrivals | Departures | Occupancy.

Global Instance flow_metric_eq_dec : EqDecision flow_metric.
Proof. solve_decision. Defined.

(** The dict stored by [make_hills] / [compute_hills_stats]: the summary
    tables by (stationary, by_category, metric) and the by-datetime
    tables by by_category. *)
Record Hills := mkHills {
  summaries : bool → bool → flow_metric → DataFrame;
  bydatetime : bool → DataFrame
}.

(** *** Values that reach [Scenario] as keyword arguments *)

#[local] Set Warnings "-register-all".

Inductive pyval :=
  | VNone
  | VBool (b : bool)
  | VInt (z : Z)
  | VFloat (f : pyfloat)
  | VStr (s : string)
  | VList (l : list pyval)
  | VTuple (l : list pyval)
  | VDate (days : Z)                (* datetime.date *)
  | VDatetime (us : Z)              (* datetime.datetime *)
  | VTimestamp (t : datetime64)     (* pd.Timestamp, pd.NaT *)
  | VDatetime64 (t : datetime64)    (* np.datetime64 *)
  | VPath (p : string)              (* pathlib.Path *)
  | VDataFrame (l : nat)            (* reference to a DataFrame object *)
  | VHills (h : Hills).

(** [class EdgeBinsEnum(IntEnum)] and [class VerbosityEnum(IntEnum)] *)
Inductive EdgeBinsEnum := FRACTIONAL | ENTIRE.

Definition EdgeBinsEnum_value (e : EdgeBinsEnum) : Z :=
  match e with FRACTIONAL => 1 | ENTIRE => 2 end.

Inductive VerbosityEnum := WARNING | INFO | DEBUG.

Definition VerbosityEnum_value (e : VerbosityEnum) : Z :=
  match e with WARNING => 0 | INFO => 1 | DEBUG => 2 end.

(* ===================================================================== *)
(** ** Exceptions, the store and the monad of effects *)
(* ===================================================================== *)

(** What pydantic reports for one field. *)
Inductive verr_kind :=
  | Missing                      (* "Field required" *)
  | BadType (expected : string)  (* the input is not of the annotated type *)
  | OutOfRange                   (* a [confloat(ge=0.0, le=1.0)] constraint *)
  | ValueErr (msg : string).     (* a validator raised ValueError(msg) *)

Definition verr : Type := string * verr_kind.

Inductive exn :=
  | ValidationError (errs : list verr)
  | KeyError (k : string)
  | TypeError (msg : string)
  | ZeroDivisionError
  | FileNotFoundError (path : string)
  | TOMLDecodeError (path : string)
  | DanglingReference (l : nat).

Inductive result (A : Type) :=
  | Ok (a : A)
  | Raise (x : exn).
Arguments Ok {A} a.
Arguments Raise {A} x.

(** The world a call runs in: the DataFrame objects (a reference is an
    index, objects are never freed), the records written to the module's
    logger, and the TOML files by path with their parsed content ([None]
    for a file that is not valid TOML). *)
Record world := mkWorld {
  heap : list DataFrame;
  log : list string;
  files : gmap string (option (gmap string pyval))
}.

Definition M (A : Type) : Type := world → result A * world.

Global Instance M_ret : MRet M := λ A a w, (Ok a, w).
Global Instance M_bind : MBind M := λ A B f m w,
  match m w with
  | (Ok a, w') => f a w'
  | (Raise x, w') => (Raise x, w')
  end.

Definition raise {A} (x : exn) : M A := λ w, (Raise x, w).

Definition lift {A} (r : result A) : M A := λ w, (r, w).

(** Read the object behind a reference. *)
Definition deref (l : nat) : M DataFrame := λ w,
  match heap w !! l with
  | Some df => (Ok df, w)
  | None => (Raise (DanglingReference l), w)
  end.

(** A new DataFrame object. *)
Definition new_df (df : DataFrame) : M nat := λ w,
  (Ok (length (heap w)),
   {| heap := heap w ++ [df]; log := log w; files := files w |}).

(** [df[name] = s] on the object behind [l], in place. *)
Definition setitem (l : nat) (name : string) (s : Series) : M unit := λ w,
  match heap w !! l with
  | Some df =>
      (Ok (),
       {| heap :=
            <[l := {| df_index := df_index df;
                      df_data := dict_set (df_data df) name s |}]> (heap w);
          log := log w; files := files w |})
  | None => (Raise (DanglingReference l), w)
  end.

(** [logger.warning(msg)] *)
Definition logger_warning (msg : string) : M unit := λ w,
  (Ok (), {| heap := heap w; log := log w ++ [msg]; files := files w |}).

(** [df[name]] *)
Definition getitem (df : DataFrame) (name : string) : result Series :=
  match dict_get (df_data df) name with
  | Some s => Ok s
  | None => Raise (KeyError name)
  end.

(** Comparison of a column with a scalar. A timestamp cell compares as a
    datetime64, a missing cell compares false, and a cell that is not a
    timestamp makes pandas raise TypeError. The dtype of a column is not
    tracked: a column without any timestamp (no cell at all, or missing
    values only) compares without error here, while pandas decides by
    its dtype and raises TypeError for a float or integer column. The
    statements that conclude that a comparison succeeds are for columns
    that hold a timestamp (see [has_timestamp] below). *)
Definition cell_cmp (op : datetime64 → datetime64 → bool)
    (t : datetime64) (c : cell) : result bool :=
  match c with
  | CTime x => Ok (op (Some x) t)
  | CNaT | CNull => Ok false
  | CStr _ | CNum _ => Raise (TypeError "Invalid comparison")
  end.

Fixpoint series_cmp (op : datetime64 → datetime64 → bool)
    (s : Series) (t : datetime64) : result (list bool) :=
  match s with
  | [] => Ok []
  | c :: s' =>
      match cell_cmp op t c with
      | Raise x => Raise x
      | Ok b =>
          match series_cmp op s' t with
          | Raise x => Raise x
          | Ok m => Ok (b :: m)
          end
      end
  end.

(** [s < v] and [s >= v] where [v] is the analysis date held by the
    scenario, a datetime64 (see [validate_start_end_date]); no other
    scalar is compared with a column. *)
Definition series_lt (s : Series) (v : pyval) : result (list bool) :=
  match v with
  | VDatetime64 t => series_cmp dt64_lt s t
  | _ => Raise (TypeError "unsupported operand")
  end.

Definition series_ge (s : Series) (v : pyval) : result (list bool) :=
  match v with
  | VDatetime64 t => series_cmp dt64_ge s t
  | _ => Raise (TypeError "unsupported operand")
  end.

(** [a <= b] on the analysis dates held by the scenario. *)
Definition py_le (a b : pyval) : result bool :=
  match a, b with
  | VDatetime64 x, VDatetime64 y => Ok (dt64_le x y)
  | _, _ => Raise (TypeError "unsupported operand")
  end.

(* ===================================================================== *)
(** ** The pydantic model [Scenario] *)
(* ===================================================================== *)

(** [Tuple[...] | List[...]] of floats *)
Inductive float_seq :=
  | PyTuple (l : list pyfloat)
  | PyList (l : list pyfloat).

Definition float_seq_items (p : float_seq) : list pyfloat :=
  match p with PyTuple l | PyList l => l end.

(** [str | Path] *)
Inductive path_like :=
  | PStr (s : string)
  | PPath (p : string).

(** The fields of the model, in the order of the class body. *)
Record Scenario := mkScenario {
  scenario_name : string;
  stops_df : nat;
  in_field : string;
  out_field : string;
  start_analysis_dt : pyval;
  end_analysis_dt : pyval;
  cat_field : option string;
  bin_size_minutes : Z;
  cats_to_exclude : option (list string);
  occ_weight_field : option string;
  percentiles : float_seq;
  nonstationary_stats : bool;
  stationary_stats : bool;
  edge_bins : EdgeBinsEnum;
  output_path : path_like;
  export_bydatetime_csv : bool;
  export_summaries_csv : bool;
  make_all_dow_plots : bool;
  make_all_week_plots : bool;
  export_all_dow_plots : bool;
  export_all_week_plots : bool;
  cap : option Z;
  xlabel : option string;
  ylabel : option string;
  verbosity : Z;
  stops_preprocessed_df : option nat;
  hills : option Hills
}.

(** [self.stops_preprocessed_df = l] *)
Definition set_stops_preprocessed_df (self : Scenario) (l : nat) : Scenario :=
  mkScenario (scenario_name self) (stops_df self) (in_field self)
    (out_field self) (start_analysis_dt self) (end_analysis_dt self)
    (cat_field self) (bin_size_minutes self) (cats_to_exclude self)
    (occ_weight_field self) (percentiles self) (nonstationary_stats self)
    (stationary_stats self) (edge_bins self) (output_path self)
    (export_bydatetime_csv self) (export_summaries_csv self)
    (make_all_dow_plots self) (make_all_week_plots self)
    (export_all_dow_plots self) (export_all_week_plots self) (cap self)
    (xlabel self) (ylabel self) (verbosity self) (Some l) (hills self).

(** *** Validation of one field *)

(** The outcome of the validation of one field: a value, an error that
    pydantic collects into its ValidationError (type errors, and the
    ValueError of a validator), or any other exception, which propagates
    at once. *)
Inductive fres (A : Type) :=
  | FVal (a : A)
  | FInvalid (k : verr_kind)
  | FRaise (x : exn).
Arguments FVal {A} a.
Arguments FInvalid {A} k.
Arguments FRaise {A} x.

Definition fres_bind {A B} (r : fres A) (f : A → fres B) : fres B :=
  match r with
  | FVal a => f a
  | FInvalid k => FInvalid k
  | FRaise x => FRaise x
  end.

Definition fval {A} (r : fres A) : option A :=
  match r with FVal a => Some a | _ => None end.

Definition ferr {A} (name : string) (r : fres A) : list verr :=
  match r with FInvalid k => [(name, k)] | _ => [] end.

Definition fraise {A} (r : fres A) : option exn :=
  match r with FRaise x => Some x | _ => None end.

(** A field without default, and a field with a default: the default is
    taken as it is, validators do not run on it. *)
Definition required {A} (kw : gmap string pyval) (name : string)
    (validate : pyval → fres A) : fres A :=
  match kw !! name with
  | None => FInvalid Missing
  | Some v => validate v
  end.

Definition optional {A} (kw : gmap string pyval) (name : string)
    (dflt : A) (validate : pyval → fres A) : fres A :=
  match kw !! name with
  | None => FVal dflt
  | Some v => validate v
  end.

(** The annotated types. The input is taken to be a value of a Python type
    the annotation names ([int] for a float also). pydantic's lax mode
    also converts values of other types (the str '60', the float 60.0
    and True for an [int], a str for a date, ...); these conversions are
    the library's and are not modelled: such inputs are reported here as
    type errors, and they are outside the statements, which either do
    not depend on how such an input is treated or fix the type of the
    parameter they depend on (see [bin_size_minutes_nonzero_int]
    below). *)
Definition as_str (v : pyval) : fres string :=
  match v with VStr s => FVal s | _ => FInvalid (BadType "str") end.

Definition as_opt_str (v : pyval) : fres (option string) :=
  match v with
  | VNone => FVal None
  | VStr s => FVal (Some s)
  | _ => FInvalid (BadType "str | None")
  end.

Definition as_int (v : pyval) : fres Z :=
  match v with VInt z => FVal z | _ => FInvalid (BadType "int") end.

Definition as_opt_int (v : pyval) : fres (option Z) :=
  match v with
  | VNone => FVal None
  | VInt z => FVal (Some z)
  | _ => FInvalid (BadType "int | None")
  end.

Definition as_bool (v : pyval) : fres bool :=
  match v with VBool b => FVal b | _ => FInvalid (BadType "bool") end.

Definition as_str_item (v : pyval) : option string :=
  match v with VStr s => Some s | _ => None end.

Definition as_opt_str_list (v : pyval) : fres (option (list string)) :=
  match v with
  | VNone => FVal None
  | VList l =>
      match mapM as_str_item l with
      | Some ss => FVal (Some ss)
      | None => FInvalid (BadType "List[str] | None")
      end
  | _ => FInvalid (BadType "List[str] | None")
  end.

Definition as_path_like (v : pyval) : fres path_like :=
  match v with
  | VStr s => FVal (PStr s)
  | VPath p => FVal (PPath p)
  | _ => FInvalid (BadType "str | Path")
  end.

Definition as_EdgeBinsEnum (v : pyval) : fres EdgeBinsEnum :=
  match v with
  | VInt 1 => FVal FRACTIONAL
  | VInt 2 => FVal ENTIRE
  | _ => FInvalid (BadType "EdgeBinsEnum")
  end.

Definition as_opt_hills (v : pyval) : fres (option Hills) :=
  match v with
  | VNone => FVal None
  | VHills h => FVal (Some h)
  | _ => FInvalid (BadType "dict | None")
  end.

(** [pd.DataFrame] with arbitrary_types_allowed: an instance check, the
    object is stored as it is (no copy). *)
Definition as_dataframe (h : list DataFrame) (v : pyval) : fres nat :=
  match v with
  | VDataFrame l =>
      if decide (is_Some (h !! l)) then FVal l
      else FInvalid (BadType "DataFrame")
  | _ => FInvalid (BadType "DataFrame")
  end.

Definition as_opt_dataframe (h : list DataFrame) (v : pyval)
  : fres (option nat) :=
  match v with
  | VNone => FVal None
  | VDataFrame l =>
      if decide (is_Some (h !! l)) then FVal (Some l)
      else FInvalid (BadType "DataFrame | None")
  | _ => FInvalid (BadType "DataFrame | None")
  end.

(** [date | datetime | pd.Timestamp | np.datetime64], for a value of one
    of these four types (a str, which pydantic converts to a date or a
    datetime before the validator runs, is not modelled). *)
Definition as_datetime_like (v : pyval) : fres pyval :=
  match v with
  | VDate _ | VDatetime _ | VTimestamp _ | VDatetime64 _ => FVal v
  | _ => FInvalid (BadType "date | datetime | Timestamp | datetime64")
  end.

(** [confloat(ge=0.0, le=1.0)]: the value is rejected when it is greater
    than [le] or less than [ge]. This is the check of pydantic 2.3, the
    release whose [FieldValidationInfo] the module imports; infinities
    and NaN are allowed by default, and both comparisons are false on
    NaN, which passes. (Later releases reject NaN here; the statements
    on the range check are for percentiles other than NaN, apart from
    the one that shows a NaN accepted.) *)
Definition confloat_ge0_le1 (v : pyval) : fres pyfloat :=
  let check f :=
    if float_gt f (FFinite 1) || float_lt f (FFinite 0)
    then FInvalid OutOfRange else FVal f in
  match v with
  | VFloat f => check f
  | VInt z => check (FFinite (inject_Z z))
  | _ => FInvalid (BadType "float")
  end.

(** The items of a sequence, validated one by one; the first failure is
    the failure of the sequence. *)
Fixpoint validate_items {A} (validate : pyval → fres A) (l : list pyval)
  : fres (list A) :=
  match l with
  | [] => FVal []
  | v :: l' =>
      fres_bind (validate v) (λ a,
      fres_bind (validate_items validate l') (λ r, FVal (a :: r)))
  end.

(** [Tuple[confloat(ge=0.0, le=1.0)] | List[confloat(ge=0.0, le=1.0)]]:
    the first member is the type of the tuples of ONE such float, the
    second the lists of such floats, which also takes a tuple. *)
Definition as_percentiles (v : pyval) : fres float_seq :=
  match v with
  | VTuple [x] => fres_bind (confloat_ge0_le1 x) (λ f, FVal (PyTuple [f]))
  | VTuple l | VList l =>
      fres_bind (validate_items confloat_ge0_le1 l) (λ fs, FVal (PyList fs))
  | _ => FInvalid (BadType "Tuple[float] | List[float]")
  end.

(** Modelled from the spec: the metric names of
    [hillmaker.hills.get_summary_df], a function that is not among the
    sources (spec 4.5, Query Facade): a metric is named in full
    (arrivals / departures / occupancy) or by its single-letter
    abbreviation. *)
Definition metric_of_name (name : string) : option flow_metric :=
  if decide (name = "arrivals" ∨ name = "a") then Some Arrivals
  else if decide (name = "departures" ∨ name = "d") then Some Departures
  else if decide (name = "occupancy" ∨ name = "o") then Some Occupancy
  else None.

(** Modelled from the spec: [hillmaker.hills.get_summary_df], which
    [Scenario.get_summary_df] calls and which is not among the sources
    (spec 4.5, Query Facade). It returns the slice of the summary tables
    selected by the metric name, the by-category flag and the stationary
    flag; before the computation has run the result is empty, not an
    error. The spec does not say what an unknown metric name gives: it is
    an error here. *)
Definition hills_get_summary_df (hills : option Hills) (flow_metric : string)
    (by_category stationary : bool) : result (option DataFrame) :=
  match hills with
  | None => Ok None
  | Some h =>
      match metric_of_name flow_metric with
      | Some m => Ok (Some (summaries h stationary by_category m))
      | None => Raise (KeyError flow_metric)
      end
  end.

(** The default of [percentiles]: [(0.25, 0.5, 0.75, 0.95, 0.99)] *)
Definition default_percentiles : float_seq :=
  PyTuple [FFinite (25 # 100); FFinite (5 # 10); FFinite (75 # 100);
           FFinite (95 # 100); FFinite (99 # 100)].

Definition newline : string := String (Ascii.ascii_of_nat 10) EmptyString.

Section scenario.

(** pandas' conversion [pd.Timestamp(v)] of a date-like value: the
    Timestamp, or the message of the ValueError it raises (out of
    bounds, ...). It is the library's; the model is for any such
    conversion. [pystr] is Python's [str(v)], used in messages. *)
Variable pd_Timestamp : pyval → string + datetime64.
Variable pystr : pyval → string.

(** [ts.to_datetime64()] *)
Definition to_datetime64 (ts : datetime64) : pyval := VDatetime64 ts.

(** *** The field validators *)

(** [field_exists], on 'in_field', 'out_field', 'cat_field' and
    'occ_weight_field'. [data] is the frame [info.data['stops_df']] when
    the field 'stops_df' validated; reading it when it did not is a
    KeyError. *)
Definition field_exists (v : option string) (data : option DataFrame)
  : fres (option string) :=
  match v with
  | None => FVal v
  | Some s =>
      match data with
      | None => FRaise (KeyError "stops_df")
      | Some df =>
          if decide (s ∈ columns df) then FVal v
          else FInvalid (ValueErr (s +:+ " is not a column in the dataframe"))
      end
  end.

Definition field_exists_str (data : option DataFrame) (s : string)
  : fres string :=
  fres_bind (field_exists (Some s) data) (λ _, FVal s).

(** [validate_start_end_date] *)
Definition validate_start_end_date (v : pyval) : fres pyval :=
  match pd_Timestamp v with
  | inr analysis_dt_ts =>
      let analysis_dt_np := to_datetime64 analysis_dt_ts in
      FVal analysis_dt_np
  | inl error =>
      FInvalid (ValueErr ("Cannot convert " +:+ pystr v +:+
                          " to to a numpy datetime64 object." +:+
                          newline +:+ error))
  end.

(** [bin_size_minutes_divides]. Python's [%] takes the sign of the
    divisor, as [Z.modulo] does, and raises ZeroDivisionError on 0. *)
Definition bin_size_minutes_divides (v : Z) : fres Z :=
  if decide (v = 0) then FRaise ZeroDivisionError
  else if decide (1440 `mod` v > 0)
  then FInvalid
         (ValueErr "bin_size_minutes must divide into 1440 with no remainder")
  else FVal v.

(** *** The model validators (mode='after') *)

(** [date_relationship] *)
Definition date_relationship (self : Scenario) : M Scenario :=
  b ← lift (py_le (end_analysis_dt self) (start_analysis_dt self));
  if (b : bool) then
    raise (ValidationError [("", ValueErr "end date must be > start date")])
  else (mret self : M Scenario).

(** [preprocess_stops_df] *)
Definition preprocess_stops_df (self : Scenario) : M Scenario :=
  df ← deref (stops_df self);
  in_col ← lift (getitem df (in_field self));
  out_col ← lift (getitem df (out_field self));
  let num_recs_missing_entry_ts := bool_sum (isna in_col) in
  let num_recs_missing_exit_ts := bool_sum (isna out_col) in
  (if decide (0 < num_recs_missing_entry_ts)%nat then
     logger_warning (pretty num_recs_missing_entry_ts +:+
       " records with missing entry timestamps - records ignored")
   else (mret () : M unit));;
  (if decide (0 < num_recs_missing_exit_ts)%nat then
     logger_warning (pretty num_recs_missing_exit_ts +:+
       " records with missing exit timestamps - records ignored")
   else (mret () : M unit));;
  (* a new frame with the necessary columns only *)
  in_col ← lift (getitem df (in_field self));
  out_col ← lift (getitem df (out_field self));
  stops_preprocessed_df ← new_df
    {| df_index := df_index df;
       df_data := dict_set (dict_set [] (in_field self) in_col)
                           (out_field self) out_col |};
  match cat_field self with
  | Some cat =>
      cat_col ← lift (getitem df cat);
      setitem stops_preprocessed_df cat cat_col
  | None => (mret () : M unit)
  end;;
  (* the records that overlap the analysis span and miss no timestamp *)
  pre ← deref stops_preprocessed_df;
  c_in ← lift (getitem pre (in_field self));
  m1 ← lift (series_lt c_in (end_analysis_dt self));
  c_in ← lift (getitem pre (in_field self));
  let m2 := mask_not (isna c_in) in
  c_out ← lift (getitem pre (out_field self));
  let m3 := mask_not (isna c_out) in
  c_out ← lift (getitem pre (out_field self));
  m4 ← lift (series_ge c_out (start_analysis_dt self));
  stops_preprocessed_df ←
    new_df (df_loc pre (mask_and (mask_and (mask_and m1 m2) m3) m4));
  (* sequential numbering *)
  filtered ← deref stops_preprocessed_df;
  stops_preprocessed_df ← new_df (reset_index_drop filtered);
  mret (set_stops_preprocessed_df self stops_preprocessed_df).

(** *** Construction: [Scenario] called with keyword arguments [kw] *)

(** The outcome of every field. *)
Record FieldResults := mkFieldResults {
  r_scenario_name : fres string;
  r_stops_df : fres nat;
  r_in_field : fres string;
  r_out_field : fres string;
  r_start_analysis_dt : fres pyval;
  r_end_analysis_dt : fres pyval;
  r_cat_field : fres (option string);
  r_bin_size_minutes : fres Z;
  r_cats_to_exclude : fres (option (list string));
  r_occ_weight_field : fres (option string);
  r_percentiles : fres float_seq;
  r_nonstationary_stats : fres bool;
  r_stationary_stats : fres bool;
  r_edge_bins : fres EdgeBinsEnum;
  r_output_path : fres path_like;
  r_export_bydatetime_csv : fres bool;
  r_export_summaries_csv : fres bool;
  r_make_all_dow_plots : fres bool;
  r_make_all_week_plots : fres bool;
  r_export_all_dow_plots : fres bool;
  r_export_all_week_plots : fres bool;
  r_cap : fres (option Z);
  r_xlabel : fres (option string);
  r_ylabel : fres (option string);
  r_verbosity : fres Z;
  r_stops_preprocessed_df : fres (option nat);
  r_hills : fres (option Hills)
}.

(** Each field is validated against its annotation, then by its
    validators; a field that is not given takes its default. *)
Definition field_results (h : list DataFrame) (kw : gmap string pyval)
  : FieldResults :=
  let stops := required kw "stops_df" (as_dataframe h) in
  let data := fval stops ≫= λ l, h !! l in
  {| r_scenario_name := required kw "scenario_name" as_str;
     r_stops_df := stops;
     r_in_field :=
       required kw "in_field"
         (λ v, fres_bind (as_str v) (field_exists_str data));
     r_out_field :=
       required kw "out_field"
         (λ v, fres_bind (as_str v) (field_exists_str data));
     r_start_analysis_dt :=
       required kw "start_analysis_dt"
         (λ v, fres_bind (as_datetime_like v) validate_start_end_date);
     r_end_analysis_dt :=
       required kw "end_analysis_dt"
         (λ v, fres_bind (as_datetime_like v) validate_start_end_date);
     r_cat_field :=
       optional kw "cat_field" None
         (λ v, fres_bind (as_str v) (λ s, field_exists (Some s) data));
     r_bin_size_minutes :=
       optional kw "bin_size_minutes" 60
         (λ v, fres_bind (as_int v) bin_size_minutes_divides);
     r_cats_to_exclude := optional kw "cats_to_exclude" None as_opt_str_list;
     r_occ_weight_field :=
       optional kw "occ_weight_field" None
         (λ v, fres_bind (as_opt_str v) (λ o, field_exists o data));
     r_percentiles :=
       optional kw "percentiles" default_percentiles as_percentiles;
     r_nonstationary_stats := optional kw "nonstationary_stats" true as_bool;
     r_stationary_stats := optional kw "stationary_stats" true as_bool;
     r_edge_bins := optional kw "edge_bins" FRACTIONAL as_EdgeBinsEnum;
     r_output_path := optional kw "output_path" (PPath ".") as_path_like;
     r_export_bydatetime_csv :=
       optional kw "export_bydatetime_csv" false as_bool;
     r_export_summaries_csv := optional kw "export_summaries_csv" false as_bool;
     r_make_all_dow_plots := optional kw "make_all_dow_plots" true as_bool;
     r_make_all_week_plots := optional kw "make_all_week_plots" true as_bool;
     r_export_all_dow_plots := optional kw "export_all_dow_plots" false as_bool;
     r_export_all_week_plots :=
       optional kw "export_all_week_plots" false as_bool;
     r_cap := optional kw "cap" None as_opt_int;
     r_xlabel := optional kw "xlabel" (Some "Hour") as_opt_str;
     r_ylabel := optional kw "ylabel" (Some "Patients") as_opt_str;
     r_verbosity :=
       optional kw "verbosity" (VerbosityEnum_value WARNING) as_int;
     r_stops_preprocessed_df :=
       optional kw "stops_preprocessed_df" None (as_opt_dataframe h);
     r_hills := optional kw "hills" None as_opt_hills |}.

(** The exceptions that propagate, in the order of the fields. *)
Definition fr_raises (fr : FieldResults) : list (option exn) :=
  [ fraise (r_scenario_name fr); fraise (r_stops_df fr);
    fraise (r_in_field fr); fraise (r_out_field fr);
    fraise (r_start_analysis_dt fr); fraise (r_end_analysis_dt fr);
    fraise (r_cat_field fr); fraise (r_bin_size_minutes fr);
    fraise (r_cats_to_exclude fr); fraise (r_occ_weight_field fr);
    fraise (r_percentiles fr); fraise (r_nonstationary_stats fr);
    fraise (r_stationary_stats fr); fraise (r_edge_bins fr);
    fraise (r_output_path fr); fraise (r_export_bydatetime_csv fr);
    fraise (r_export_summaries_csv fr); fraise (r_make_all_dow_plots fr);
    fraise (r_make_all_week_plots fr); fraise (r_export_all_dow_plots fr);
    fraise (r_export_all_week_plots fr); fraise (r_cap fr);
    fraise (r_xlabel fr); fraise (r_ylabel fr); fraise (r_verbosity fr);
    fraise (r_stops_preprocessed_df fr); fraise (r_hills fr) ].

(** The errors pydantic collects, in the order of the fields. *)
Definition fr_errors (fr : FieldResults) : list verr :=
  ferr "scenario_name" (r_scenario_name fr) ++
  ferr "stops_df" (r_stops_df fr) ++
  ferr "in_field" (r_in_field fr) ++
  ferr "out_field" (r_out_field fr) ++
  ferr "start_analysis_dt" (r_start_analysis_dt fr) ++
  ferr "end_analysis_dt" (r_end_analysis_dt fr) ++
  ferr "cat_field" (r_cat_field fr) ++
  ferr "bin_size_minutes" (r_bin_size_minutes fr) ++
  ferr "cats_to_exclude" (r_cats_to_exclude fr) ++
  ferr "occ_weight_field" (r_occ_weight_field fr) ++
  ferr "percentiles" (r_percentiles fr) ++
  ferr "nonstationary_stats" (r_nonstationary_stats fr) ++
  ferr "stationary_stats" (r_stationary_stats fr) ++
  ferr "edge_bins" (r_edge_bins fr) ++
  ferr "output_path" (r_output_path fr) ++
  ferr "export_bydatetime_csv" (r_export_bydatetime_csv fr) ++
  ferr "export_summaries_csv" (r_export_summaries_csv fr) ++
  ferr "make_all_dow_plots" (r_make_all_dow_plots fr) ++
  ferr "make_all_week_plots" (r_make_all_week_plots fr) ++
  ferr "export_all_dow_plots" (r_export_all_dow_plots fr) ++
  ferr "export_all_week_plots" (r_export_all_week_plots fr) ++
  ferr "cap" (r_cap fr) ++
  ferr "xlabel" (r_xlabel fr) ++
  ferr "ylabel" (r_ylabel fr) ++
  ferr "verbosity" (r_verbosity fr) ++
  ferr "stops_preprocessed_df" (r_stops_preprocessed_df fr) ++
  ferr "hills" (r_hills fr).

(** The instance, when every field has a value. *)
Definition fr_build (fr : FieldResults) : option Scenario :=
  a1 ← fval (r_scenario_name fr); a2 ← fval (r_stops_df fr);
  a3 ← fval (r_in_field fr); a4 ← fval (r_out_field fr);
  a5 ← fval (r_start_analysis_dt fr); a6 ← fval (r_end_analysis_dt fr);
  a7 ← fval (r_cat_field fr); a8 ← fval (r_bin_size_minutes fr);
  a9 ← fval (r_cats_to_exclude fr); a10 ← fval (r_occ_weight_field fr);
  a11 ← fval (r_percentiles fr); a12 ← fval (r_nonstationary_stats fr);
  a13 ← fval (r_stationary_stats fr); a14 ← fval (r_edge_bins fr);
  a15 ← fval (r_output_path fr); a16 ← fval (r_export_bydatetime_csv fr);
  a17 ← fval (r_export_summaries_csv fr);
  a18 ← fval (r_make_all_dow_plots fr);
  a19 ← fval (r_make_all_week_plots fr);
  a20 ← fval (r_export_all_dow_plots fr);
  a21 ← fval (r_export_all_week_plots fr); a22 ← fval (r_cap fr);
  a23 ← fval (r_xlabel fr); a24 ← fval (r_ylabel fr);
  a25 ← fval (r_verbosity fr); a26 ← fval (r_stops_preprocessed_df fr);
  a27 ← fval (r_hills fr);
  Some (mkScenario a1 a2 a3 a4 a5 a6 a7 a8 a9 a10 a11 a12 a13 a14 a15 a16
          a17 a18 a19 a20 a21 a22 a23 a24 a25 a26 a27).

(** The first exception of a list of outcomes. *)
Fixpoint first_raise (l : list (option exn)) : option exn :=
  match l with
  | [] => None
  | Some x :: _ => Some x
  | None :: l' => first_raise l'
  end.

(** Field validation as a whole: an exception of a validator that is not
    a ValueError propagates from the field it occurs at; otherwise the
    errors of all the fields are raised together as one ValidationError;
    otherwise there is an instance. *)
Definition validate_fields (h : list DataFrame) (kw : gmap string pyval)
  : result Scenario :=
  let fr := field_results h kw in
  match first_raise (fr_raises fr) with
  | Some x => Raise x
  | None =>
      match fr_build fr with
      | Some self => Ok self
      | None => Raise (ValidationError (fr_errors fr))
      end
  end.

(** The constructor call: the fields, then the model validators in the order
    of the class body. *)
Definition Scenario_init (kw : gmap string pyval) : M Scenario :=
  self ← (λ w, (validate_fields (heap w) kw, w));
  self ← date_relationship self;
  preprocess_stops_df self.

(** *** The query methods *)

(** [get_summary_df(self, flow_metric='occupancy', by_category=True,
    stationary=False)] *)
Definition get_summary_df (self : Scenario) (flow_metric : string)
    (by_category stationary : bool) : result (option DataFrame) :=
  let df := hills_get_summary_df (hills self) "o" by_category stationary in
  df.

(** *** [create_scenario] *)

(** [d.update(other)]: the bindings of [other] win. *)
Definition dict_update (d other : gmap string pyval) : gmap string pyval :=
  other ∪ d.

(** [open(toml_path, "rb")] followed by [tomllib.load(f)] *)
Definition tomllib_load (toml_path : string) : M (gmap string pyval) := λ w,
  match files w !! toml_path with
  | None => (Raise (FileNotFoundError toml_path), w)
  | Some None => (Raise (TOMLDecodeError toml_path), w)
  | Some (Some d) => (Ok d, w)
  end.

(** The dict [params] that [create_scenario] builds from its three
    sources. *)
Definition create_scenario_params (params_dict : option (gmap string pyval))
    (toml_path : option string) (kwargs : gmap string pyval)
  : M (gmap string pyval) :=
  let params : gmap string pyval := ∅ in
  let params :=
    match params_dict with
    | Some d => dict_update params d
    | None => params
    end in
  params ←
    match toml_path with
    | Some path =>
        params_toml_dict ← tomllib_load path;
        mret (dict_update params params_toml_dict)
    | None => mret params
    end;
  let params :=
    if decide (0 < size kwargs)%nat then dict_update params kwargs
    else params in
  mret params.

Definition create_scenario (params_dict : option (gmap string pyval))
    (toml_path : option string) (kwargs : gmap string pyval)
  : M Scenario :=
  params ← create_scenario_params params_dict toml_path kwargs;
  Scenario_init params.

End scenario.

(* ===================================================================== *)
(** ** The vocabulary of the statements *)
(* ===================================================================== *)

(** The field 'stops_df' is given as a DataFrame object. *)
Definition stops_df_given (h : list DataFrame) (kw : gmap string pyval)
  : Prop :=
  ∃ l, kw !! "stops_df" = Some (VDataFrame l) ∧ is_Some (h !! l).

(** 'bin_size_minutes' is left out, or is given as a Python int other
    than 0: no conversion by pydantic is involved, and [1440 % v] is
    defined. *)
Definition bin_size_minutes_nonzero_int (kw : gmap string pyval) : Prop :=
  match kw !! "bin_size_minutes" with
  | None => True
  | Some (VInt v) => v ≠ 0
  | Some _ => False
  end.



(** The values the annotation of the analysis dates names. *)
Definition is_datetime_like (v : pyval) : Prop :=
  match v with
  | VDate _ | VDatetime _ | VTimestamp _ | VDatetime64 _ => True
  | _ => False
  end.

(** A float of the closed interval [0, 1]. *)
Definition in_unit_interval (f : pyfloat) : Prop :=
  match f with
  | FFinite q => (0 <= q)%Q ∧ (q <= 1)%Q
  | _ => False
  end.


(** A visit record: the entry cell, the exit cell and the category cell
    (when there is a category field) of one row. *)
Definition visit : Type := cell * cell * option cell.

(** The visit records of a frame, row by row. *)
Definition visits (df : DataFrame) (in_f out_f : string)
    (cat_f : option string) : option (list visit) :=
  i ← dict_get (df_data df) in_f;
  o ← dict_get (df_data df) out_f;
  match cat_f with
  | None => Some ((λ p, (p.1, p.2, None)) <$> zip i o)
  | Some c =>
      cs ← dict_get (df_data df) c;
      Some ((λ p, (p.1.1, p.1.2, Some p.2)) <$> zip (zip i o) cs)
  end.

(** The record has an entry and an exit timestamp, the entry is strictly
    before the end of the analysis span and the exit is at or after its
    start. *)
Definition overlaps (start end_ : datetime64) (v : visit) : Prop :=
  match v.1.1, v.1.2, start, end_ with
  | CTime i, CTime o, Some s, Some e => i < e ∧ s ≤ o
  | _, _, _, _ => False
  end.

Global Instance overlaps_dec start end_ v : Decision (overlaps start end_ v).
Proof.
  unfold overlaps. destruct v as [[[] []] ?], start, end_; simpl; apply _.
Defined.

(* ===================================================================== *)
(** ** The preprocessing, step by step *)
(* ===================================================================== *)

(** The boolean a cell contributes to a comparison that succeeds. *)
Definition cell_cmp_bool (op : datetime64 → datetime64 → bool)
    (t : datetime64) (c : cell) : bool :=
  match c with
  | CTime x => op (Some x) t
  | _ => false
  end.

(** The test the preprocessing applies to the entry and exit cells. *)
Definition overlap_test (start end_ : datetime64) (p : cell * cell) : bool :=
  cell_cmp_bool dt64_lt end_ p.1 && negb (cell_isna p.1) &&
  negb (cell_isna p.2) && cell_cmp_bool dt64_ge start p.2.

(** The columns of the frame that the preprocessing builds before it
    filters: the entry and exit columns, and the category column when there
    is a category field. *)
Definition necessary_columns (self : Scenario) (df : DataFrame)
  : result (list (string * Series)) :=
  match getitem df (in_field self), getitem df (out_field self) with
  | Ok i, Ok o =>
      let d := dict_set (dict_set [] (in_field self) i) (out_field self) o in
      match cat_field self with
      | None => Ok d
      | Some c =>
          match getitem df c with
          | Ok cc => Ok (dict_set d c cc)
          | Raise x => Raise x
          end
      end
  | Raise x, _ | _, Raise x => Raise x
  end.

(** The mask of the records the preprocessing keeps, computed from the
    columns of the new frame. *)
Definition overlap_mask (self : Scenario) (cols : list (string * Series))
  : result (list bool) :=
  match dict_get cols (in_field self) with
  | None => Raise (KeyError (in_field self))
  | Some c_in =>
      match series_lt c_in (end_analysis_dt self) with
      | Raise x => Raise x
      | Ok m1 =>
          match dict_get cols (out_field self) with
          | None => Raise (KeyError (out_field self))
          | Some c_out =>
              match series_ge c_out (start_analysis_dt self) with
              | Raise x => Raise x
              | Ok m4 =>
                  Ok (mask_and
                        (mask_and (mask_and m1 (mask_not (isna c_in)))
                                  (mask_not (isna c_out)))
                        m4)
              end
          end
      end
  end.

(** Exceptions other than pydantic's ValidationError. *)
Definition not_validation (x : exn) : Prop :=
  match x with ValidationError _ => False | _ => True end.

(** The postcondition [Q] holds of the outcome of [m] run from [w]. *)
Definition wp {A} (m : M A) (w : world) (Q : result A → world → Prop)
  : Prop :=
  Q (m w).1 (m w).2.

(** What a run of the preprocessing from the world [w] leaves: the files
    are untouched, the frames of [w] are as they were, and the outcome is
    the failure of the first step that fails, or the scenario with three
    new frames behind it: the necessary columns, their filter, and the
    filter renumbered, which the scenario holds. *)
Definition preprocess_post (self : Scenario) (w : world)
    (r : result Scenario) (w' : world) : Prop :=
  files w' = files w ∧ heap w `prefix_of` heap w' ∧
  match heap w !! stops_df self with
  | None => r = Raise (DanglingReference (stops_df self))
  | Some df =>
      match necessary_columns self df with
      | Raise x => r = Raise x
      | Ok cols =>
          let pre := mkDataFrame (df_index df) cols in
          match overlap_mask self cols with
          | Raise x => r = Raise x
          | Ok m =>
              r = Ok (set_stops_preprocessed_df self (length (heap w) + 2)) ∧
              heap w' =
                heap w ++ [pre; df_loc pre m; reset_index_drop (df_loc pre m)]
          end
      end
  end.

(** A field whose validation cannot raise. *)
Definition never_raises {A} (validate : pyval → fres A) : Prop :=
  ∀ v, fraise (validate v) = None.

(* ===================================================================== *)
(** ** A concrete run, used to exercise the statements *)
(* ===================================================================== *)

(** An instance of pandas' conversion: nanosecond resolution, dates that
    do not fit 64 bits are out of bounds (pandas before version 2; see
    [Timestamp_s] for the later versions). *)
Definition Timestamp_ns (v : pyval) : string + datetime64 :=
  let bounded ns :=
    if decide (- 2 ^ 63 < ns < 2 ^ 63) then inr (Some ns)
    else inl "Out of bounds nanosecond timestamp" in
  match v with
  | VDate days => bounded (days * 86400000000000)
  | VDatetime us => bounded (us * 1000)
  | VTimestamp t | VDatetime64 t => inr t
  | _ => inl "Cannot convert input to Timestamp"
  end.

(** Another instance of pandas' conversion, as from version 2 on: the
    resolution follows the input and is seconds at the coarsest, so that
    only an instant outside the 64-bit range of seconds is out of bounds
    (a numpy datetime64 in years can be; no date or datetime of Python
    is). *)
Definition Timestamp_s (v : pyval) : string + datetime64 :=
  let bounded ns :=
    if decide (- 2 ^ 63 < ns `div` 1000000000 < 2 ^ 63) then inr (Some ns)
    else inl "Out of bounds timestamp" in
  match v with
  | VDate days => bounded (days * 86400000000000)
  | VDatetime us => bounded (us * 1000)
  | VTimestamp t => inr t
  | VDatetime64 (Some ns) => bounded ns
  | VDatetime64 None => inr None
  | _ => inl "Cannot convert input to Timestamp"
  end.

(** An instance of [str], for the messages of the examples. *)
Definition str_example (v : pyval) : string :=
  match v with
  | VDate _ => "<date>"
  | VDatetime _ => "<datetime>"
  | _ => "<object>"
  end.

(** Five stop records over the analysis span [10, 100): one before the
    span, one inside, one without entry timestamp, one after the span,
    and one whose exit (20) precedes its entry (40). *)
Definition ex_stops : DataFrame :=
  {| df_index := [0; 1; 2; 3; 4];
     df_data :=
       [("InRoomTS", [CTime 5; CTime 50; CNaT; CTime 200; CTime 40]);
        ("OutRoomTS", [CTime 8; CTime 150; CTime 60; CTime 300; CTime 20]);
        ("PatType", [CStr "a"; CStr "b"; CStr "a"; CStr "c"; CStr "d"]);
        ("Severity", [CNum 1; CNum 2; CNum 1; CNum 3; CNum 1])] |}.

(** The world of the example holds that frame only. *)
Definition ex_world : world :=
  {| heap := [ex_stops]; log := []; files := ∅ |}.

(** The required parameters, and none of the optional ones. *)
Definition ex_kwargs : gmap string pyval :=
  list_to_map
    [("scenario_name", VStr "ex"); ("stops_df", VDataFrame 0%nat);
     ("in_field", VStr "InRoomTS"); ("out_field", VStr "OutRoomTS");
     ("start_analysis_dt", VDatetime64 (Some 10));
     ("end_analysis_dt", VDatetime64 (Some 100))].

(** A world with a TOML file, and the three sources of an example. *)
Definition ex_toml : gmap string pyval :=
  list_to_map [("bin_size_minutes", VInt 30); ("cap", VInt 12)].

Definition ex_world_toml : world :=
  {| heap := [ex_stops]; log := [];
     files := {["scenario.toml" := Some ex_toml]} |}.

Definition ex_params_dict : gmap string pyval :=
  list_to_map [("bin_size_minutes", VInt 15); ("cap", VInt 8);
               ("verbosity", VInt 1)].

(** The results of a computed scenario, for an example: each summary
    table holds the name of its metric. *)
Definition flow_metric_name (m : flow_metric) : string :=
  match m with
  | Arrivals => "arrivals"
  | Departures => "departures"
  | Occupancy => "occupancy"
  end.

Definition ex_hills : Hills :=
  {| summaries := λ stationary by_category m,
       {| df_index := [0];
          df_data := [("metric", [CStr (flow_metric_name m)])] |};
     bydatetime := λ by_category,
       {| df_index := []; df_data := [] |} |}.

Definition ex_computed : Scenario :=
  mkScenario "ex" 0 "InRoomTS" "OutRoomTS" (VDatetime64 (Some 10))
    (VDatetime64 (Some 100)) None 60 None None default_percentiles true true
    FRACTIONAL (PPath ".") false false true true false false None
    (Some "Hour") (Some "Patients") 0 (Some 3%nat) (Some ex_hills).

(* ===================================================================== *)
(** ** The vocabulary of the further properties *)
(* ===================================================================== *)

(** Every column of the frame has one cell per row label. *)
Definition df_wf (df : DataFrame) : Prop :=
  Forall (λ c, length c.2 = length (df_index df)) (df_data df).

(** The names of the fields without default. *)
Definition required_fields : list string :=
  ["scenario_name"; "stops_df"; "in_field"; "out_field";
   "start_analysis_dt"; "end_analysis_dt"].

(** The names of the fields [field_exists] validates. *)
Definition column_fields : list string :=
  ["in_field"; "out_field"; "cat_field"; "occ_weight_field"].

(** The warnings of the preprocessing for an entry and an exit column:
    one for the entry column and one for the exit column, each only when
    the column has missing values, with their number. *)
Definition missing_warnings (in_col out_col : Series) : list string :=
  (if decide (0 < bool_sum (isna in_col))%nat
   then [pretty (bool_sum (isna in_col)) +:+
         " records with missing entry timestamps - records ignored"]
   else []) ++
  (if decide (0 < bool_sum (isna out_col))%nat
   then [pretty (bool_sum (isna out_col)) +:+
         " records with missing exit timestamps - records ignored"]
   else []).

(** A computation that writes nothing to the log. *)
Definition keeps_log {A} (m : M A) : Prop := ∀ w, log (m w).2 = log w.

(** Three stop records, two without entry timestamp and one without exit
    timestamp, and the world that holds them. *)
Definition ex_stops_missing : DataFrame :=
  {| df_index := [0; 1; 2];
     df_data := [("InRoomTS", [CTime 20; CNaT; CNull]);
                 ("OutRoomTS", [CNaT; CTime 30; CTime 40])] |}.

Definition ex_world_missing : world :=
  {| heap := [ex_stops_missing]; log := []; files := ∅ |}.

(* ===================================================================== *)
(** ** Dictionaries, masks and comparisons *)
(* ===================================================================== *)

(** Reading a dict after an assignment. *)
Lemma dict_get_set {A} (d : list (string * A)) k v k' :
  dict_get (dict_set d k v) k' =
  if decide (k = k') then Some v else dict_get d k'.
Proof.
  induction d as [|[k0 v0] d IH]; simpl.
  - repeat case_decide; congruence.
  - destruct (decide (k0 = k)) as [->|Hne]; simpl.
    + repeat case_decide; congruence.
    + rewrite IH. repeat case_decide; congruence.
Qed.

(** The columns of a frame whose columns were all transformed. *)
Lemma dict_get_fmap {A B} (f : A → B) (d : list (string * A)) k :
  dict_get (prod_map id f <$> d) k = f <$> dict_get d k.
Proof.
  induction d as [|[k0 v0] d IH]; simpl; [done|].
  case_decide; [done|apply IH].
Qed.

(** Selecting the rows of two columns selects the rows of their zip. *)
Lemma mask_filter_zip {A B} (m : list bool) (a : list A) (b : list B) :
  mask_filter m (zip a b) = zip (mask_filter m a) (mask_filter m b).
Proof.
  revert a b. induction m as [|x m IH]; intros [|a0 a] [|b0 b]; simpl; try done.
  - by rewrite zip_with_nil_r.
  - destruct x; simpl; by rewrite IH.
Qed.

(** A comparison that succeeds has compared every cell. *)
Lemma series_cmp_Ok op s t m :
  series_cmp op s t = Ok m → m = cell_cmp_bool op t <$> s.
Proof.
  revert m. induction s as [|c s IH]; simpl; intros m.
  - by intros [= <-].
  - destruct (cell_cmp op t c) as [b|x] eqn:Ec; [|done].
    destruct (series_cmp op s t) as [m'|x]; [|done].
    intros [= <-]. rewrite (IH m' eq_refl). f_equal.
    destruct c; simpl in *; congruence.
Qed.

(** A comparison that fails raises TypeError. *)
Lemma series_cmp_not_validation op s t x :
  series_cmp op s t = Raise x → ∃ msg, x = TypeError msg.
Proof.
  induction s as [|c s IH]; simpl; [done|].
  destruct (cell_cmp op t c) as [b|y] eqn:Ec.
  - destruct (series_cmp op s t) as [m'|y']; [done|].
    intros [= <-]. by apply IH.
  - intros [= <-]. destruct c; simpl in Ec; try done; injection Ec as <-; eauto.
Qed.

(* ===================================================================== *)
(** ** Running the preprocessing *)
(* ===================================================================== *)

(** The rules of the monad: sequencing, return, and the primitives. *)
Lemma wp_bind {A B} (m : M A) (f : A → M B) w Q :
  wp m w (λ r w1, match r with
                  | Ok a => wp (f a) w1 Q
                  | Raise x => Q (Raise x) w1
                  end) →
  wp (m ≫= f) w Q.
Proof. unfold wp, mbind, M_bind. by destruct (m w) as [[a|x] w1]. Qed.

Lemma wp_ret {A} (a : A) w (Q : result A → world → Prop) :
  Q (Ok a) w → wp (mret a) w Q.
Proof. done. Qed.

Lemma wp_lift {A} (r : result A) w (Q : result A → world → Prop) :
  Q r w → wp (lift r) w Q.
Proof. done. Qed.

Lemma wp_deref l w (Q : result DataFrame → world → Prop) :
  match heap w !! l with
  | Some df => Q (Ok df) w
  | None => Q (Raise (DanglingReference l)) w
  end → wp (deref l) w Q.
Proof. unfold wp, deref. by destruct (heap w !! l). Qed.

Lemma wp_new_df df w (Q : result nat → world → Prop) :
  Q (Ok (length (heap w)))
    {| heap := heap w ++ [df]; log := log w; files := files w |} →
  wp (new_df df) w Q.
Proof. done. Qed.

Lemma wp_setitem l name s w (Q : result unit → world → Prop) :
  match heap w !! l with
  | Some df =>
      Q (Ok ())
        {| heap :=
             <[l := {| df_index := df_index df;
                       df_data := dict_set (df_data df) name s |}]> (heap w);
           log := log w; files := files w |}
  | None => Q (Raise (DanglingReference l)) w
  end → wp (setitem l name s) w Q.
Proof. unfold wp, setitem. by destruct (heap w !! l). Qed.

(** A conditional warning changes the log only. *)
Lemma wp_warn_if (P : Prop) `{Decision P} msg w
    (Q : result unit → world → Prop) :
  (∀ lg, Q (Ok ())
           {| heap := heap w; log := log w ++ lg; files := files w |}) →
  wp (if decide P then logger_warning msg else (mret () : M unit)) w Q.
Proof.
  intros HQ. case_decide; [apply (HQ [msg])|].
  specialize (HQ []). rewrite app_nil_r in HQ. by destruct w.
Qed.

Lemma getitem_not_validation df k x :
  getitem df k = Raise x → not_validation x.
Proof. unfold getitem. case_match; [done|]. by intros [= <-]. Qed.

(** Assigning to the object allocated last. *)
Lemma insert_last {A} (h : list A) (y x : A) :
  <[length h := x]> (h ++ [y]) = h ++ [x].
Proof.
  rewrite insert_app_r_alt by done. by rewrite Nat.sub_diag.
Qed.

Lemma series_lt_not_validation s v x :
  series_lt s v = Raise x → not_validation x.
Proof.
  destruct v; simpl; try by intros [= <-].
  by intros [msg ->]%series_cmp_not_validation.
Qed.

Lemma series_ge_not_validation s v x :
  series_ge s v = Raise x → not_validation x.
Proof.
  destruct v; simpl; try by intros [= <-].
  by intros [msg ->]%series_cmp_not_validation.
Qed.

(** The run of [preprocess_stops_df], followed step by step. *)
Lemma preprocess_stops_df_run self w :
  wp (preprocess_stops_df self) w (preprocess_post self w).
Proof.
  unfold preprocess_stops_df, preprocess_post.
  apply wp_bind, wp_deref.
  destruct (heap w !! stops_df self) as [df|] eqn:Hdf; [|by repeat split].
  unfold necessary_columns.
  apply wp_bind, wp_lift.
  destruct (getitem df (in_field self)) as [in_col|x] eqn:Hin;
    [|by repeat split].
  apply wp_bind, wp_lift.
  destruct (getitem df (out_field self)) as [out_col|x] eqn:Hout;
    [|by repeat split].
  apply wp_bind, wp_warn_if; intros lg1.
  apply wp_bind, wp_warn_if; intros lg2; cbn [heap log files].
  apply wp_bind, wp_lift.
  apply wp_bind, wp_lift.
  apply wp_bind, wp_new_df; cbn [heap log files].
  set (d2 := dict_set (dict_set [] (in_field self) in_col)
                      (out_field self) out_col).
  (* the steps after the category column, from the columns [cols] *)
  match goal with |- wp (_ ≫= ?K) _ ?Q =>
    assert (∀ cols lgs,
      wp (K ()) {| heap := heap w ++ [mkDataFrame (df_index df) cols];
                   log := lgs; files := files w |}
         (λ r w',
            files w' = files w ∧ heap w `prefix_of` heap w' ∧
            let pre := mkDataFrame (df_index df) cols in
            match overlap_mask self cols with
            | Raise x => r = Raise x
            | Ok m =>
                r = Ok (set_stops_preprocessed_df self
                          (length (heap w) + 2)) ∧
                heap w' =
                  heap w ++ [pre; df_loc pre m; reset_index_drop (df_loc pre m)]
            end)) as Htail
  end.
  { intros cols lgs; cbn beta. unfold overlap_mask.
    apply wp_bind, wp_deref; cbn [heap log files].
    rewrite list_lookup_middle by done.
    unfold getitem; cbn [df_data].
    apply wp_bind, wp_lift.
    destruct (dict_get cols (in_field self)) as [c_in|] eqn:Hcin;
      [|by repeat split; try apply prefix_app_r].
    apply wp_bind, wp_lift.
    destruct (series_lt c_in (end_analysis_dt self)) as [m1|x] eqn:Hm1;
      [|by repeat split; try apply prefix_app_r].
    apply wp_bind, wp_lift.
    apply wp_bind, wp_lift.
    destruct (dict_get cols (out_field self)) as [c_out|] eqn:Hcout;
      [|by repeat split; try apply prefix_app_r].
    apply wp_bind, wp_lift.
    apply wp_bind, wp_lift.
    destruct (series_ge c_out (start_analysis_dt self)) as [m4|x] eqn:Hm4;
      [|by repeat split; try apply prefix_app_r].
    apply wp_bind, wp_new_df; cbn [heap log files].
    apply wp_bind, wp_deref; cbn [heap log files].
    rewrite list_lookup_middle by done.
    apply wp_bind, wp_new_df; cbn [heap log files].
    apply wp_ret.
    split; [done|]. rewrite <- !(assoc_L (++)).
    split; [by apply prefix_app_r|]. split; [|done].
    rewrite !length_app; simpl. repeat f_equal; lia. }
  apply wp_bind.
  destruct (cat_field self) as [cat|] eqn:Hcat.
  - apply wp_bind, wp_lift.
    destruct (getitem df cat) as [cc|x] eqn:Hcc;
      [|by repeat split; try apply prefix_app_r].
    apply wp_setitem; cbn [heap log files].
    rewrite list_lookup_middle by done. cbn [df_index df_data].
    rewrite insert_last. apply Htail.
  - apply wp_ret, Htail.
Qed.

(** The same, for a run whose outcome is named. *)
Lemma preprocess_stops_df_post self w r w' :
  preprocess_stops_df self w = (r, w') → preprocess_post self w r w'.
Proof.
  intros Hrun. pose proof (preprocess_stops_df_run self w) as Hpost.
  unfold wp in Hpost. by rewrite Hrun in Hpost.
Qed.

Lemma necessary_columns_Raise self df x :
  necessary_columns self df = Raise x → not_validation x.
Proof.
  unfold necessary_columns.
  destruct (getitem df (in_field self)) eqn:?;
    [|intros [= <-]; by eapply getitem_not_validation].
  destruct (getitem df (out_field self)) eqn:?;
    [|intros [= <-]; by eapply getitem_not_validation].
  destruct (cat_field self) as [c|]; [|done].
  destruct (getitem df c) eqn:?; [done|].
  intros [= <-]; by eapply getitem_not_validation.
Qed.

Lemma overlap_mask_Raise self cols x :
  overlap_mask self cols = Raise x → not_validation x.
Proof.
  unfold overlap_mask.
  destruct (dict_get cols (in_field self)); [|by intros [= <-]].
  destruct (series_lt _ _) eqn:?;
    [|intros [= <-]; by eapply series_lt_not_validation].
  destruct (dict_get cols (out_field self)); [|by intros [= <-]].
  destruct (series_ge _ _) eqn:?; [done|].
  intros [= <-]; by eapply series_ge_not_validation.
Qed.

(** The preprocessing raises no ValidationError. *)
Lemma preprocess_stops_df_Raise self w x w' :
  preprocess_stops_df self w = (Raise x, w') → not_validation x.
Proof.
  intros (_ & _ & H)%preprocess_stops_df_post.
  destruct (heap w !! stops_df self) as [df|]; [|by injection H as ->].
  destruct (necessary_columns self df) as [cols|y] eqn:Hc.
  - cbv zeta in H. destruct (overlap_mask self cols) as [m|y] eqn:Hm.
    + by destruct H.
    + injection H as ->. by eapply overlap_mask_Raise.
  - injection H as ->. by eapply necessary_columns_Raise.
Qed.

(** The preprocessing leaves the existing frames as they are. *)
Lemma preprocess_stops_df_prefix self w r w' :
  preprocess_stops_df self w = (r, w') → heap w `prefix_of` heap w'.
Proof. by intros (_ & ? & _)%preprocess_stops_df_post. Qed.

(** A successful preprocessing, step by step. *)
Lemma preprocess_stops_df_Ok self w sc w' :
  preprocess_stops_df self w = (Ok sc, w') →
  ∃ df cols c_in c_out m1 m4,
    heap w !! stops_df self = Some df ∧
    necessary_columns self df = Ok cols ∧
    dict_get cols (in_field self) = Some c_in ∧
    dict_get cols (out_field self) = Some c_out ∧
    series_lt c_in (end_analysis_dt self) = Ok m1 ∧
    series_ge c_out (start_analysis_dt self) = Ok m4 ∧
    let pre := mkDataFrame (df_index df) cols in
    let m := mask_and (mask_and (mask_and m1 (mask_not (isna c_in)))
                                (mask_not (isna c_out))) m4 in
    heap w' = heap w ++ [pre; df_loc pre m; reset_index_drop (df_loc pre m)] ∧
    sc = set_stops_preprocessed_df self (length (heap w) + 2).
Proof.
  intros (_ & _ & H)%preprocess_stops_df_post.
  destruct (heap w !! stops_df self) as [df|] eqn:Hdf; [|done].
  destruct (necessary_columns self df) as [cols|y] eqn:Hcols; [|done].
  cbv zeta in H. unfold overlap_mask in H.
  destruct (dict_get cols (in_field self)) as [c_in|] eqn:Hin; [|done].
  destruct (series_lt _ _) as [m1|] eqn:Hm1; [|done].
  destruct (dict_get cols (out_field self)) as [c_out|] eqn:Hout; [|done].
  destruct (series_ge _ _) as [m4|] eqn:Hm4; [|done].
  destruct H as [[= ->] Hheap].
  by exists df, cols, c_in, c_out, m1, m4.
Qed.

(** The steps that write nothing to the log. *)
Lemma keeps_log_bind {A B} (m : M A) (f : A → M B) :
  keeps_log m → (∀ a, keeps_log (f a)) → keeps_log (m ≫= f).
Proof.
  intros Hm Hf w. unfold mbind, M_bind. specialize (Hm w).
  destruct (m w) as [[a|x] w1]; simpl in *; [|done].
  by rewrite Hf.
Qed.

Lemma keeps_log_ret {A} (a : A) : keeps_log (mret a).
Proof. done. Qed.

Lemma keeps_log_lift {A} (r : result A) : keeps_log (lift r).
Proof. done. Qed.

Lemma keeps_log_deref l : keeps_log (deref l).
Proof. intros w. unfold deref. by destruct (heap w !! l). Qed.

Lemma keeps_log_new_df df : keeps_log (new_df df).
Proof. done. Qed.

Lemma keeps_log_setitem l name s : keeps_log (setitem l name s).
Proof. intros w. unfold setitem. by destruct (heap w !! l). Qed.

(** A conditional warning, run. *)
Lemma warn_if_run {B} (P : Prop) `{Decision P} msg (f : unit → M B) w :
  ((if decide P then logger_warning msg else (mret () : M unit)) ≫= f) w =
  f () {| heap := heap w; log := log w ++ (if decide P then [msg] else []);
          files := files w |}.
Proof.
  unfold mbind, M_bind. case_decide; [done|].
  simpl. rewrite app_nil_r. by destruct w.
Qed.

(** The log after the preprocessing of a frame that has the entry and
    exit columns. *)
Lemma preprocess_stops_df_log self w df in_col out_col :
  heap w !! stops_df self = Some df →
  dict_get (df_data df) (in_field self) = Some in_col →
  dict_get (df_data df) (out_field self) = Some out_col →
  log (preprocess_stops_df self w).2 =
  log w ++ missing_warnings in_col out_col.
Proof.
  intros Hdf Hin Hout. unfold preprocess_stops_df.
  unfold mbind at 1, M_bind at 1, deref. rewrite Hdf.
  unfold getitem. rewrite Hin, Hout.
  unfold mbind at 1, M_bind at 1, lift at 1.
  unfold mbind at 1, M_bind at 1, lift at 1.
  rewrite warn_if_run, warn_if_run. cbn [heap log files].
  match goal with |- log (?m ?w0).2 = _ =>
    assert (keeps_log m) as Hk; [|rewrite (Hk w0)]
  end.
  { repeat first
      [ apply keeps_log_bind; [|intros ?]
      | apply keeps_log_lift | apply keeps_log_ret | apply keeps_log_deref
      | apply keeps_log_new_df | apply keeps_log_setitem
      | match goal with |- keeps_log (match ?c with _ => _ end) =>
          destruct c end ]. }
  cbn [log]. unfold missing_warnings. by rewrite <- (assoc_L (++)).
Qed.

(* ===================================================================== *)
(** ** Validation of the fields *)
(* ===================================================================== *)

(** A field whose validator cannot raise does not raise. *)
Lemma fraise_required {A} kw name (validate : pyval → fres A) :
  never_raises validate → fraise (required kw name validate) = None.
Proof. intros Hv. unfold required. case_match; [apply Hv|done]. Qed.

Lemma fraise_optional {A} kw name (d : A) (validate : pyval → fres A) :
  never_raises validate → fraise (optional kw name d validate) = None.
Proof. intros Hv. unfold optional. case_match; [apply Hv|done]. Qed.

Lemma validate_items_never_raises {A} (validate : pyval → fres A) :
  never_raises validate → ∀ l, fraise (validate_items validate l) = None.
Proof.
  intros Hv l. induction l as [|v l IH]; simpl; [done|].
  specialize (Hv v). destruct (validate v); simpl in *; try done.
  by destruct (validate_items validate l).
Qed.

Lemma confloat_never_raises : never_raises confloat_ge0_le1.
Proof. intros v. unfold confloat_ge0_le1. by repeat case_match. Qed.

Lemma as_percentiles_never_raises : never_raises as_percentiles.
Proof.
  pose proof confloat_never_raises as Hc.
  intros v. unfold as_percentiles.
  destruct v as [| | | | |l|l| | | | | | |]; try done.
  - pose proof (validate_items_never_raises _ Hc l) as Hl.
    by destruct (validate_items confloat_ge0_le1 l).
  - destruct l as [|x [|y l]].
    + done.
    + specialize (Hc x). by destruct (confloat_ge0_le1 x).
    + pose proof (validate_items_never_raises _ Hc (x :: y :: l)) as Hl.
      by destruct (validate_items confloat_ge0_le1 (x :: y :: l)).
Qed.

Ltac plain_validator :=
  intros v;
  unfold as_str, as_opt_str, as_int, as_opt_int, as_bool, as_opt_str_list,
    as_path_like, as_EdgeBinsEnum, as_opt_hills, as_datetime_like,
    as_dataframe, as_opt_dataframe;
  by repeat case_match.

Lemma as_str_never_raises : never_raises as_str.
Proof. plain_validator. Qed.
Lemma as_opt_str_never_raises : never_raises as_opt_str.
Proof. plain_validator. Qed.
Lemma as_int_never_raises : never_raises as_int.
Proof. plain_validator. Qed.
Lemma as_opt_int_never_raises : never_raises as_opt_int.
Proof. plain_validator. Qed.
Lemma as_bool_never_raises : never_raises as_bool.
Proof. plain_validator. Qed.
Lemma as_opt_str_list_never_raises : never_raises as_opt_str_list.
Proof. plain_validator. Qed.
Lemma as_path_like_never_raises : never_raises as_path_like.
Proof. plain_validator. Qed.
Lemma as_EdgeBinsEnum_never_raises : never_raises as_EdgeBinsEnum.
Proof. plain_validator. Qed.
Lemma as_opt_hills_never_raises : never_raises as_opt_hills.
Proof. plain_validator. Qed.
Lemma as_dataframe_never_raises h : never_raises (as_dataframe h).
Proof. plain_validator. Qed.
Lemma as_opt_dataframe_never_raises h : never_raises (as_opt_dataframe h).
Proof. plain_validator. Qed.

Create HintDb never_raises.
#[global] Hint Resolve confloat_never_raises as_percentiles_never_raises
  as_str_never_raises as_opt_str_never_raises as_int_never_raises
  as_opt_int_never_raises as_bool_never_raises as_opt_str_list_never_raises
  as_path_like_never_raises as_EdgeBinsEnum_never_raises
  as_opt_hills_never_raises as_dataframe_never_raises
  as_opt_dataframe_never_raises : never_raises.

(** The frame [field_exists] reads is there exactly when 'stops_df' is
    given. *)
Lemma stops_df_given_data h kw :
  stops_df_given h kw ↔
  is_Some (fval (required kw "stops_df" (as_dataframe h)) ≫= λ l, h !! l).
Proof.
  unfold stops_df_given, required, as_dataframe. split.
  - intros (l & -> & Hl). by rewrite decide_True.
  - destruct (kw !! "stops_df") as [v|]; [|by intros [? [=]]].
    destruct v; try by intros [? [=]].
    case_decide; [|by intros [? [=]]]. eauto.
Qed.

(** The exceptions of the validators: the KeyError of [field_exists],
    the ZeroDivisionError of [bin_size_minutes_divides]. *)
Lemma fraise_field_exists o data x :
  fraise (field_exists o data) = Some x →
  x = KeyError "stops_df" ∧ data = None.
Proof.
  unfold field_exists. destruct o as [s|]; [|done].
  destruct data as [df|]; [by case_decide|]. by intros [= <-].
Qed.

Lemma fraise_bin_size_minutes_divides v x :
  fraise (bin_size_minutes_divides v) = Some x →
  x = ZeroDivisionError ∧ v = 0.
Proof.
  unfold bin_size_minutes_divides. case_decide; [by intros [= <-]|].
  by case_decide.
Qed.

Lemma fraise_str_field_exists kw name data x :
  fraise (required kw name
            (λ v, fres_bind (as_str v) (field_exists_str data))) = Some x →
  x = KeyError "stops_df" ∧ data = None.
Proof.
  unfold required, field_exists_str. destruct (kw !! name) as [v|]; [|done].
  destruct v; simpl; try done.
  destruct data as [df|]; [by case_decide|]. by intros [= <-].
Qed.

Lemma fraise_cat_field_exists kw name data x :
  fraise (optional kw name None
            (λ v, fres_bind (as_str v) (λ s, field_exists (Some s) data)))
    = Some x →
  x = KeyError "stops_df" ∧ data = None.
Proof.
  unfold optional. destruct (kw !! name) as [v|]; [|done].
  destruct v; cbn [as_str as_opt_str fres_bind]; try done;
    apply fraise_field_exists.
Qed.

Lemma fraise_occ_field_exists kw name data x :
  fraise (optional kw name None
            (λ v, fres_bind (as_opt_str v) (λ o, field_exists o data)))
    = Some x →
  x = KeyError "stops_df" ∧ data = None.
Proof.
  unfold optional. destruct (kw !! name) as [v|]; [|done].
  destruct v; cbn [as_str as_opt_str fres_bind]; try done;
    apply fraise_field_exists.
Qed.

Lemma fraise_bin_size kw x :
  fraise (optional kw "bin_size_minutes" 60
            (λ v, fres_bind (as_int v) bin_size_minutes_divides)) = Some x →
  x = ZeroDivisionError ∧ kw !! "bin_size_minutes" = Some (VInt 0).
Proof.
  unfold optional. destruct (kw !! "bin_size_minutes") as [v|]; [|done].
  destruct v; simpl; try done.
  by intros [-> ->]%fraise_bin_size_minutes_divides.
Qed.

Section properties.

Context (pd_Timestamp : pyval → string + datetime64).
Context (pystr : pyval → string).

Lemma validate_start_end_date_never_raises :
  never_raises
    (λ v, fres_bind (as_datetime_like v)
            (validate_start_end_date pd_Timestamp pystr)).
Proof.
  intros v. unfold as_datetime_like, validate_start_end_date.
  destruct v; simpl; try done; by destruct (pd_Timestamp _).
Qed.

(** Only two exceptions propagate from the validation of the fields: the
    KeyError of [field_exists] when 'stops_df' is not a valid frame, and
    the ZeroDivisionError of a bin size 0. *)
Lemma first_raise_cases h kw x :
  first_raise (fr_raises (field_results pd_Timestamp pystr h kw)) = Some x →
  (x = KeyError "stops_df" ∧ ¬ stops_df_given h kw) ∨
  (x = ZeroDivisionError ∧ kw !! "bin_size_minutes" = Some (VInt 0)).
Proof.
  unfold fr_raises, field_results;
    cbn [r_scenario_name r_stops_df r_in_field r_out_field
    r_start_analysis_dt r_end_analysis_dt r_cat_field r_bin_size_minutes
    r_cats_to_exclude r_occ_weight_field r_percentiles r_nonstationary_stats
    r_stationary_stats r_edge_bins r_output_path r_export_bydatetime_csv
    r_export_summaries_csv r_make_all_dow_plots r_make_all_week_plots
    r_export_all_dow_plots r_export_all_week_plots r_cap r_xlabel r_ylabel
    r_verbosity r_stops_preprocessed_df r_hills].
  repeat match goal with
  | |- context [fraise (required ?kw ?n ?f)] =>
      rewrite (fraise_required kw n f)
        by eauto using validate_start_end_date_never_raises with never_raises
  | |- context [fraise (optional ?kw ?n ?d ?f)] =>
      rewrite (fraise_optional kw n d f)
        by eauto using validate_start_end_date_never_raises with never_raises
  end.
  cbn [first_raise].
  pose proof (stops_df_given_data h kw) as Hdata.
  set (data := fval (required kw "stops_df" (as_dataframe h)) ≫= λ l, h !! l)
    in *.
  assert (data = None → ¬ stops_df_given h kw) as Hnone.
  { intros Hd [? Hs]%Hdata. by rewrite Hd in Hs. }
  repeat match goal with
  | |- match fraise ?r with _ => _ end = Some x → _ =>
      let E := fresh "E" in
      destruct (fraise r) eqn:E;
        [intros [= ->];
         first [apply fraise_str_field_exists in E as [-> ?]; left
               |apply fraise_cat_field_exists in E as [-> ?]; left
               |apply fraise_occ_field_exists in E as [-> ?]; left
               |apply fraise_bin_size in E as [-> ?]; right]; by auto|]
  end.
  done.
Qed.

(** An instance is built from the values of the fields. *)
Lemma fr_build_Some fr sc :
  fr_build fr = Some sc →
  fr = mkFieldResults
         (FVal (scenario_name sc)) (FVal (stops_df sc)) (FVal (in_field sc))
         (FVal (out_field sc)) (FVal (start_analysis_dt sc))
         (FVal (end_analysis_dt sc)) (FVal (cat_field sc))
         (FVal (bin_size_minutes sc)) (FVal (cats_to_exclude sc))
         (FVal (occ_weight_field sc)) (FVal (percentiles sc))
         (FVal (nonstationary_stats sc)) (FVal (stationary_stats sc))
         (FVal (edge_bins sc)) (FVal (output_path sc))
         (FVal (export_bydatetime_csv sc)) (FVal (export_summaries_csv sc))
         (FVal (make_all_dow_plots sc)) (FVal (make_all_week_plots sc))
         (FVal (export_all_dow_plots sc)) (FVal (export_all_week_plots sc))
         (FVal (cap sc)) (FVal (xlabel sc)) (FVal (ylabel sc))
         (FVal (verbosity sc)) (FVal (stops_preprocessed_df sc))
         (FVal (hills sc)).
Proof.
  destruct fr.
  unfold fr_build; cbn [r_scenario_name r_stops_df r_in_field r_out_field
    r_start_analysis_dt r_end_analysis_dt r_cat_field r_bin_size_minutes
    r_cats_to_exclude r_occ_weight_field r_percentiles r_nonstationary_stats
    r_stationary_stats r_edge_bins r_output_path r_export_bydatetime_csv
    r_export_summaries_csv r_make_all_dow_plots r_make_all_week_plots
    r_export_all_dow_plots r_export_all_week_plots r_cap r_xlabel r_ylabel
    r_verbosity r_stops_preprocessed_df r_hills].
  repeat match goal with
  | |- (fval ?r ≫= _) = _ → _ =>
      destruct r as [?| |]; [cbn [fval mbind option_bind]|by intros [=]..]
  end.
  by intros [= <-].
Qed.

(** The two outcomes of the validation of the fields. *)
Lemma validate_fields_Ok h kw sc :
  validate_fields pd_Timestamp pystr h kw = Ok sc →
  fr_build (field_results pd_Timestamp pystr h kw) = Some sc.
Proof. unfold validate_fields. repeat case_match; congruence. Qed.

Lemma validate_fields_Raise h kw x :
  validate_fields pd_Timestamp pystr h kw = Raise x →
  (first_raise (fr_raises (field_results pd_Timestamp pystr h kw)) = Some x) ∨
  (first_raise (fr_raises (field_results pd_Timestamp pystr h kw)) = None ∧
   fr_build (field_results pd_Timestamp pystr h kw) = None ∧
   x = ValidationError (fr_errors (field_results pd_Timestamp pystr h kw))).
Proof.
  unfold validate_fields. repeat case_match; try done.
  - intros [= <-]. by left.
  - intros [= <-]. by right.
Qed.

(** The three ways in which the constructor returns. *)
Lemma Scenario_init_cases kw w :
  match validate_fields pd_Timestamp pystr (heap w) kw with
  | Raise x => Scenario_init pd_Timestamp pystr kw w = (Raise x, w)
  | Ok self =>
      match py_le (end_analysis_dt self) (start_analysis_dt self) with
      | Raise x => Scenario_init pd_Timestamp pystr kw w = (Raise x, w)
      | Ok true =>
          Scenario_init pd_Timestamp pystr kw w =
          (Raise (ValidationError
                    [("", ValueErr "end date must be > start date")]), w)
      | Ok false =>
          Scenario_init pd_Timestamp pystr kw w = preprocess_stops_df self w
      end
  end.
Proof.
  unfold Scenario_init, mbind, M_bind, date_relationship, lift.
  destruct (validate_fields _ _ _ _) as [self|x]; [|done].
  destruct (py_le _ _) as [[|]|x]; done.
Qed.

End properties.

(* ===================================================================== *)
(** ** The records of the preprocessed frame *)
(* ===================================================================== *)

(** The test of the preprocessing is the overlap of the record with the
    analysis span. *)
Lemma overlap_test_spec start end_ a b c :
  overlap_test start end_ (a, b) = true ↔ overlaps start end_ (a, b, c).
Proof.
  unfold overlap_test, overlaps, dt64_ge, dt64_le, dt64_lt.
  destruct a, b, start, end_; simpl;
    rewrite ?andb_true_r, ?andb_false_r, ?andb_true_iff,
      ?bool_decide_eq_true; try tauto; try (split; [done|tauto]).
Qed.

(** The mask of the preprocessing applies that test row by row. *)
Lemma overlap_mask_pointwise start end_ c_in c_out :
  mask_and
    (mask_and
       (mask_and (cell_cmp_bool dt64_lt end_ <$> c_in) (mask_not (isna c_in)))
       (mask_not (isna c_out)))
    (cell_cmp_bool dt64_ge start <$> c_out) =
  overlap_test start end_ <$> zip c_in c_out.
Proof.
  unfold mask_and, mask_not, isna.
  revert c_out. induction c_in as [|a c_in IH]; intros [|b c_out]; try done.
  cbn [fmap list_fmap zip_with]. f_equal. apply IH.
Qed.

(** Selecting by a mask computed row by row is filtering the rows. *)
Lemma mask_filter_rows {A B} (g : A → bool) (mk : A → B) (P : B → Prop)
    `{!∀ b, Decision (P b)} (l : list A) :
  (∀ a, g a = true ↔ P (mk a)) →
  mk <$> mask_filter (g <$> l) l = filter P (mk <$> l).
Proof.
  intros Hg. induction l as [|a l IH]; [done|].
  cbn [fmap list_fmap mask_filter]. rewrite filter_cons.
  destruct (g a) eqn:E; case_decide as HP.
  - cbn [fmap list_fmap]. f_equal. apply IH.
  - by destruct HP; apply Hg.
  - apply Hg in HP. congruence.
  - apply IH.
Qed.

Lemma mask_filter_zip_l {A C} (g : A → bool) (l : list A) (cs : list C) :
  mask_filter (g <$> l) (zip l cs) =
  mask_filter ((λ p, g p.1) <$> zip l cs) (zip l cs).
Proof.
  revert cs. induction l as [|a l IH]; intros [|c cs]; try done.
  cbn [fmap list_fmap zip_with mask_filter]. simpl.
  destruct (g a); by rewrite IH.
Qed.

(** The new frame has the entry, exit and category columns of the
    input. *)
Lemma necessary_columns_get self df cols :
  necessary_columns self df = Ok cols →
  (∃ i, dict_get (df_data df) (in_field self) = Some i ∧
        dict_get cols (in_field self) = Some i) ∧
  (∃ o, dict_get (df_data df) (out_field self) = Some o ∧
        dict_get cols (out_field self) = Some o) ∧
  (∀ c, cat_field self = Some c →
     ∃ cs, dict_get (df_data df) c = Some cs ∧ dict_get cols c = Some cs).
Proof.
  unfold necessary_columns, getitem.
  destruct (dict_get (df_data df) (in_field self)) as [i|] eqn:Hi; [|done].
  destruct (dict_get (df_data df) (out_field self)) as [o|] eqn:Ho; [|done].
  destruct (cat_field self) as [c|] eqn:Hc.
  - destruct (dict_get (df_data df) c) as [cs|] eqn:Hcs; [|done].
    intros [= <-].
    split; [|split].
    + exists i. split; [done|]. simpl.
      repeat (case_decide; simplify_eq; simpl); try done; try congruence.
    + exists o. split; [done|]. simpl.
      repeat (case_decide; simplify_eq; simpl); try done; try congruence.
    + intros ? [= <-]. exists cs. split; [done|].
      rewrite !dict_get_set. by rewrite decide_True.
  - intros [= <-].
    split; [|split; [|done]].
    + exists i. split; [done|]. simpl.
      repeat (case_decide; simplify_eq; simpl); try done; try congruence.
    + exists o. split; [done|]. simpl.
      repeat (case_decide; simplify_eq; simpl); try done; try congruence.
Qed.

(** The records of the preprocessed frame are the records of the input
    that pass the overlap test, in their order. *)
Lemma preprocessed_visits self df cols c_in c_out start end_ m1 m4 :
  necessary_columns self df = Ok cols →
  dict_get cols (in_field self) = Some c_in →
  dict_get cols (out_field self) = Some c_out →
  series_cmp dt64_lt c_in end_ = Ok m1 →
  series_cmp dt64_ge c_out start = Ok m4 →
  let pre := mkDataFrame (df_index df) cols in
  let m := mask_and (mask_and (mask_and m1 (mask_not (isna c_in)))
                              (mask_not (isna c_out))) m4 in
  ∃ vs,
    visits df (in_field self) (out_field self) (cat_field self) = Some vs ∧
    visits (reset_index_drop (df_loc pre m))
      (in_field self) (out_field self) (cat_field self) =
    Some (filter (overlaps start end_) vs).
Proof.
  intros Hcols Hin Hout ->%series_cmp_Ok ->%series_cmp_Ok. cbv zeta.
  rewrite overlap_mask_pointwise.
  destruct (necessary_columns_get _ _ _ Hcols)
    as ((i & Hi & Hi') & (o & Ho & Ho') & Hcat).
  assert (i = c_in) as -> by congruence.
  assert (o = c_out) as -> by congruence.
  unfold visits, reset_index_drop, df_loc; cbn [df_data].
  rewrite !dict_get_fmap, Hi, Ho, Hi', Ho'.
  cbn [fmap option_fmap option_map mbind option_bind].
  destruct (cat_field self) as [c|].
  - destruct (Hcat c eq_refl) as (cs & Hcs & Hcs').
    rewrite dict_get_fmap, Hcs, Hcs'.
    cbn [fmap option_fmap option_map mbind option_bind].
    eexists. split; [done|].
    f_equal. rewrite <- !mask_filter_zip, mask_filter_zip_l.
    apply (mask_filter_rows (λ p, overlap_test start end_ p.1)).
    intros [[a b] c']. apply overlap_test_spec.
  - eexists. split; [done|].
    f_equal. rewrite <- mask_filter_zip.
    apply (mask_filter_rows (overlap_test start end_)).
    intros [a b]. apply overlap_test_spec.
Qed.




(* ===================================================================== *)
(** ** The percentiles and the errors of the fields *)
(* ===================================================================== *)

(** The constraint of a percentile is membership in [0, 1], for a float
    that is not NaN; NaN passes. *)
Lemma confloat_float f :
  ((in_unit_interval f ∨ f = FNaN) ∧ confloat_ge0_le1 (VFloat f) = FVal f) ∨
  (f ≠ FNaN ∧ ¬ in_unit_interval f ∧
   confloat_ge0_le1 (VFloat f) = FInvalid OutOfRange).
Proof.
  unfold confloat_ge0_le1, float_lt.
  destruct f as [q|[|]|]; simpl;
    try (right; split; [done|split; [tauto|done]]);
    [|left; split; [by right|done]].
  destruct (Qle_bool 0 q) eqn:E0; destruct (Qle_bool q 1) eqn:E1; simpl;
    first [left; split; [left; split; by apply Qle_bool_iff|done]
          |right; split; [done|split; [intros [H0 H1]|done]]].
  - apply Qle_bool_iff in H1. congruence.
  - apply Qle_bool_iff in H0. congruence.
  - apply Qle_bool_iff in H0. congruence.
Qed.




Lemma Exists_not_in_unit_interval ps :
  Forall (λ p, p ≠ FNaN) ps →
  Exists (λ p, ¬ in_unit_interval p) ps →
  Exists (λ p, p ≠ FNaN ∧ ¬ in_unit_interval p) ps.
Proof.
  rewrite Forall_forall, !Exists_exists. intros Hn (p & Hin & Hp).
  exists p. split; [done|]. split; [by apply Hn|done].
Qed.

(** The error of a field is reported under the name of the field. *)
Lemma ferr_elem {A} n k n' (r : fres A) :
  (n, k) ∈ ferr n' r ↔ n = n' ∧ r = FInvalid k.
Proof.
  destruct r; simpl; rewrite ?list_elem_of_singleton, ?elem_of_nil.
  - split; [done|by intros [_ [=]]].
  - split; [by intros [= -> ->]|by intros [-> [= ->]]].
  - split; [done|by intros [_ [=]]].
Qed.

(** Membership in the errors of the fields, field by field. *)
Lemma fr_errors_elem fr n k :
  (n, k) ∈ fr_errors fr →
  (n = "scenario_name" ∧ r_scenario_name fr = FInvalid k) ∨
  (n = "stops_df" ∧ r_stops_df fr = FInvalid k) ∨
  (n = "in_field" ∧ r_in_field fr = FInvalid k) ∨
  (n = "out_field" ∧ r_out_field fr = FInvalid k) ∨
  (n = "start_analysis_dt" ∧ r_start_analysis_dt fr = FInvalid k) ∨
  (n = "end_analysis_dt" ∧ r_end_analysis_dt fr = FInvalid k) ∨
  (n = "cat_field" ∧ r_cat_field fr = FInvalid k) ∨
  (n = "bin_size_minutes" ∧ r_bin_size_minutes fr = FInvalid k) ∨
  (n = "cats_to_exclude" ∧ r_cats_to_exclude fr = FInvalid k) ∨
  (n = "occ_weight_field" ∧ r_occ_weight_field fr = FInvalid k) ∨
  (n = "percentiles" ∧ r_percentiles fr = FInvalid k) ∨
  (n = "nonstationary_stats" ∧ r_nonstationary_stats fr = FInvalid k) ∨
  (n = "stationary_stats" ∧ r_stationary_stats fr = FInvalid k) ∨
  (n = "edge_bins" ∧ r_edge_bins fr = FInvalid k) ∨
  (n = "output_path" ∧ r_output_path fr = FInvalid k) ∨
  (n = "export_bydatetime_csv" ∧ r_export_bydatetime_csv fr = FInvalid k) ∨
  (n = "export_summaries_csv" ∧ r_export_summaries_csv fr = FInvalid k) ∨
  (n = "make_all_dow_plots" ∧ r_make_all_dow_plots fr = FInvalid k) ∨
  (n = "make_all_week_plots" ∧ r_make_all_week_plots fr = FInvalid k) ∨
  (n = "export_all_dow_plots" ∧ r_export_all_dow_plots fr = FInvalid k) ∨
  (n = "export_all_week_plots" ∧ r_export_all_week_plots fr = FInvalid k) ∨
  (n = "cap" ∧ r_cap fr = FInvalid k) ∨
  (n = "xlabel" ∧ r_xlabel fr = FInvalid k) ∨
  (n = "ylabel" ∧ r_ylabel fr = FInvalid k) ∨
  (n = "verbosity" ∧ r_verbosity fr = FInvalid k) ∨
  (n = "stops_preprocessed_df" ∧ r_stops_preprocessed_df fr = FInvalid k) ∨
  (n = "hills" ∧ r_hills fr = FInvalid k).
Proof.
  unfold fr_errors. intros H.
  repeat (apply elem_of_app in H as [H|H];
          [left; by apply ferr_elem in H | right]).
  by apply ferr_elem in H.
Qed.

(** From a membership in the errors to the outcome of the field named. *)
Ltac fr_errors_inv H :=
  apply fr_errors_elem in H;
  repeat (destruct H as [[H ?]|H]; [first [discriminate H | assumption]|]);
  destruct H as [H ?]; first [discriminate H | assumption].

(** From the invalid outcome [Hr] of a field to its error. *)
Ltac fr_errors_intro Hr :=
  unfold fr_errors; rewrite Hr;
  repeat (apply elem_of_app;
          first [left; by apply list_elem_of_singleton | right]);
  by apply list_elem_of_singleton.

(* ===================================================================== *)
(** ** Construction, and the claims on validation (C4, C5, C6, C9, C10) *)
(* ===================================================================== *)

Section front_end.

Context (pd_Timestamp : pyval → string + datetime64).
Context (pystr : pyval → string).

(** A successful construction: every field validated, the dates are in
    order, and the preprocessing ran. *)
Lemma Scenario_init_Ok kw w sc w' :
  Scenario_init pd_Timestamp pystr kw w = (Ok sc, w') →
  ∃ self,
    fr_build (field_results pd_Timestamp pystr (heap w) kw) = Some self ∧
    py_le (end_analysis_dt self) (start_analysis_dt self) = Ok false ∧
    preprocess_stops_df self w = (Ok sc, w').
Proof.
  intros Hinit. pose proof (Scenario_init_cases pd_Timestamp pystr kw w) as Hc.
  destruct (validate_fields _ _ _ _) as [self|x] eqn:Hv; [|congruence].
  exists self. split; [by apply validate_fields_Ok|].
  destruct (py_le _ _) as [[|]|x]; [congruence| |congruence].
  split; [done|congruence].
Qed.

(** The preprocessing changes the field [stops_preprocessed_df] only. *)
Lemma preprocess_stops_df_fields self w sc w' :
  preprocess_stops_df self w = (Ok sc, w') →
  ∃ l, sc = set_stops_preprocessed_df self l.
Proof.
  intros (df & cols & c_in & c_out & m1 & m4 & H)%preprocess_stops_df_Ok.
  exists (length (heap w) + 2)%nat. apply H.
Qed.

Lemma py_le_Raise a b x : py_le a b = Raise x → not_validation x.
Proof. unfold py_le. repeat case_match; try done; by intros [= <-]. Qed.

(** A ValidationError of the constructor is raised either by the
    validation of the fields or by [date_relationship], and nothing has
    happened yet. *)
Lemma Scenario_init_ValidationError kw w errs w' :
  Scenario_init pd_Timestamp pystr kw w = (Raise (ValidationError errs), w') →
  w' = w ∧
  ((fr_build (field_results pd_Timestamp pystr (heap w) kw) = None ∧
    errs = fr_errors (field_results pd_Timestamp pystr (heap w) kw)) ∨
   (errs = [("", ValueErr "end date must be > start date")] ∧
    ∃ self,
      fr_build (field_results pd_Timestamp pystr (heap w) kw) = Some self ∧
      py_le (end_analysis_dt self) (start_analysis_dt self) = Ok true)).
Proof.
  intros Hinit. pose proof (Scenario_init_cases pd_Timestamp pystr kw w) as Hc.
  destruct (validate_fields _ _ _ _) as [self|x] eqn:Hv.
  - apply validate_fields_Ok in Hv.
    destruct (py_le _ _) as [[|]|x] eqn:Hle.
    + rewrite Hc in Hinit. injection Hinit as <- <-. eauto 10.
    + rewrite Hc in Hinit. by apply preprocess_stops_df_Raise in Hinit.
    + rewrite Hc in Hinit. injection Hinit as -> <-.
      by apply py_le_Raise in Hle.
  - rewrite Hc in Hinit. injection Hinit as -> <-. split; [done|].
    apply validate_fields_Raise in Hv as [Hr|(_ & Hb & [= ->])]; [|by left].
    apply first_raise_cases in Hr as [[[=] _]|[[=] _]].
Qed.

(** When 'stops_df' is given and the bin size is not 0, no exception
    propagates from a validator: an instance, or the errors of the
    fields. *)
Lemma Scenario_init_invalid_field kw w :
  stops_df_given (heap w) kw →
  kw !! "bin_size_minutes" ≠ Some (VInt 0) →
  fr_build (field_results pd_Timestamp pystr (heap w) kw) = None →
  Scenario_init pd_Timestamp pystr kw w =
  (Raise (ValidationError
            (fr_errors (field_results pd_Timestamp pystr (heap w) kw))), w).
Proof.
  intros Hdf Hbin Hb.
  pose proof (Scenario_init_cases pd_Timestamp pystr kw w) as Hc.
  unfold validate_fields in Hc.
  destruct (first_raise _) as [x|] eqn:Hr.
  { apply first_raise_cases in Hr as [[_ ?]|[_ ?]]; done. }
  by rewrite Hb in Hc.
Qed.

(** C10. A scenario constructed without the optional parameters has
    bin_size_minutes = 60, edge_bins = FRACTIONAL, percentiles =
    (0.25, 0.5, 0.75, 0.95, 0.99), cat_field = None,
    occ_weight_field = None (a weight of 1.0), and both
    nonstationary_stats and stationary_stats enabled. *)
Theorem Scenario_defaults kw w sc w' :
  Scenario_init pd_Timestamp pystr kw w = (Ok sc, w') →
  (kw !! "bin_size_minutes" = None → bin_size_minutes sc = 60) ∧
  (kw !! "edge_bins" = None → edge_bins sc = FRACTIONAL) ∧
  (kw !! "percentiles" = None →
     percentiles sc =
     PyTuple [FFinite (25 # 100); FFinite (5 # 10); FFinite (75 # 100);
              FFinite (95 # 100); FFinite (99 # 100)]) ∧
  (kw !! "cat_field" = None → cat_field sc = None) ∧
  (kw !! "occ_weight_field" = None → occ_weight_field sc = None) ∧
  (kw !! "nonstationary_stats" = None → nonstationary_stats sc = true) ∧
  (kw !! "stationary_stats" = None → stationary_stats sc = true).
Proof.
  intros (self & Hb%fr_build_Some & _ & [l ->]%preprocess_stops_df_fields)
    %Scenario_init_Ok.
  pose proof (f_equal r_bin_size_minutes Hb) as H1.
  pose proof (f_equal r_edge_bins Hb) as H2.
  pose proof (f_equal r_percentiles Hb) as H3.
  pose proof (f_equal r_cat_field Hb) as H4.
  pose proof (f_equal r_occ_weight_field Hb) as H5.
  pose proof (f_equal r_nonstationary_stats Hb) as H6.
  pose proof (f_equal r_stationary_stats Hb) as H7.
  clear Hb. unfold field_results, optional in *. simpl in *.
  repeat split; intros Hk; rewrite Hk in *; simpl in *;
    unfold default_percentiles in *; congruence.
Qed.


(** What the validation of an analysis date gives. *)
Lemma analysis_dt_result kw name v :
  kw !! name = Some v → is_datetime_like v →
  required kw name
    (λ v, fres_bind (as_datetime_like v)
            (validate_start_end_date pd_Timestamp pystr)) =
  validate_start_end_date pd_Timestamp pystr v.
Proof. intros Hk Hv. unfold required. rewrite Hk. by destruct v. Qed.

Lemma analysis_dt_FVal kw name x :
  required kw name
    (λ v, fres_bind (as_datetime_like v)
            (validate_start_end_date pd_Timestamp pystr)) = FVal x →
  ∃ v t, kw !! name = Some v ∧ is_datetime_like v ∧
         pd_Timestamp v = inr t ∧ x = VDatetime64 t.
Proof.
  unfold required. destruct (kw !! name) as [v|] eqn:Hk; [|done].
  unfold validate_start_end_date.
  destruct v; simpl; try done; destruct (pd_Timestamp _) as [msg|ts] eqn:E;
    try done; intros [= <-]; eexists _, _; by repeat split.
Qed.

(** C4. For a positive bin_size_minutes the construction raises the
    error "bin_size_minutes must divide into 1440 with no remainder"
    exactly when bin_size_minutes does not divide 1440, and it does so
    before anything is computed: the world is as it was. *)
Theorem bin_size_minutes_must_divide_1440 kw w v :
  kw !! "bin_size_minutes" = Some (VInt v) →
  0 < v →
  stops_df_given (heap w) kw →
  ¬ (v | 1440) ↔
  ∃ errs,
    Scenario_init pd_Timestamp pystr kw w =
      (Raise (ValidationError errs), w) ∧
    ("bin_size_minutes",
     ValueErr "bin_size_minutes must divide into 1440 with no remainder")
      ∈ errs.
Proof.
  intros Hk Hv Hdf.
  assert (r_bin_size_minutes (field_results pd_Timestamp pystr (heap w) kw) =
          bin_size_minutes_divides v) as Hr.
  { unfold field_results, optional; simpl. by rewrite Hk. }
  assert (1440 `mod` v > 0 ↔ ¬ (v | 1440)) as Hmod.
  { rewrite <- Z.mod_divide by lia.
    pose proof (Z.mod_pos_bound 1440 v Hv). lia. }
  unfold bin_size_minutes_divides in Hr.
  rewrite decide_False in Hr by lia.
  split.
  - intros Hnd. rewrite decide_True in Hr by (by apply Hmod).
    eexists. split.
    + apply Scenario_init_invalid_field; [done|rewrite Hk; intros [=]; lia|].
      destruct (fr_build _) as [self|] eqn:Hb; [|done].
      apply fr_build_Some in Hb. rewrite Hb in Hr. discriminate Hr.
    + fr_errors_intro Hr.
  - intros (errs & Hinit & Hin).
    apply Scenario_init_ValidationError in Hinit
      as (_ & [[_ ->]|[-> _]]).
    + assert (r_bin_size_minutes
                (field_results pd_Timestamp pystr (heap w) kw) =
        FInvalid (ValueErr
          "bin_size_minutes must divide into 1440 with no remainder")) as Hr'.
      { fr_errors_inv Hin. }
      rewrite Hr' in Hr. case_decide; [by apply Hmod|discriminate Hr].
    + apply list_elem_of_singleton in Hin. discriminate Hin.
Qed.

(** The analysis dates of an instance are the conversions of the dates
    given. *)
Lemma analysis_dt_of_instance h kw self name v t
    (r : FieldResults → fres pyval) (f : Scenario → pyval) :
  fr_build (field_results pd_Timestamp pystr h kw) = Some self →
  (∀ fr sc, fr_build fr = Some sc → r fr = FVal (f sc)) →
  r (field_results pd_Timestamp pystr h kw) =
    required kw name
      (λ v, fres_bind (as_datetime_like v)
              (validate_start_end_date pd_Timestamp pystr)) →
  kw !! name = Some v → is_datetime_like v → pd_Timestamp v = inr t →
  f self = VDatetime64 t.
Proof.
  intros Hb Hf Hr Hk Hv Ht. rewrite (Hf _ _ Hb) in Hr.
  rewrite (analysis_dt_result _ _ _ Hk Hv) in Hr.
  unfold validate_start_end_date, to_datetime64 in Hr. rewrite Ht in Hr.
  congruence.
Qed.

Lemma start_analysis_dt_of_instance h kw self v t :
  fr_build (field_results pd_Timestamp pystr h kw) = Some self →
  kw !! "start_analysis_dt" = Some v → is_datetime_like v →
  pd_Timestamp v = inr t → start_analysis_dt self = VDatetime64 t.
Proof.
  intros Hb. apply (analysis_dt_of_instance h kw self _ v t
    r_start_analysis_dt start_analysis_dt Hb); [|done].
  intros fr sc Hfr. by rewrite (fr_build_Some _ _ Hfr).
Qed.

Lemma end_analysis_dt_of_instance h kw self v t :
  fr_build (field_results pd_Timestamp pystr h kw) = Some self →
  kw !! "end_analysis_dt" = Some v → is_datetime_like v →
  pd_Timestamp v = inr t → end_analysis_dt self = VDatetime64 t.
Proof.
  intros Hb. apply (analysis_dt_of_instance h kw self _ v t
    r_end_analysis_dt end_analysis_dt Hb); [|done].
  intros fr sc Hfr. by rewrite (fr_build_Some _ _ Hfr).
Qed.


(** The bin size is not the int 0 when it is left out or is an int other
    than 0. *)
Lemma bin_size_minutes_nonzero_int_ne kw :
  bin_size_minutes_nonzero_int kw → kw !! "bin_size_minutes" ≠ Some (VInt 0).
Proof.
  unfold bin_size_minutes_nonzero_int. intros H Hk. by rewrite Hk in H.
Qed.


(** C9. A constructed scenario holds start_analysis_dt and
    end_analysis_dt as numpy datetime64 values; when a date, datetime,
    Timestamp or datetime64 was supplied, the value held is its
    conversion; and when such a value cannot be converted the
    construction fails with the error "Cannot convert ... to to a numpy
    datetime64 object." followed by the reason. *)
Theorem analysis_dates_held_as_datetime64 kw w :
  (∀ sc w', Scenario_init pd_Timestamp pystr kw w = (Ok sc, w') →
     (∃ t0 t1,
        start_analysis_dt sc = VDatetime64 t0 ∧
        end_analysis_dt sc = VDatetime64 t1) ∧
     (∀ v0 t0,
        kw !! "start_analysis_dt" = Some v0 → is_datetime_like v0 →
        pd_Timestamp v0 = inr t0 → start_analysis_dt sc = VDatetime64 t0) ∧
     (∀ v1 t1,
        kw !! "end_analysis_dt" = Some v1 → is_datetime_like v1 →
        pd_Timestamp v1 = inr t1 → end_analysis_dt sc = VDatetime64 t1)) ∧
  (∀ name v error,
     name = "start_analysis_dt" ∨ name = "end_analysis_dt" →
     kw !! name = Some v → is_datetime_like v →
     pd_Timestamp v = inl error →
     stops_df_given (heap w) kw →
     bin_size_minutes_nonzero_int kw →
     ∃ errs,
       Scenario_init pd_Timestamp pystr kw w =
      (Raise (ValidationError errs), w) ∧
       (name,
        ValueErr ("Cannot convert " +:+ pystr v +:+
                  " to to a numpy datetime64 object." +:+ newline +:+ error))
         ∈ errs).
Proof.
  split.
  - intros sc w' (self & Hb & _ &
      [l ->]%preprocess_stops_df_fields)%Scenario_init_Ok.
    pose proof (fr_build_Some _ _ Hb) as Hfr.
    pose proof (f_equal r_start_analysis_dt Hfr) as H0.
    pose proof (f_equal r_end_analysis_dt Hfr) as H1.
    cbn [field_results r_start_analysis_dt r_end_analysis_dt] in H0, H1.
    apply analysis_dt_FVal in H0 as (v0 & t0 & ? & ? & ? & ?).
    apply analysis_dt_FVal in H1 as (v1 & t1 & ? & ? & ? & ?).
    cbn [set_stops_preprocessed_df start_analysis_dt end_analysis_dt].
    split; [by exists t0, t1|]. split.
    + intros v0' t0' Hk Hv Ht.
      by apply (start_analysis_dt_of_instance _ _ _ _ _ Hb Hk Hv Ht).
    + intros v1' t1' Hk Hv Ht.
      by apply (end_analysis_dt_of_instance _ _ _ _ _ Hb Hk Hv Ht).
  - intros name v error Hname Hk Hv Ht Hdf Hbin%bin_size_minutes_nonzero_int_ne.
    pose proof (analysis_dt_result kw name v Hk Hv) as Hr.
    unfold validate_start_end_date at 2 in Hr. rewrite Ht in Hr.
    eexists. split.
    + apply Scenario_init_invalid_field; [done..|].
      destruct (fr_build _) as [self|] eqn:Hb; [|done].
      apply fr_build_Some in Hb.
      destruct Hname as [-> | ->];
        [pose proof (f_equal r_start_analysis_dt Hb) as H0
        |pose proof (f_equal r_end_analysis_dt Hb) as H0];
        cbn [field_results r_start_analysis_dt r_end_analysis_dt] in H0;
        congruence.
    + destruct Hname as [-> | ->].
      * assert (r_start_analysis_dt
                  (field_results pd_Timestamp pystr (heap w) kw) = FInvalid
          (ValueErr ("Cannot convert " +:+ pystr v +:+
             " to to a numpy datetime64 object." +:+ newline +:+ error)))
          as Hr' by exact Hr.
        fr_errors_intro Hr'.
      * assert (r_end_analysis_dt
                  (field_results pd_Timestamp pystr (heap w) kw) = FInvalid
          (ValueErr ("Cannot convert " +:+ pystr v +:+
             " to to a numpy datetime64 object." +:+ newline +:+ error)))
          as Hr' by exact Hr.
        fr_errors_intro Hr'.
Qed.

End front_end.

Lemma Scenario_defaults_witness :
  ∃ sc w',
    Scenario_init Timestamp_ns str_example ex_kwargs ex_world = (Ok sc, w') ∧
    bin_size_minutes sc = 60 ∧ edge_bins sc = FRACTIONAL ∧
    percentiles sc = default_percentiles ∧
    cat_field sc = None ∧ occ_weight_field sc = None ∧
    nonstationary_stats sc = true ∧ stationary_stats sc = true.
Proof.
  eexists _, _.
  assert (Scenario_init Timestamp_ns str_example ex_kwargs ex_world =
          (Ok _, _)) as E by (vm_compute; reflexivity).
  split; [exact E|].
  destruct (Scenario_defaults _ _ _ _ _ _ E)
    as (H1 & H2 & H3 & H4 & H5 & H6 & H7).
  split; [apply H1; reflexivity|]. split; [apply H2; reflexivity|].
  split; [apply H3; reflexivity|]. split; [apply H4; reflexivity|].
  split; [apply H5; reflexivity|]. split; [apply H6; reflexivity|].
  apply H7; reflexivity.
Defined.

Lemma bin_size_minutes_must_divide_1440_witness :
  ∃ errs,
    Scenario_init Timestamp_ns str_example
      (<["bin_size_minutes" := VInt 7]> ex_kwargs) ex_world =
    (Raise (ValidationError errs), ex_world) ∧
    ("bin_size_minutes",
     ValueErr "bin_size_minutes must divide into 1440 with no remainder")
      ∈ errs.
Proof.
  refine (proj1 (bin_size_minutes_must_divide_1440 Timestamp_ns str_example
    (<["bin_size_minutes" := VInt 7]> ex_kwargs) ex_world 7 _ _ _) _).
  - vm_compute; reflexivity.
  - lia.
  - exists 0%nat. split; [vm_compute; reflexivity|by eexists].
  - intros [c Hc]. lia.
Defined.





Lemma analysis_dates_held_as_datetime64_witness :
  (∃ sc w',
     Scenario_init Timestamp_s str_example
       (<["start_analysis_dt" := VDate 0]>
          (<["end_analysis_dt" := VDatetime 5]> ex_kwargs)) ex_world
     = (Ok sc, w') ∧
     start_analysis_dt sc = VDatetime64 (Some 0) ∧
     end_analysis_dt sc = VDatetime64 (Some 5000)) ∧
  (∃ errs,
     Scenario_init Timestamp_s str_example
       (<["start_analysis_dt" := VDatetime64 (Some (10 ^ 30))]> ex_kwargs)
       ex_world
     = (Raise (ValidationError errs), ex_world) ∧
     ("start_analysis_dt",
      ValueErr ("Cannot convert <object> to to a numpy datetime64 object." +:+
                newline +:+ "Out of bounds timestamp")) ∈ errs).
Proof.
  split.
  - destruct (Scenario_init Timestamp_s str_example
       (<["start_analysis_dt" := VDate 0]>
          (<["end_analysis_dt" := VDatetime 5]> ex_kwargs)) ex_world)
      as [[sc|x] w'] eqn:E; [|vm_compute in E; discriminate E].
    exists sc, w'. split; [reflexivity|].
    destruct (proj1 (analysis_dates_held_as_datetime64 _ _ _ _) sc w' E)
      as (_ & H0 & H1).
    split.
    + apply (H0 (VDate 0)); [vm_compute; reflexivity|exact I|reflexivity].
    + apply (H1 (VDatetime 5)); [vm_compute; reflexivity|exact I|reflexivity].
  - refine (proj2 (analysis_dates_held_as_datetime64 Timestamp_s str_example
      (<["start_analysis_dt" := VDatetime64 (Some (10 ^ 30))]> ex_kwargs)
      ex_world)
      "start_analysis_dt" (VDatetime64 (Some (10 ^ 30)))
      "Out of bounds timestamp" _ _ I _ _ _).
    + left; reflexivity.
    + vm_compute; reflexivity.
    + vm_compute; reflexivity.
    + exists 0%nat. split; [vm_compute; reflexivity|by eexists].
    + vm_compute. exact I.
Defined.

(* ===================================================================== *)
(** ** The claims on the preprocessing (C2, C3, C7) *)
(* ===================================================================== *)

Section preprocessing.

Context (pd_Timestamp : pyval → string + datetime64).
Context (pystr : pyval → string).

(** The frame a constructed scenario holds as [stops_preprocessed_df]: a
    new object, whose records are the records of [stops_df] that pass
    the overlap test. *)
Lemma Scenario_init_preprocessed kw w sc w' :
  Scenario_init pd_Timestamp pystr kw w = (Ok sc, w') →
  ∃ l pre df t0 t1 vs,
    stops_preprocessed_df sc = Some l ∧
    heap w !! l = None ∧
    heap w' !! l = Some pre ∧
    heap w !! stops_df sc = Some df ∧
    start_analysis_dt sc = VDatetime64 t0 ∧
    end_analysis_dt sc = VDatetime64 t1 ∧
    visits df (in_field sc) (out_field sc) (cat_field sc) = Some vs ∧
    visits pre (in_field sc) (out_field sc) (cat_field sc) =
      Some (filter (overlaps t0 t1) vs).
Proof.
  intros (self & _ & _ & Hrun)%Scenario_init_Ok.
  destruct (preprocess_stops_df_Ok _ _ _ _ Hrun)
    as (df & cols & c_in & c_out & m1 & m4 &
        Hdf & Hcols & Hin & Hout & Hm1 & Hm4 & Hheap & ->).
  unfold series_lt in Hm1. unfold series_ge in Hm4.
  destruct (end_analysis_dt self) as [| | | | | | | | | |t1| | |] eqn:Hend;
    try discriminate Hm1.
  destruct (start_analysis_dt self) as [| | | | | | | | | |t0| | |] eqn:Hstart;
    try discriminate Hm4.
  destruct (preprocessed_visits self df cols c_in c_out t0 t1 m1 m4
    Hcols Hin Hout Hm1 Hm4) as (vs & Hvs & Hpre).
  eexists (length (heap w) + 2)%nat, _, df, t0, t1, vs.
  split; [done|]. split; [apply lookup_ge_None_2; lia|].
  split; [|by repeat split].
  rewrite Hheap, lookup_app_r by lia.
  by replace (length (heap w) + 2 - length (heap w))%nat with 2%nat by lia.
Qed.


(** C2. After a construction, stops_preprocessed_df contains exactly
    the records of stops_df that have an entry and an exit timestamp,
    with the entry strictly before end_analysis_dt and the exit at or
    after start_analysis_dt, in their order; in particular no record
    with exit < start or entry >= end is in it. *)
Theorem preprocessed_records_overlap_analysis_span kw w sc w' :
  Scenario_init pd_Timestamp pystr kw w = (Ok sc, w') →
  ∃ l pre df t0 t1 vs,
    stops_preprocessed_df sc = Some l ∧
    heap w' !! l = Some pre ∧
    heap w !! stops_df sc = Some df ∧
    start_analysis_dt sc = VDatetime64 t0 ∧
    end_analysis_dt sc = VDatetime64 t1 ∧
    visits df (in_field sc) (out_field sc) (cat_field sc) = Some vs ∧
    visits pre (in_field sc) (out_field sc) (cat_field sc) =
      Some (filter (overlaps t0 t1) vs) ∧
    (∀ v, v ∈ filter (overlaps t0 t1) vs →
       ∃ i o s e, v.1.1 = CTime i ∧ v.1.2 = CTime o ∧
                  t0 = Some s ∧ t1 = Some e ∧
                  ¬ (o < s) ∧ ¬ (e ≤ i)).
Proof.
  intros (l & pre & df & t0 & t1 & vs & Hl & _ & Hpre & Hdf & Ht0 & Ht1 &
    Hvs & Hvis)%Scenario_init_preprocessed.
  exists l, pre, df, t0, t1, vs. repeat (split; [done|]).
  intros [[a b] c] [Hov _]%list_elem_of_filter.
  unfold overlaps in Hov; simpl in *.
  destruct a as [i| | | |], b as [o| | | |], t0 as [ts|], t1 as [te|];
    try done.
  exists i, o, ts, te. repeat split; lia.
Qed.

(** C3, as the code has it. In a constructed scenario a record whose
    exit timestamp precedes its entry timestamp is in
    stops_preprocessed_df exactly when it is a record of stops_df with
    the entry before end_analysis_dt and the exit at or after
    start_analysis_dt, like any other record; and what the construction
    has logged is the warnings on the numbers of missing entry and exit
    timestamps of stops_df, and nothing on such records. *)
Theorem inconsistent_records_pass_the_overlap_filter kw w sc w' :
  Scenario_init pd_Timestamp pystr kw w = (Ok sc, w') →
  ∃ l pre df vs vs' in_col out_col,
    stops_preprocessed_df sc = Some l ∧
    heap w' !! l = Some pre ∧
    heap w !! stops_df sc = Some df ∧
    visits df (in_field sc) (out_field sc) (cat_field sc) = Some vs ∧
    visits pre (in_field sc) (out_field sc) (cat_field sc) = Some vs' ∧
    dict_get (df_data df) (in_field sc) = Some in_col ∧
    dict_get (df_data df) (out_field sc) = Some out_col ∧
    log w' = log w ++ missing_warnings in_col out_col ∧
    ∀ i o c, o < i →
      ((CTime i, CTime o, c) ∈ vs' ↔
       (CTime i, CTime o, c) ∈ vs ∧
       ∃ s e, start_analysis_dt sc = VDatetime64 (Some s) ∧
              end_analysis_dt sc = VDatetime64 (Some e) ∧
              i < e ∧ s ≤ o).
Proof.
  intros Hinit.
  destruct (Scenario_init_preprocessed _ _ _ _ Hinit)
    as (l & pre & df & t0 & t1 & vs & Hl & _ & Hpre & Hdf & Ht0 & Ht1 &
        Hvs & Hvis).
  apply Scenario_init_Ok in Hinit as (self & _ & _ & Hrun).
  destruct (preprocess_stops_df_Ok _ _ _ _ Hrun)
    as (df' & cols & _ & _ & _ & _ & Hdf' & Hcols & _ & _ & _ & _ & _ & ->).
  cbn [stops_df in_field out_field cat_field start_analysis_dt
       end_analysis_dt set_stops_preprocessed_df] in *.
  assert (df' = df) as -> by congruence.
  destruct (necessary_columns_get _ _ _ Hcols)
    as ((ci & Hi & _) & (co & Ho & _) & _).
  exists l, pre, df, vs, (filter (overlaps t0 t1) vs), ci, co.
  repeat (split; [done|]).
  split.
  { pose proof (preprocess_stops_df_log self w df ci co Hdf Hi Ho) as Hlog.
    by rewrite Hrun in Hlog. }
  intros i o c _. rewrite list_elem_of_filter, Ht0, Ht1.
  unfold overlaps; simpl. split.
  - intros [Hov Hin]. split; [done|].
    destruct t0 as [s|], t1 as [e|]; try done. by exists s, e.
  - intros [Hin (s & e & [= ->] & [= ->] & ?)]. by split.
Qed.

(** C7. The construction, whether it succeeds or fails, leaves every
    DataFrame that existed before it as it was, the caller's stops_df
    in particular: the scenario refers to that very object, and its
    stops_preprocessed_df is another, new object. *)
Theorem stops_df_is_not_mutated kw w r w' l df :
  Scenario_init pd_Timestamp pystr kw w = (r, w') →
  heap w !! l = Some df →
  heap w' !! l = Some df ∧
  (∀ sc, r = Ok sc →
     kw !! "stops_df" = Some (VDataFrame (stops_df sc)) ∧
     ∃ l', stops_preprocessed_df sc = Some l' ∧ heap w !! l' = None).
Proof.
  intros Hinit Hl. split.
  - pose proof (Scenario_init_cases pd_Timestamp pystr kw w) as Hc.
    destruct (validate_fields _ _ _ _) as [self|x]; [|congruence].
    destruct (py_le _ _) as [[|]|x]; [congruence| |congruence].
    rewrite Hc in Hinit. apply preprocess_stops_df_prefix in Hinit.
    by eapply prefix_lookup_Some.
  - intros sc ->. split.
    + apply Scenario_init_Ok in Hinit
        as (self & Hb%fr_build_Some & _ & [l' ->]%preprocess_stops_df_fields).
      pose proof (f_equal r_stops_df Hb) as Hr.
      cbn [field_results r_stops_df] in Hr. unfold required in Hr.
      destruct (kw !! "stops_df") as [v|]; [|done].
      unfold as_dataframe in Hr. destruct v; try done.
      case_decide; [|done]. simpl. congruence.
    + apply Scenario_init_preprocessed in Hinit
        as (l' & pre & _ & _ & _ & _ & ? & ? & _).
      by exists l'.
Qed.

End preprocessing.

(** The run of the example: the record before the span, the record
    without entry timestamp and the record after the span are dropped;
    the record inside the span and the record whose exit precedes its
    entry are kept. *)
Example ex_preprocessed :
  ∃ sc w' pre,
    Scenario_init Timestamp_ns str_example ex_kwargs ex_world = (Ok sc, w') ∧
    stops_preprocessed_df sc = Some 3%nat ∧
    heap w' !! 3%nat = Some pre ∧
    pre = {| df_index := [0; 1];
             df_data := [("InRoomTS", [CTime 50; CTime 40]);
                         ("OutRoomTS", [CTime 150; CTime 20])] |} ∧
    log w' = ["1 records with missing entry timestamps - records ignored"].
Proof. eexists _, _, _. vm_compute. by repeat split. Qed.

Lemma preprocessed_records_overlap_analysis_span_witness :
  ∃ sc w' l pre df t0 t1 vs,
    Scenario_init Timestamp_ns str_example ex_kwargs ex_world = (Ok sc, w') ∧
    stops_preprocessed_df sc = Some l ∧
    heap w' !! l = Some pre ∧
    heap ex_world !! stops_df sc = Some df ∧
    start_analysis_dt sc = VDatetime64 t0 ∧
    end_analysis_dt sc = VDatetime64 t1 ∧
    visits df (in_field sc) (out_field sc) (cat_field sc) = Some vs ∧
    visits pre (in_field sc) (out_field sc) (cat_field sc) =
      Some (filter (overlaps t0 t1) vs).
Proof.
  eexists _, _.
  assert (Scenario_init Timestamp_ns str_example ex_kwargs ex_world =
          (Ok _, _)) as E by (vm_compute; reflexivity).
  destruct (preprocessed_records_overlap_analysis_span _ _ _ _ _ _ E)
    as (l & pre & df & t0 & t1 & vs & H1 & H2 & H3 & H4 & H5 & H6 & H7 & _).
  exists l, pre, df, t0, t1, vs. by repeat (split; [done|]).
Defined.

(** C3 does not hold as stated: in the run of the example the record
    with entry 40 and exit 20 is in stops_preprocessed_df. *)
Lemma inconsistent_record_is_kept :
  ¬ (∀ kw w sc w' l pre vs,
       Scenario_init Timestamp_ns str_example kw w = (Ok sc, w') →
       stops_preprocessed_df sc = Some l →
       heap w' !! l = Some pre →
       visits pre (in_field sc) (out_field sc) (cat_field sc) = Some vs →
       ∀ i o c, (CTime i, CTime o, c) ∈ vs → ¬ (o < i)).
Proof.
  intros H.
  refine (H ex_kwargs ex_world _ _ 3%nat _ _ _ _ _ _ 40 20 None _ _).
  - vm_compute. reflexivity.
  - reflexivity.
  - reflexivity.
  - vm_compute. reflexivity.
  - apply list_elem_of_In. right. left. reflexivity.
  - lia.
Qed.

Lemma inconsistent_records_pass_the_overlap_filter_witness :
  ∃ sc w' l pre df vs vs',
    Scenario_init Timestamp_ns str_example ex_kwargs ex_world = (Ok sc, w') ∧
    stops_preprocessed_df sc = Some l ∧
    heap w' !! l = Some pre ∧
    heap ex_world !! stops_df sc = Some df ∧
    visits df (in_field sc) (out_field sc) (cat_field sc) = Some vs ∧
    visits pre (in_field sc) (out_field sc) (cat_field sc) = Some vs' ∧
    (CTime 40, CTime 20, None) ∈ vs' ∧
    log w' = ["1 records with missing entry timestamps - records ignored"].
Proof.
  eexists _, _.
  assert (Scenario_init Timestamp_ns str_example ex_kwargs ex_world =
          (Ok _, _)) as E by (vm_compute; reflexivity).
  destruct (inconsistent_records_pass_the_overlap_filter _ _ _ _ _ _ E)
    as (l & pre & df & vs & vs' & ci & co &
        H1 & H2 & H3 & H4 & H5 & Hi & Ho & Hlog & H6).
  exists l, pre, df, vs, vs'. repeat (split; [done|]).
  vm_compute in H3. injection H3 as <-.
  split.
  - apply H6; [lia|]. split.
    + vm_compute in H4. injection H4 as <-.
      apply list_elem_of_In. do 4 right. left. reflexivity.
    + exists 10, 100. repeat split; lia.
  - vm_compute in Hi, Ho. injection Hi as <-. injection Ho as <-.
    rewrite Hlog. vm_compute. reflexivity.
Defined.

Lemma stops_df_is_not_mutated_witness :
  ∃ r w',
    Scenario_init Timestamp_ns str_example ex_kwargs ex_world = (r, w') ∧
    heap w' !! 0%nat = Some ex_stops.
Proof.
  eexists _, _.
  assert (Scenario_init Timestamp_ns str_example ex_kwargs ex_world = (_, _))
    as E by (vm_compute; reflexivity).
  split; [exact E|].
  refine (proj1 (stops_df_is_not_mutated _ _ _ _ _ _ 0%nat ex_stops E _)).
  reflexivity.
Defined.

(* ===================================================================== *)
(** ** [create_scenario] (C8) and the query methods (C1) *)
(* ===================================================================== *)

(** Looking a key up after [update]. *)
Lemma dict_update_lookup (d other : gmap string pyval) k :
  dict_update d other !! k =
  match other !! k with Some v => Some v | None => d !! k end.
Proof.
  unfold dict_update. rewrite lookup_union.
  by destruct (other !! k), (d !! k).
Qed.

(** C8. The parameters [create_scenario] hands to [Scenario] are the
    union of the params_dict, the content of the TOML file and the
    keyword arguments; for a key defined by several of them the keyword
    argument wins over the TOML value, which wins over the params_dict
    value. *)
Theorem create_scenario_precedence pd_Timestamp pystr
    params_dict toml_path kwargs w toml :
  (toml_path = None ∧ toml = ∅) ∨
  (∃ path, toml_path = Some path ∧ files w !! path = Some (Some toml)) →
  ∃ params,
    create_scenario_params params_dict toml_path kwargs w = (Ok params, w) ∧
    create_scenario pd_Timestamp pystr params_dict toml_path kwargs w =
      Scenario_init pd_Timestamp pystr params w ∧
    ∀ k, params !! k =
         match kwargs !! k with
         | Some v => Some v
         | None =>
             match toml !! k with
             | Some v => Some v
             | None => default ∅ params_dict !! k
             end
         end.
Proof.
  intros Htoml.
  set (p1 := match params_dict with
             | Some d => dict_update ∅ d
             | None => ∅
             end).
  assert (∀ k, p1 !! k = default ∅ params_dict !! k) as Hp1.
  { intros k. unfold p1. destruct params_dict as [d|]; [|done].
    rewrite dict_update_lookup. simpl. by destruct (d !! k). }
  set (p2 := dict_update p1 toml).
  assert (∀ k, p2 !! k = match toml !! k with
                         | Some v => Some v
                         | None => default ∅ params_dict !! k
                         end) as Hp2.
  { intros k. unfold p2. by rewrite dict_update_lookup, Hp1. }
  set (p3 := if decide (0 < size kwargs)%nat then dict_update p2 kwargs
             else p2).
  assert (create_scenario_params params_dict toml_path kwargs w = (Ok p3, w))
    as Hparams.
  { unfold create_scenario_params, mbind, M_bind, tomllib_load.
    destruct Htoml as [[-> ->]|(path & -> & ->)]; simpl; [|done].
    unfold p3, p2. assert (dict_update p1 ∅ = p1) as ->; [|done].
    apply map_eq. intros k. by rewrite dict_update_lookup, lookup_empty. }
  exists p3. split; [done|]. split.
  { unfold create_scenario, mbind at 1, M_bind at 1. by rewrite Hparams. }
  intros k. unfold p3. case_decide as Hsize.
  - by rewrite dict_update_lookup, Hp2.
  - assert (kwargs = ∅) as -> by (apply map_size_empty_inv; lia).
    by rewrite lookup_empty, Hp2.
Qed.

Lemma create_scenario_precedence_witness :
  ∃ params,
    create_scenario_params (Some ex_params_dict) (Some "scenario.toml")
      (<["bin_size_minutes" := VInt 120]> ex_kwargs) ex_world_toml =
    (Ok params, ex_world_toml) ∧
    params !! "bin_size_minutes" = Some (VInt 120) ∧
    params !! "cap" = Some (VInt 12) ∧
    params !! "verbosity" = Some (VInt 1).
Proof.
  destruct (create_scenario_precedence Timestamp_ns str_example
    (Some ex_params_dict) (Some "scenario.toml")
    (<["bin_size_minutes" := VInt 120]> ex_kwargs) ex_world_toml ex_toml)
    as (params & Hp & _ & Hk).
  - right. exists "scenario.toml". split; [reflexivity|].
    vm_compute. reflexivity.
  - exists params. split; [exact Hp|].
    rewrite !Hk. vm_compute. repeat split; reflexivity.
Defined.

(** Whatever metric is requested, [get_summary_df] asks the module-level
    function for the metric 'o'. *)
Lemma get_summary_df_ignores_flow_metric self flow_metric by_category
    stationary :
  get_summary_df self flow_metric by_category stationary =
  hills_get_summary_df (hills self) "occupancy" by_category stationary.
Proof.
  unfold get_summary_df, hills_get_summary_df. by destruct (hills self).
Qed.

(** C1 fails on the code: on a computed scenario, requesting 'arrivals'
    (or 'departures') yields the occupancy summary, not the summary of
    the metric requested. *)
Theorem get_summary_df_arrivals_yields_occupancy :
  get_summary_df ex_computed "arrivals" true false =
    Ok (Some (summaries ex_hills false true Occupancy)) ∧
  hills_get_summary_df (hills ex_computed) "arrivals" true false =
    Ok (Some (summaries ex_hills false true Arrivals)) ∧
  get_summary_df ex_computed "departures" true false =
    Ok (Some (summaries ex_hills false true Occupancy)) ∧
  summaries ex_hills false true Arrivals ≠
    summaries ex_hills false true Occupancy.
Proof. repeat split. discriminate. Qed.

(* ===================================================================== *)
(** ** The edges of the validation, on the example *)
(* ===================================================================== *)

(** Without 'stops_df', [field_exists] reads [info.data['stops_df']] for
    'in_field': the KeyError propagates, no ValidationError is built. *)
Example ex_missing_stops_df :
  Scenario_init Timestamp_ns str_example (delete "stops_df" ex_kwargs) ex_world
  = (Raise (KeyError "stops_df"), ex_world).
Proof. vm_compute. reflexivity. Qed.

(** A column that is not in the frame is a ValueError of [field_exists],
    reported with the field. *)
Example ex_unknown_column :
  Scenario_init Timestamp_ns str_example
    (<["cat_field" := VStr "Unit"]> ex_kwargs) ex_world
  = (Raise (ValidationError
              [("cat_field",
                ValueErr "Unit is not a column in the dataframe")]),
     ex_world).
Proof. vm_compute. reflexivity. Qed.

(** A bin size 0 is a ZeroDivisionError of [1440 % v]; a negative bin size
    passes [bin_size_minutes_divides], the remainder taking its sign. *)
Example ex_bin_size_zero :
  Scenario_init Timestamp_ns str_example
    (<["bin_size_minutes" := VInt 0]> ex_kwargs) ex_world
  = (Raise ZeroDivisionError, ex_world).
Proof. vm_compute. reflexivity. Qed.

Example ex_bin_size_negative :
  bin_size_minutes_divides (-7) = FVal (-7) ∧
  bin_size_minutes_divides 7 =
    FInvalid
      (ValueErr "bin_size_minutes must divide into 1440 with no remainder") ∧
  bin_size_minutes_divides 60 = FVal 60.
Proof. vm_compute. by repeat split. Qed.

(** An entry column that holds strings cannot be compared with the
    analysis dates: the preprocessing fails with the TypeError of pandas,
    after the frame of the necessary columns was built. *)
Example ex_entry_column_of_strings :
  ∃ w',
    Scenario_init Timestamp_ns str_example
      (<["in_field" := VStr "PatType"]> ex_kwargs) ex_world
    = (Raise (TypeError "Invalid comparison"), w') ∧
    heap w' !! 0%nat = Some ex_stops.
Proof. eexists. vm_compute. by split. Qed.

(** With the category field, the new frame has the three necessary
    columns, and the construction always succeeds on datetime columns. *)
Example ex_with_category :
  ∃ sc w',
    Scenario_init Timestamp_ns str_example
      (<["cat_field" := VStr "PatType"]> ex_kwargs) ex_world = (Ok sc, w') ∧
    heap w' !! 3%nat =
      Some {| df_index := [0; 1];
              df_data := [("InRoomTS", [CTime 50; CTime 40]);
                          ("OutRoomTS", [CTime 150; CTime 20]);
                          ("PatType", [CStr "b"; CStr "d"])] |}.
Proof. eexists _, _. vm_compute. by split. Qed.

(* ===================================================================== *)
(** ** Further properties of the validation (X1 - X13) *)
(* ===================================================================== *)

(** A column name that [field_exists] accepts is a column of the frame. *)
Lemma field_exists_FVal o data o' :
  field_exists o data = FVal o' →
  o' = o ∧ ∀ c, o = Some c → ∃ df, data = Some df ∧ c ∈ columns df.
Proof.
  unfold field_exists. destruct o as [s|]; [|by intros [= <-]].
  destruct data as [df|]; [|done]. case_decide; [|done].
  intros [= <-]. split; [done|]. intros c [= <-]. eauto.
Qed.

Lemma first_raise_Some l x : Some x ∈ l → is_Some (first_raise l).
Proof.
  induction l as [|[y|] l IH]; simpl.
  - by intros ?%elem_of_nil.
  - by eexists.
  - intros [?|?]%elem_of_cons; [done|by apply IH].
Qed.

Section validation.

Context (pd_Timestamp : pyval → string + datetime64).
Context (pystr : pyval → string).

(** The frame behind a validated instance. *)
Lemma instance_data h kw self :
  fr_build (field_results pd_Timestamp pystr h kw) = Some self →
  kw !! "stops_df" = Some (VDataFrame (stops_df self)) ∧
  ∃ df, h !! stops_df self = Some df ∧
    (fval (required kw "stops_df" (as_dataframe h)) ≫= λ l, h !! l) = Some df.
Proof.
  intros Hb%fr_build_Some. pose proof (f_equal r_stops_df Hb) as Hr.
  cbn [field_results r_stops_df] in Hr. rewrite Hr. clear Hb.
  unfold required in Hr. destruct (kw !! "stops_df") as [v|]; [|done].
  unfold as_dataframe in Hr. destruct v; try done.
  case_decide as Hl; [|done]. injection Hr as <-. split; [done|].
  destruct Hl as [df Hl]. exists df. by split.
Qed.

(** The column fields of a validated instance. *)
Lemma instance_columns h kw self :
  fr_build (field_results pd_Timestamp pystr h kw) = Some self →
  ∃ df, h !! stops_df self = Some df ∧
    kw !! "in_field" = Some (VStr (in_field self)) ∧
    kw !! "out_field" = Some (VStr (out_field self)) ∧
    in_field self ∈ columns df ∧ out_field self ∈ columns df ∧
    (∀ c, cat_field self = Some c →
       kw !! "cat_field" = Some (VStr c) ∧ c ∈ columns df) ∧
    (cat_field self = None → kw !! "cat_field" = None) ∧
    (∀ c, occ_weight_field self = Some c →
       kw !! "occ_weight_field" = Some (VStr c) ∧ c ∈ columns df).
Proof.
  intros Hb. destruct (instance_data _ _ _ Hb) as (_ & df & Hdf & Hdata).
  apply fr_build_Some in Hb.
  pose proof (f_equal r_in_field Hb) as Hi.
  pose proof (f_equal r_out_field Hb) as Ho.
  pose proof (f_equal r_cat_field Hb) as Hc.
  pose proof (f_equal r_occ_weight_field Hb) as Hw.
  cbn [field_results r_in_field r_out_field r_cat_field r_occ_weight_field]
    in Hi, Ho, Hc, Hw.
  rewrite Hdata in Hi, Ho, Hc, Hw. clear Hb Hdata.
  exists df. split; [done|].
  unfold required, optional, field_exists_str in *.
  destruct (kw !! "in_field") as [vi|]; [|done].
  destruct (kw !! "out_field") as [vo|]; [|done].
  destruct vi; try done. destruct vo; try done.
  cbn [as_str fres_bind field_exists] in Hi, Ho.
  case_decide; [|done]. case_decide; [|done].
  cbn [fres_bind] in Hi, Ho. injection Hi as <-. injection Ho as <-.
  repeat (split; [done|]).
  split; [|split].
  - intros c Hcat. rewrite Hcat in Hc.
    destruct (kw !! "cat_field") as [v|]; [|done].
    destruct v; try done. cbn [as_str fres_bind] in Hc.
    apply field_exists_FVal in Hc as [[= <-] Hc].
    destruct (Hc c eq_refl) as (df' & [= <-] & ?). done.
  - intros Hcat. rewrite Hcat in Hc.
    destruct (kw !! "cat_field") as [v|]; [|done].
    destruct v; try done. cbn [as_str fres_bind] in Hc.
    by apply field_exists_FVal in Hc as [[=] _].
  - intros c Hocc. rewrite Hocc in Hw.
    destruct (kw !! "occ_weight_field") as [v|]; [|done].
    destruct v; try done; cbn [as_opt_str fres_bind] in Hw;
      apply field_exists_FVal in Hw as [[= <-] Hw].
    destruct (Hw c eq_refl) as (df' & [= <-] & ?). done.
Qed.

(** X1. In a constructed scenario in_field and out_field, and cat_field
    and occ_weight_field when they are not None, each name a column of
    stops_df. *)
Theorem fields_name_columns_of_stops_df kw w sc w' :
  Scenario_init pd_Timestamp pystr kw w = (Ok sc, w') →
  ∃ df,
    heap w !! stops_df sc = Some df ∧
    in_field sc ∈ columns df ∧
    out_field sc ∈ columns df ∧
    (∀ c, cat_field sc = Some c → c ∈ columns df) ∧
    (∀ c, occ_weight_field sc = Some c → c ∈ columns df).
Proof.
  intros (self & Hb & _ & [l ->]%preprocess_stops_df_fields)%Scenario_init_Ok.
  destruct (instance_columns _ _ _ Hb)
    as (df & Hdf & _ & _ & Hi & Ho & Hc & _ & Hw).
  exists df. simpl. repeat (split; [done|]). split.
  - intros c Hcat. by apply Hc.
  - intros c Hocc. by apply Hw.
Qed.


(** The outcome of a column field when 'stops_df' is a frame. *)
Lemma stops_df_data h kw l df :
  kw !! "stops_df" = Some (VDataFrame l) → h !! l = Some df →
  (fval (required kw "stops_df" (as_dataframe h)) ≫= λ l, h !! l) = Some df.
Proof.
  intros Hs Hl. unfold required, as_dataframe. rewrite Hs.
  rewrite decide_True by eauto. done.
Qed.

Ltac column_field_cases Hr :=
  split;
  [ intros Hn; rewrite decide_False in Hr by done;
    eexists; split;
    [ apply Scenario_init_invalid_field; [by eexists; eauto|done|];
      destruct (fr_build _) as [self|] eqn:Hb; [|done];
      apply fr_build_Some in Hb; rewrite Hb in Hr; discriminate Hr
    | fr_errors_intro Hr ]
  | intros (errs & Hinit & Hin) Hs; rewrite decide_True in Hr by done;
    apply Scenario_init_ValidationError in Hinit as (_ & [[_ ->]|[-> _]]);
    [ apply fr_errors_elem in Hin;
      repeat (destruct Hin as [[Hin Hin']|Hin];
              [first [discriminate Hin | congruence]|]);
      destruct Hin as [Hin Hin']; first [discriminate Hin | congruence]
    | apply list_elem_of_singleton in Hin; discriminate Hin ] ].

(** X2. With a DataFrame for 'stops_df', and 'bin_size_minutes' left out
    or an int other than 0, a name given for 'in_field', 'out_field',
    'cat_field' or 'occ_weight_field' is rejected with the error "<name>
    is not a column in the dataframe", reported under the field, exactly
    when it is not a column of stops_df; nothing has been computed
    then. *)
Theorem unknown_column_is_rejected kw w name s l df :
  name ∈ column_fields →
  kw !! name = Some (VStr s) →
  kw !! "stops_df" = Some (VDataFrame l) →
  heap w !! l = Some df →
  bin_size_minutes_nonzero_int kw →
  s ∉ columns df ↔
  ∃ errs,
    Scenario_init pd_Timestamp pystr kw w =
      (Raise (ValidationError errs), w) ∧
    (name, ValueErr (s +:+ " is not a column in the dataframe")) ∈ errs.
Proof.
  intros Hname Hk Hdf Hl Hbin%bin_size_minutes_nonzero_int_ne.
  pose proof (stops_df_data _ _ _ _ Hdf Hl) as Hdata.
  unfold column_fields in Hname.
  rewrite !elem_of_cons, elem_of_nil in Hname.
  destruct Hname as [->|[->|[->|[->|[]]]]].
  - assert (r_in_field (field_results pd_Timestamp pystr (heap w) kw) =
            if decide (s ∈ columns df) then FVal s
            else FInvalid
                   (ValueErr (s +:+ " is not a column in the dataframe")))
      as Hr.
    { cbn [field_results r_in_field]. rewrite Hdata. unfold required.
      rewrite Hk. cbn [as_str fres_bind].
      unfold field_exists_str, field_exists. by case_decide. }
    column_field_cases Hr.
  - assert (r_out_field (field_results pd_Timestamp pystr (heap w) kw) =
            if decide (s ∈ columns df) then FVal s
            else FInvalid
                   (ValueErr (s +:+ " is not a column in the dataframe")))
      as Hr.
    { cbn [field_results r_out_field]. rewrite Hdata. unfold required.
      rewrite Hk. cbn [as_str fres_bind].
      unfold field_exists_str, field_exists. by case_decide. }
    column_field_cases Hr.
  - assert (r_cat_field (field_results pd_Timestamp pystr (heap w) kw) =
            if decide (s ∈ columns df) then FVal (Some s)
            else FInvalid
                   (ValueErr (s +:+ " is not a column in the dataframe")))
      as Hr.
    { cbn [field_results r_cat_field]. rewrite Hdata. unfold optional.
      by rewrite Hk. }
    column_field_cases Hr.
  - assert (r_occ_weight_field
              (field_results pd_Timestamp pystr (heap w) kw) =
            if decide (s ∈ columns df) then FVal (Some s)
            else FInvalid
                   (ValueErr (s +:+ " is not a column in the dataframe")))
      as Hr.
    { cbn [field_results r_occ_weight_field]. rewrite Hdata. unfold optional.
      by rewrite Hk. }
    column_field_cases Hr.
Qed.

(** X3. When 'stops_df' is missing or is not a DataFrame and 'in_field'
    is a string, [field_exists] reads [info.data['stops_df']], which is
    not there: the construction raises KeyError('stops_df'), not a
    ValidationError, and nothing has been computed. *)
Theorem stops_df_missing_is_a_KeyError kw w s :
  ¬ stops_df_given (heap w) kw →
  kw !! "in_field" = Some (VStr s) →
  Scenario_init pd_Timestamp pystr kw w = (Raise (KeyError "stops_df"), w).
Proof.
  intros Hn Hk.
  pose proof (Scenario_init_cases pd_Timestamp pystr kw w) as Hc.
  assert (validate_fields pd_Timestamp pystr (heap w) kw =
          Raise (KeyError "stops_df")) as Hv; [|by rewrite Hv in Hc].
  unfold validate_fields.
  assert (first_raise (fr_raises (field_results pd_Timestamp pystr (heap w) kw))
          = Some (KeyError "stops_df")) as ->; [|done].
  unfold fr_raises.
  assert (fraise (r_scenario_name
                    (field_results pd_Timestamp pystr (heap w) kw)) = None)
    as -> by (apply fraise_required; auto with never_raises).
  assert (fraise (r_stops_df
                    (field_results pd_Timestamp pystr (heap w) kw)) = None)
    as -> by (apply fraise_required; auto with never_raises).
  assert (fraise (r_in_field
                    (field_results pd_Timestamp pystr (heap w) kw)) =
          Some (KeyError "stops_df")) as ->; [|done].
  cbn [field_results r_in_field].
  destruct (fval (required kw "stops_df" (as_dataframe (heap w))) ≫=
            λ l, heap w !! l) as [df|] eqn:Hdata.
  { destruct Hn. apply stops_df_given_data. rewrite Hdata. by eexists. }
  unfold required. by rewrite Hk.
Qed.

(** X4. With a DataFrame for 'stops_df', a bin_size_minutes of 0 makes
    the construction raise the ZeroDivisionError of [1440 % v], not a
    ValidationError, and nothing has been computed. *)
Theorem bin_size_zero_is_a_ZeroDivisionError kw w :
  stops_df_given (heap w) kw →
  kw !! "bin_size_minutes" = Some (VInt 0) →
  Scenario_init pd_Timestamp pystr kw w = (Raise ZeroDivisionError, w).
Proof.
  intros Hdf Hk.
  pose proof (Scenario_init_cases pd_Timestamp pystr kw w) as Hc.
  assert (validate_fields pd_Timestamp pystr (heap w) kw =
          Raise ZeroDivisionError) as Hv; [|by rewrite Hv in Hc].
  unfold validate_fields.
  destruct (first_raise_Some
    (fr_raises (field_results pd_Timestamp pystr (heap w) kw))
    ZeroDivisionError) as [x Hx].
  { unfold fr_raises.
    assert (fraise (r_bin_size_minutes
                      (field_results pd_Timestamp pystr (heap w) kw)) =
            Some ZeroDivisionError) as ->.
    { cbn [field_results r_bin_size_minutes]. unfold optional.
      by rewrite Hk. }
    rewrite !elem_of_cons. tauto. }
  rewrite Hx. by apply first_raise_cases in Hx as [[_ ?]|[-> _]].
Qed.

(** The bin size of an instance passed the validator. *)
Lemma bin_size_minutes_divides_FVal v b :
  bin_size_minutes_divides v = FVal b →
  b = v ∧ v ≠ 0 ∧ 1440 `mod` v ≤ 0.
Proof.
  unfold bin_size_minutes_divides. case_decide; [done|].
  case_decide; [done|]. intros [= <-]. repeat split; [done|lia].
Qed.

(** X5. A negative bin_size_minutes passes
    [bin_size_minutes_divides], whether or not it divides 1440 (the
    remainder [1440 % v] is never positive then): no error is reported
    on 'bin_size_minutes', and a constructed scenario holds the negative
    value. *)
Theorem negative_bin_size_is_accepted kw w v :
  kw !! "bin_size_minutes" = Some (VInt v) →
  v < 0 →
  (∀ errs w' k,
     Scenario_init pd_Timestamp pystr kw w =
       (Raise (ValidationError errs), w') →
     ("bin_size_minutes", k) ∉ errs) ∧
  (∀ sc w',
     Scenario_init pd_Timestamp pystr kw w = (Ok sc, w') →
     bin_size_minutes sc = v).
Proof.
  intros Hk Hv.
  assert (r_bin_size_minutes (field_results pd_Timestamp pystr (heap w) kw) =
          FVal v) as Hr.
  { cbn [field_results r_bin_size_minutes]. unfold optional. rewrite Hk.
    cbn [as_int fres_bind]. unfold bin_size_minutes_divides.
    rewrite decide_False by lia.
    pose proof (Z.mod_neg_bound 1440 v Hv).
    by rewrite decide_False by lia. }
  split.
  - intros errs w' k Hinit Hin.
    apply Scenario_init_ValidationError in Hinit as (_ & [[_ ->]|[-> _]]).
    + assert (r_bin_size_minutes
                (field_results pd_Timestamp pystr (heap w) kw) = FInvalid k)
        as Hr' by (fr_errors_inv Hin).
      congruence.
    + apply list_elem_of_singleton in Hin. discriminate Hin.
  - intros sc w' (self & Hb%fr_build_Some & _ &
      [l ->]%preprocess_stops_df_fields)%Scenario_init_Ok.
    rewrite Hb in Hr. simpl in *. congruence.
Qed.

(** X6. The bin_size_minutes of a constructed scenario is not 0, and
    when it is positive it divides 1440 (the default 60 included). *)
Theorem constructed_bin_size_minutes kw w sc w' :
  Scenario_init pd_Timestamp pystr kw w = (Ok sc, w') →
  bin_size_minutes sc ≠ 0 ∧
  (0 < bin_size_minutes sc → (bin_size_minutes sc | 1440)).
Proof.
  intros (self & Hb%fr_build_Some & _ &
    [l ->]%preprocess_stops_df_fields)%Scenario_init_Ok.
  pose proof (f_equal r_bin_size_minutes Hb) as Hr.
  cbn [field_results r_bin_size_minutes set_stops_preprocessed_df
       bin_size_minutes] in *.
  clear Hb. unfold optional in Hr.
  destruct (kw !! "bin_size_minutes") as [v|].
  - destruct v; try done. cbn [as_int fres_bind] in Hr.
    apply bin_size_minutes_divides_FVal in Hr as (-> & Hz & Hm).
    split; [done|]. intros Hpos. apply Z.mod_divide; [done|].
    pose proof (Z.mod_pos_bound 1440 z Hpos). lia.
  - injection Hr as <-. split; [done|]. intros _. by exists 24.
Qed.

(** A percentile that passed the constraint lies in [0, 1] or is NaN. *)
Lemma confloat_FVal v f :
  confloat_ge0_le1 v = FVal f → in_unit_interval f ∨ f = FNaN.
Proof.
  destruct v as [| |z|g| | | | | | | | | |]; try done.
  - change (confloat_ge0_le1 (VInt z))
      with (confloat_ge0_le1 (VFloat (FFinite (inject_Z z)))).
    destruct (confloat_float (FFinite (inject_Z z)))
      as [[H ->]|(_ & H & ->)]; [by intros [= <-]|done].
  - destruct (confloat_float g) as [[H ->]|(_ & H & ->)];
      [by intros [= <-]|done].
Qed.

Lemma validate_items_FVal l fs :
  validate_items confloat_ge0_le1 l = FVal fs →
  Forall (λ p, in_unit_interval p ∨ p = FNaN) fs.
Proof.
  revert fs. induction l as [|v l IH]; intros fs; simpl.
  - by intros [= <-].
  - destruct (confloat_ge0_le1 v) as [f| |] eqn:Hf; try done.
    destruct (validate_items confloat_ge0_le1 l) as [fs'| |]; try done.
    simpl. intros [= <-]. constructor; [by eapply confloat_FVal|by apply IH].
Qed.

Lemma as_percentiles_FVal v p :
  as_percentiles v = FVal p →
  Forall (λ p, in_unit_interval p ∨ p = FNaN) (float_seq_items p).
Proof.
  assert (∀ l, fres_bind (validate_items confloat_ge0_le1 l)
                 (λ fs, FVal (PyList fs)) = FVal p →
               Forall (λ p, in_unit_interval p ∨ p = FNaN)
                 (float_seq_items p)) as Hlist.
  { intros l.
    destruct (validate_items confloat_ge0_le1 l) as [fs| |] eqn:Hfs; try done.
    intros [= <-]. by eapply validate_items_FVal. }
  unfold as_percentiles.
  destruct v as [| | | | |l|l| | | | | | |]; try done; [apply Hlist|].
  destruct l as [|x [|y l]]; [apply (Hlist [])| |apply (Hlist (x :: y :: l))].
  destruct (confloat_ge0_le1 x) as [f| |] eqn:Hf; try done.
  intros [= <-]. constructor; [by eapply confloat_FVal|done].
Qed.

Lemma default_percentiles_in_unit_interval :
  Forall in_unit_interval (float_seq_items default_percentiles).
Proof. repeat constructor; by compute. Qed.

(** X7. Every percentile of a constructed scenario lies in the closed
    interval [0, 1] or is NaN (which the range check does not detect),
    whether the percentiles were given (as floats or integers, in a list
    or a tuple) or are the default. *)
Theorem constructed_percentiles_in_unit_interval_or_NaN kw w sc w' :
  Scenario_init pd_Timestamp pystr kw w = (Ok sc, w') →
  Forall (λ p, in_unit_interval p ∨ p = FNaN)
    (float_seq_items (percentiles sc)).
Proof.
  intros (self & Hb%fr_build_Some & _ &
    [l ->]%preprocess_stops_df_fields)%Scenario_init_Ok.
  pose proof (f_equal r_percentiles Hb) as Hr.
  cbn [field_results r_percentiles set_stops_preprocessed_df percentiles]
    in *.
  clear Hb. unfold optional in Hr.
  destruct (kw !! "percentiles") as [v|].
  - by eapply as_percentiles_FVal.
  - injection Hr as <-.
    eapply Forall_impl; [apply default_percentiles_in_unit_interval|].
    intros p Hp. by left.
Qed.

Lemma as_EdgeBinsEnum_VInt z :
  as_EdgeBinsEnum (VInt z) =
  if decide (z = 1) then FVal FRACTIONAL
  else if decide (z = 2) then FVal ENTIRE
  else FInvalid (BadType "EdgeBinsEnum").
Proof.
  unfold as_EdgeBinsEnum.
  repeat case_match; repeat case_decide; try done; try lia.
Qed.

(** X8. An integer given for 'edge_bins' is held as the member of
    EdgeBinsEnum with that value, 1 (FRACTIONAL) or 2 (ENTIRE); with a
    DataFrame for 'stops_df', and 'bin_size_minutes' left out or an int
    other than 0, any other integer is rejected with an error on
    'edge_bins', before anything is computed. *)
Theorem edge_bins_is_a_member_of_EdgeBinsEnum kw w z :
  kw !! "edge_bins" = Some (VInt z) →
  (∀ sc w',
     Scenario_init pd_Timestamp pystr kw w = (Ok sc, w') →
     EdgeBinsEnum_value (edge_bins sc) = z) ∧
  (z ≠ 1 → z ≠ 2 →
   stops_df_given (heap w) kw →
   bin_size_minutes_nonzero_int kw →
   ∃ errs,
     Scenario_init pd_Timestamp pystr kw w =
       (Raise (ValidationError errs), w) ∧
     ("edge_bins", BadType "EdgeBinsEnum") ∈ errs).
Proof.
  intros Hk.
  assert (r_edge_bins (field_results pd_Timestamp pystr (heap w) kw) =
          as_EdgeBinsEnum (VInt z)) as Hr.
  { cbn [field_results r_edge_bins]. unfold optional. by rewrite Hk. }
  rewrite as_EdgeBinsEnum_VInt in Hr. split.
  - intros sc w' (self & Hb%fr_build_Some & _ &
      [l ->]%preprocess_stops_df_fields)%Scenario_init_Ok.
    rewrite Hb in Hr. cbn [r_edge_bins set_stops_preprocessed_df edge_bins]
      in *.
    repeat case_decide; simplify_eq; by rewrite Hr.
  - intros H1 H2 Hdf Hbin%bin_size_minutes_nonzero_int_ne.
    rewrite !decide_False in Hr by done.
    eexists. split.
    + apply Scenario_init_invalid_field; [done..|].
      destruct (fr_build _) as [self|] eqn:Hb; [|done].
      apply fr_build_Some in Hb. rewrite Hb in Hr. discriminate Hr.
    + fr_errors_intro Hr.
Qed.

(** X9. A scenario is constructed only when the six required parameters
    are given, and it holds scenario_name, in_field and out_field as they
    were given. *)
Theorem required_parameters_are_held_as_given kw w sc w' :
  Scenario_init pd_Timestamp pystr kw w = (Ok sc, w') →
  (∀ name, name ∈ required_fields → is_Some (kw !! name)) ∧
  kw !! "scenario_name" = Some (VStr (scenario_name sc)) ∧
  kw !! "in_field" = Some (VStr (in_field sc)) ∧
  kw !! "out_field" = Some (VStr (out_field sc)).
Proof.
  intros (self & Hb & _ & [l ->]%preprocess_stops_df_fields)%Scenario_init_Ok.
  destruct (instance_data _ _ _ Hb) as (Hs & _).
  destruct (instance_columns _ _ _ Hb) as (_ & _ & Hi & Ho & _).
  apply fr_build_Some in Hb.
  pose proof (f_equal r_scenario_name Hb) as Hn.
  pose proof (f_equal r_start_analysis_dt Hb) as H0.
  pose proof (f_equal r_end_analysis_dt Hb) as H1.
  cbn [field_results r_scenario_name r_start_analysis_dt r_end_analysis_dt]
    in Hn, H0, H1.
  clear Hb. unfold required in Hn, H0, H1.
  cbn [set_stops_preprocessed_df scenario_name in_field out_field].
  assert (kw !! "scenario_name" = Some (VStr (scenario_name self))) as Hn'.
  { destruct (kw !! "scenario_name") as [v|]; [|done].
    destruct v; try done. by injection Hn as <-. }
  split; [|done].
  intros name Hname. unfold required_fields in Hname.
  rewrite !elem_of_cons, elem_of_nil in Hname.
  destruct Hname as [->|[->|[->|[->|[->|[->|[]]]]]]]; try by eexists.
  - by destruct (kw !! "start_analysis_dt").
  - by destruct (kw !! "end_analysis_dt").
Qed.

(** X10. When a required parameter is not given the construction fails
    before anything is computed: with a ValidationError that reports the
    parameter as missing, unless the KeyError of [field_exists] or the
    ZeroDivisionError of [bin_size_minutes_divides] is raised first. *)
Theorem missing_required_parameter kw w name r w' :
  name ∈ required_fields →
  kw !! name = None →
  Scenario_init pd_Timestamp pystr kw w = (r, w') →
  w' = w ∧
  (r = Raise (KeyError "stops_df") ∨ r = Raise ZeroDivisionError ∨
   ∃ errs, r = Raise (ValidationError errs) ∧ (name, Missing) ∈ errs).
Proof.
  intros Hname Hk Hinit.
  pose proof (Scenario_init_cases pd_Timestamp pystr kw w) as Hc.
  unfold validate_fields in Hc.
  destruct (first_raise _) as [x|] eqn:Hr.
  { rewrite Hc in Hinit. injection Hinit as <- <-. split; [done|].
    apply first_raise_cases in Hr as [[-> _]|[-> _]]; auto. }
  assert (fr_build (field_results pd_Timestamp pystr (heap w) kw) = None ∧
          (name, Missing)
            ∈ fr_errors (field_results pd_Timestamp pystr (heap w) kw))
    as [Hb Hin].
  { unfold required_fields in Hname.
    rewrite !elem_of_cons, elem_of_nil in Hname.
    destruct Hname as [->|[->|[->|[->|[->|[->|[]]]]]]].
    - assert (r_scenario_name (field_results pd_Timestamp pystr (heap w) kw)
              = FInvalid Missing) as Hf
        by (cbn [field_results r_scenario_name]; unfold required;
            by rewrite Hk).
      split; [|fr_errors_intro Hf].
      destruct (fr_build _) as [self|] eqn:Hb; [|done].
      apply fr_build_Some in Hb. rewrite Hb in Hf. discriminate Hf.
    - assert (r_stops_df (field_results pd_Timestamp pystr (heap w) kw)
              = FInvalid Missing) as Hf
        by (cbn [field_results r_stops_df]; unfold required; by rewrite Hk).
      split; [|fr_errors_intro Hf].
      destruct (fr_build _) as [self|] eqn:Hb; [|done].
      apply fr_build_Some in Hb. rewrite Hb in Hf. discriminate Hf.
    - assert (r_in_field (field_results pd_Timestamp pystr (heap w) kw)
              = FInvalid Missing) as Hf
        by (cbn [field_results r_in_field]; unfold required; by rewrite Hk).
      split; [|fr_errors_intro Hf].
      destruct (fr_build _) as [self|] eqn:Hb; [|done].
      apply fr_build_Some in Hb. rewrite Hb in Hf. discriminate Hf.
    - assert (r_out_field (field_results pd_Timestamp pystr (heap w) kw)
              = FInvalid Missing) as Hf
        by (cbn [field_results r_out_field]; unfold required; by rewrite Hk).
      split; [|fr_errors_intro Hf].
      destruct (fr_build _) as [self|] eqn:Hb; [|done].
      apply fr_build_Some in Hb. rewrite Hb in Hf. discriminate Hf.
    - assert (r_start_analysis_dt
                (field_results pd_Timestamp pystr (heap w) kw)
              = FInvalid Missing) as Hf
        by (cbn [field_results r_start_analysis_dt]; unfold required;
            by rewrite Hk).
      split; [|fr_errors_intro Hf].
      destruct (fr_build _) as [self|] eqn:Hb; [|done].
      apply fr_build_Some in Hb. rewrite Hb in Hf. discriminate Hf.
    - assert (r_end_analysis_dt
                (field_results pd_Timestamp pystr (heap w) kw)
              = FInvalid Missing) as Hf
        by (cbn [field_results r_end_analysis_dt]; unfold required;
            by rewrite Hk).
      split; [|fr_errors_intro Hf].
      destruct (fr_build _) as [self|] eqn:Hb; [|done].
      apply fr_build_Some in Hb. rewrite Hb in Hf. discriminate Hf. }
  rewrite Hb, Hinit in Hc. injection Hc as -> ->. split; [done|].
  right; right. eauto.
Qed.




(** The analysis dates of a validated instance. *)
Lemma instance_analysis_dts h kw self :
  fr_build (field_results pd_Timestamp pystr h kw) = Some self →
  ∃ v0 v1 t0 t1,
    kw !! "start_analysis_dt" = Some v0 ∧ kw !! "end_analysis_dt" = Some v1 ∧
    pd_Timestamp v0 = inr t0 ∧ pd_Timestamp v1 = inr t1 ∧
    start_analysis_dt self = VDatetime64 t0 ∧
    end_analysis_dt self = VDatetime64 t1.
Proof.
  intros Hb%fr_build_Some.
  pose proof (f_equal r_start_analysis_dt Hb) as H0.
  pose proof (f_equal r_end_analysis_dt Hb) as H1.
  cbn [field_results r_start_analysis_dt r_end_analysis_dt] in H0, H1.
  apply analysis_dt_FVal in H0 as (v0 & t0 & ? & _ & ? & ?).
  apply analysis_dt_FVal in H1 as (v1 & t1 & ? & _ & ? & ?).
  by exists v0, v1, t0, t1.
Qed.

(** Two instances built from the same column names and analysis dates
    hold the same ones. *)
Lemma instances_agree h kw self h2 kw2 self2 :
  fr_build (field_results pd_Timestamp pystr h kw) = Some self →
  fr_build (field_results pd_Timestamp pystr h2 kw2) = Some self2 →
  (∀ name,
     name ∈ ["in_field"; "out_field"; "cat_field"; "start_analysis_dt";
             "end_analysis_dt"] →
     kw2 !! name = kw !! name) →
  in_field self2 = in_field self ∧ out_field self2 = out_field self ∧
  cat_field self2 = cat_field self ∧
  start_analysis_dt self2 = start_analysis_dt self ∧
  end_analysis_dt self2 = end_analysis_dt self.
Proof.
  intros Hb Hb2 Hkw.
  assert (kw2 !! "in_field" = kw !! "in_field") as Ki
    by (apply Hkw; rewrite !elem_of_cons; tauto).
  assert (kw2 !! "out_field" = kw !! "out_field") as Ko
    by (apply Hkw; rewrite !elem_of_cons; tauto).
  assert (kw2 !! "cat_field" = kw !! "cat_field") as Kc
    by (apply Hkw; rewrite !elem_of_cons; tauto).
  assert (kw2 !! "start_analysis_dt" = kw !! "start_analysis_dt") as Ks
    by (apply Hkw; rewrite !elem_of_cons; tauto).
  assert (kw2 !! "end_analysis_dt" = kw !! "end_analysis_dt") as Ke
    by (apply Hkw; rewrite !elem_of_cons; tauto).
  clear Hkw.
  destruct (instance_columns _ _ _ Hb)
    as (df & _ & Hi & Ho & _ & _ & Hc & Hcn & _).
  destruct (instance_columns _ _ _ Hb2)
    as (df2 & _ & Hi2 & Ho2 & _ & _ & Hc2 & Hcn2 & _).
  destruct (instance_analysis_dts _ _ _ Hb)
    as (v0 & v1 & t0 & t1 & Hs & He & Ht0 & Ht1 & -> & ->).
  destruct (instance_analysis_dts _ _ _ Hb2)
    as (v0' & v1' & t0' & t1' & Hs2 & He2 & Ht0' & Ht1' & -> & ->).
  rewrite Ki in Hi2. rewrite Ko in Ho2. rewrite Ks in Hs2. rewrite Ke in He2.
  assert (v0' = v0) as -> by congruence.
  assert (v1' = v1) as -> by congruence.
  split; [congruence|]. split; [congruence|].
  split; [|split; congruence].
  destruct (cat_field self) as [c|], (cat_field self2) as [c2|]; try done.
  - destruct (Hc c eq_refl) as [Hk _]. destruct (Hc2 c2 eq_refl) as [Hk2 _].
    congruence.
  - destruct (Hc c eq_refl) as [Hk _]. specialize (Hcn2 eq_refl). congruence.
  - destruct (Hc2 c2 eq_refl) as [Hk2 _]. specialize (Hcn eq_refl).
    congruence.
Qed.

(** X13. None is the default of cat_field and of occ_weight_field, but
    only occ_weight_field may be given as None: its annotation is
    [str | None] and [field_exists] skips None, while cat_field is
    annotated [str], so that an explicit None for it is a validation
    error (reported as such with a DataFrame for 'stops_df' and
    'bin_size_minutes' left out or an int other than 0). *)
Theorem explicit_None_for_a_column_field kw w :
  (kw !! "occ_weight_field" = Some VNone →
   (∀ sc w',
      Scenario_init pd_Timestamp pystr kw w = (Ok sc, w') →
      occ_weight_field sc = None) ∧
   (∀ errs w' k,
      Scenario_init pd_Timestamp pystr kw w =
        (Raise (ValidationError errs), w') →
      ("occ_weight_field", k) ∉ errs)) ∧
  (kw !! "cat_field" = Some VNone →
   stops_df_given (heap w) kw →
   bin_size_minutes_nonzero_int kw →
   ∃ errs,
     Scenario_init pd_Timestamp pystr kw w =
       (Raise (ValidationError errs), w) ∧
     ("cat_field", BadType "str") ∈ errs).
Proof.
  split.
  - intros Hk.
    assert (r_occ_weight_field
              (field_results pd_Timestamp pystr (heap w) kw) = FVal None)
      as Hr.
    { cbn [field_results r_occ_weight_field]. unfold optional.
      by rewrite Hk. }
    split.
    + intros sc w' (self & Hb%fr_build_Some & _ &
        [l ->]%preprocess_stops_df_fields)%Scenario_init_Ok.
      rewrite Hb in Hr. simpl in *. congruence.
    + intros errs w' k Hinit Hin.
      apply Scenario_init_ValidationError in Hinit as (_ & [[_ ->]|[-> _]]).
      * assert (r_occ_weight_field
                  (field_results pd_Timestamp pystr (heap w) kw) =
                FInvalid k) as Hr' by (fr_errors_inv Hin).
        congruence.
      * apply list_elem_of_singleton in Hin. discriminate Hin.
  - intros Hk Hdf Hbin%bin_size_minutes_nonzero_int_ne.
    assert (r_cat_field (field_results pd_Timestamp pystr (heap w) kw) =
            FInvalid (BadType "str")) as Hr.
    { cbn [field_results r_cat_field]. unfold optional. by rewrite Hk. }
    eexists. split.
    + apply Scenario_init_invalid_field; [done..|].
      destruct (fr_build _) as [self|] eqn:Hb; [|done].
      apply fr_build_Some in Hb. rewrite Hb in Hr. discriminate Hr.
    + fr_errors_intro Hr.
Qed.

End validation.

Lemma fields_name_columns_of_stops_df_witness :
  ∃ sc w' df,
    Scenario_init Timestamp_ns str_example
      (<["cat_field" := VStr "PatType"]> ex_kwargs) ex_world = (Ok sc, w') ∧
    heap ex_world !! stops_df sc = Some df ∧
    in_field sc ∈ columns df ∧ out_field sc ∈ columns df ∧
    (∀ c, cat_field sc = Some c → c ∈ columns df).
Proof.
  eexists _, _.
  assert (Scenario_init Timestamp_ns str_example
            (<["cat_field" := VStr "PatType"]> ex_kwargs) ex_world =
          (Ok _, _)) as E by (vm_compute; reflexivity).
  destruct (fields_name_columns_of_stops_df _ _ _ _ _ _ E)
    as (df & H1 & H2 & H3 & H4 & _).
  exists df. split; [exact E|]. split; [exact H1|]. split; [exact H2|].
  split; [exact H3|exact H4].
Defined.

Lemma unknown_column_is_rejected_witness :
  ∃ errs,
    Scenario_init Timestamp_ns str_example
      (<["occ_weight_field" := VStr "Weight"]> ex_kwargs) ex_world =
    (Raise (ValidationError errs), ex_world) ∧
    ("occ_weight_field", ValueErr "Weight is not a column in the dataframe")
      ∈ errs.
Proof.
  refine (proj1 (unknown_column_is_rejected Timestamp_ns str_example
    (<["occ_weight_field" := VStr "Weight"]> ex_kwargs) ex_world
    "occ_weight_field" "Weight" 0%nat ex_stops _ _ _ _ _) _).
  - unfold column_fields. rewrite !elem_of_cons. tauto.
  - vm_compute; reflexivity.
  - vm_compute; reflexivity.
  - reflexivity.
  - vm_compute. exact I.
  - unfold columns; simpl. rewrite !not_elem_of_cons.
    repeat split; try discriminate. apply not_elem_of_nil.
Defined.

Lemma stops_df_missing_is_a_KeyError_witness :
  Scenario_init Timestamp_ns str_example
    (<["stops_df" := VStr "stops.csv"]> ex_kwargs) ex_world =
  (Raise (KeyError "stops_df"), ex_world).
Proof.
  refine (stops_df_missing_is_a_KeyError Timestamp_ns str_example
    (<["stops_df" := VStr "stops.csv"]> ex_kwargs) ex_world "InRoomTS" _ _).
  - intros (l & Hl & _). vm_compute in Hl. discriminate Hl.
  - vm_compute; reflexivity.
Defined.

Lemma bin_size_zero_is_a_ZeroDivisionError_witness :
  Scenario_init Timestamp_ns str_example
    (<["bin_size_minutes" := VInt 0]> ex_kwargs) ex_world =
  (Raise ZeroDivisionError, ex_world).
Proof.
  refine (bin_size_zero_is_a_ZeroDivisionError Timestamp_ns str_example
    (<["bin_size_minutes" := VInt 0]> ex_kwargs) ex_world _ _).
  - exists 0%nat. split; [vm_compute; reflexivity|by eexists].
  - vm_compute; reflexivity.
Defined.

Lemma negative_bin_size_is_accepted_witness :
  ∃ sc w',
    Scenario_init Timestamp_ns str_example
      (<["bin_size_minutes" := VInt (-7)]> ex_kwargs) ex_world = (Ok sc, w') ∧
    bin_size_minutes sc = -7.
Proof.
  eexists _, _.
  assert (Scenario_init Timestamp_ns str_example
            (<["bin_size_minutes" := VInt (-7)]> ex_kwargs) ex_world =
          (Ok _, _)) as E by (vm_compute; reflexivity).
  split; [exact E|].
  refine (proj2 (negative_bin_size_is_accepted Timestamp_ns str_example
    (<["bin_size_minutes" := VInt (-7)]> ex_kwargs) ex_world (-7) _ _)
    _ _ E).
  - vm_compute; reflexivity.
  - lia.
Defined.

Lemma constructed_bin_size_minutes_witness :
  ∃ sc w',
    Scenario_init Timestamp_ns str_example
      (<["bin_size_minutes" := VInt 30]> ex_kwargs) ex_world = (Ok sc, w') ∧
    bin_size_minutes sc ≠ 0 ∧
    (0 < bin_size_minutes sc → (bin_size_minutes sc | 1440)).
Proof.
  eexists _, _.
  assert (Scenario_init Timestamp_ns str_example
            (<["bin_size_minutes" := VInt 30]> ex_kwargs) ex_world =
          (Ok _, _)) as E by (vm_compute; reflexivity).
  split; [exact E|].
  exact (constructed_bin_size_minutes _ _ _ _ _ _ E).
Defined.

Lemma constructed_percentiles_in_unit_interval_or_NaN_witness :
  ∃ sc w',
    Scenario_init Timestamp_ns str_example
      (<["percentiles" := VList [VInt 0; VFloat (FFinite (1 # 2)); VInt 1]]>
         ex_kwargs) ex_world = (Ok sc, w') ∧
    Forall (λ p, in_unit_interval p ∨ p = FNaN)
      (float_seq_items (percentiles sc)).
Proof.
  eexists _, _.
  assert (Scenario_init Timestamp_ns str_example
            (<["percentiles" :=
                 VList [VInt 0; VFloat (FFinite (1 # 2)); VInt 1]]>
               ex_kwargs) ex_world =
          (Ok _, _)) as E by (vm_compute; reflexivity).
  split; [exact E|].
  exact (constructed_percentiles_in_unit_interval_or_NaN _ _ _ _ _ _ E).
Defined.

Lemma edge_bins_is_a_member_of_EdgeBinsEnum_witness :
  ∃ errs,
    Scenario_init Timestamp_ns str_example
      (<["edge_bins" := VInt 3]> ex_kwargs) ex_world =
    (Raise (ValidationError errs), ex_world) ∧
    ("edge_bins", BadType "EdgeBinsEnum") ∈ errs.
Proof.
  refine (proj2 (edge_bins_is_a_member_of_EdgeBinsEnum Timestamp_ns
    str_example (<["edge_bins" := VInt 3]> ex_kwargs) ex_world 3 _) _ _ _ _).
  - vm_compute; reflexivity.
  - lia.
  - lia.
  - exists 0%nat. split; [vm_compute; reflexivity|by eexists].
  - vm_compute. exact I.
Defined.

Lemma required_parameters_are_held_as_given_witness :
  ∃ sc w',
    Scenario_init Timestamp_ns str_example ex_kwargs ex_world = (Ok sc, w') ∧
    scenario_name sc = "ex" ∧ in_field sc = "InRoomTS" ∧
    out_field sc = "OutRoomTS".
Proof.
  eexists _, _.
  assert (Scenario_init Timestamp_ns str_example ex_kwargs ex_world =
          (Ok _, _)) as E by (vm_compute; reflexivity).
  split; [exact E|].
  destruct (required_parameters_are_held_as_given _ _ _ _ _ _ E)
    as (_ & Hn & Hi & Ho).
  vm_compute in Hn, Hi, Ho. by repeat split.
Defined.

Lemma missing_required_parameter_witness :
  ∃ errs,
    Scenario_init Timestamp_ns str_example (delete "out_field" ex_kwargs)
      ex_world = (Raise (ValidationError errs), ex_world) ∧
    ("out_field", Missing) ∈ errs.
Proof.
  assert ("out_field" ∈ required_fields) as Hname
    by (unfold required_fields; rewrite !elem_of_cons; tauto).
  assert (delete "out_field" ex_kwargs !! "out_field" = None) as Hk
    by (vm_compute; reflexivity).
  eexists.
  assert (Scenario_init Timestamp_ns str_example
            (delete "out_field" ex_kwargs) ex_world =
          (Raise (ValidationError _), ex_world)) as E
    by (vm_compute; reflexivity).
  split; [exact E|].
  destruct (missing_required_parameter _ _ _ _ _ _ _ Hname Hk E)
    as [_ [H|[H|(errs & H & Hin)]]]; try discriminate H.
  injection H as <-. exact Hin.
Defined.



Lemma explicit_None_for_a_column_field_witness :
  (∃ sc w',
     Scenario_init Timestamp_ns str_example
       (<["occ_weight_field" := VNone]> ex_kwargs) ex_world = (Ok sc, w') ∧
     occ_weight_field sc = None) ∧
  (∃ errs,
     Scenario_init Timestamp_ns str_example
       (<["cat_field" := VNone]> ex_kwargs) ex_world =
       (Raise (ValidationError errs), ex_world) ∧
     ("cat_field", BadType "str") ∈ errs).
Proof.
  split.
  - eexists _, _.
    assert (Scenario_init Timestamp_ns str_example
              (<["occ_weight_field" := VNone]> ex_kwargs) ex_world =
            (Ok _, _)) as E by (vm_compute; reflexivity).
    split; [exact E|].
    refine (proj1 (proj1 (explicit_None_for_a_column_field Timestamp_ns
      str_example (<["occ_weight_field" := VNone]> ex_kwargs) ex_world) _)
      _ _ E).
    vm_compute; reflexivity.
  - refine (proj2 (explicit_None_for_a_column_field Timestamp_ns str_example
      (<["cat_field" := VNone]> ex_kwargs) ex_world) _ _ _).
    + vm_compute; reflexivity.
    + exists 0%nat. split; [vm_compute; reflexivity|by eexists].
    + vm_compute. exact I.
Defined.

(* ===================================================================== *)
(** ** Further properties of the preprocessed frame (X14 - X23) *)
(* ===================================================================== *)

(** The keys of a dict after an assignment. *)
Lemma dict_set_keys {A} (d : list (string * A)) k v :
  (dict_set d k v).*1 = if decide (k ∈ d.*1) then d.*1 else d.*1 ++ [k].
Proof.
  induction d as [|[k0 v0] d IH]; [done|].
  cbn [dict_set].
  destruct (decide (k0 = k)) as [->|Hne]; cbn [fmap list_fmap fst].
  - rewrite decide_True; [done|]. by left.
  - rewrite IH. destruct (decide (k ∈ d.*1)) as [Hin|Hin].
    + rewrite decide_True; [done|]. by right.
    + rewrite decide_False; [done|].
      intros [?|?]%elem_of_cons; congruence.
Qed.

Lemma dict_set_keys_elem {A} (d : list (string * A)) k v c :
  c ∈ (dict_set d k v).*1 ↔ c ∈ d.*1 ∨ c = k.
Proof.
  rewrite dict_set_keys. case_decide.
  - split; [by left|]. by intros [?| ->].
  - by rewrite elem_of_app, list_elem_of_singleton.
Qed.

Lemma dict_set_keys_NoDup {A} (d : list (string * A)) k v :
  NoDup d.*1 → NoDup (dict_set d k v).*1.
Proof.
  intros Hd. rewrite dict_set_keys. case_decide; [done|].
  apply NoDup_app. split; [done|]. split; [|apply NoDup_singleton].
  by intros x Hx ->%list_elem_of_singleton.
Qed.

(** The bindings of a dict after an assignment. *)
Lemma dict_set_elem {A} (d : list (string * A)) k v p :
  p ∈ dict_set d k v → p = (k, v) ∨ p ∈ d.
Proof.
  induction d as [|[k0 v0] d IH]; simpl.
  - intros ->%list_elem_of_singleton. by left.
  - case_decide.
    + intros [->|?]%elem_of_cons; [by left|]. right. by right.
    + intros [->|[->|?]%IH]%elem_of_cons; [right; by left|by left|].
      right. by right.
Qed.

Lemma dict_get_elem {A} (d : list (string * A)) k v :
  dict_get d k = Some v → (k, v) ∈ d.
Proof.
  induction d as [|[k0 v0] d IH]; simpl; [done|].
  case_decide as Hk.
  - intros [= ->]. rewrite Hk. by left.
  - intros ?%IH. by right.
Qed.

(** Transforming the columns keeps their names. *)
Lemma prod_map_keys {A B} (f : A → B) (d : list (string * A)) :
  (prod_map id f <$> d).*1 = d.*1.
Proof.
  induction d as [|[k0 v0] d IH]; [done|].
  cbn [fmap list_fmap prod_map fst]. by rewrite IH.
Qed.

(** Rows selected from lists of the same length. *)
Lemma mask_filter_length {A B} (m : list bool) (a : list A) (b : list B) :
  length a = length b → length (mask_filter m a) = length (mask_filter m b).
Proof.
  revert a b. induction m as [|x m IH]; intros [|a0 a] [|b0 b]; simpl;
    try done.
  intros [= Hl]. destruct x; simpl; by rewrite (IH a b Hl).
Qed.

(** The names and the cells of the necessary columns. *)
Lemma necessary_columns_keys self df cols :
  necessary_columns self df = Ok cols →
  NoDup cols.*1 ∧
  ∀ c, c ∈ cols.*1 ↔
       c = in_field self ∨ c = out_field self ∨ cat_field self = Some c.
Proof.
  unfold necessary_columns.
  destruct (getitem df (in_field self)) as [i|]; [|done].
  destruct (getitem df (out_field self)) as [o|]; [|done].
  assert (NoDup (dict_set (dict_set [] (in_field self) i)
                          (out_field self) o).*1) as Hnd.
  { apply dict_set_keys_NoDup. simpl. apply NoDup_singleton. }
  assert (∀ c, c ∈ (dict_set (dict_set [] (in_field self) i)
                             (out_field self) o).*1 ↔
               c = in_field self ∨ c = out_field self) as Hel.
  { intros c. rewrite dict_set_keys_elem. simpl.
    by rewrite list_elem_of_singleton. }
  destruct (cat_field self) as [cat|].
  - destruct (getitem df cat) as [cc|]; [|done]. intros [= <-]. split.
    + by apply dict_set_keys_NoDup.
    + intros c. rewrite dict_set_keys_elem, Hel. split.
      * intros [[?|?]| ->]; auto.
      * intros [?|[?|[= ->]]]; auto.
  - intros [= <-]. split; [done|]. intros c. rewrite Hel. split.
    + intros [?|?]; auto.
    + intros [?|[?|[=]]]; auto.
Qed.

Lemma necessary_columns_cells self df cols p :
  necessary_columns self df = Ok cols → p ∈ cols →
  ∃ k, (k, p.2) ∈ df_data df.
Proof.
  unfold necessary_columns, getitem.
  destruct (dict_get (df_data df) (in_field self)) as [i|] eqn:Hi; [|done].
  destruct (dict_get (df_data df) (out_field self)) as [o|] eqn:Ho; [|done].
  apply dict_get_elem in Hi, Ho.
  assert (p ∈ dict_set (dict_set [] (in_field self) i) (out_field self) o →
          ∃ k, (k, p.2) ∈ df_data df) as Hd.
  { intros [->|[->|[]%elem_of_nil]%dict_set_elem]%dict_set_elem; eauto. }
  destruct (cat_field self) as [cat|]; [|by intros [= <-]].
  destruct (dict_get (df_data df) cat) as [cc|] eqn:Hcc; [|done].
  apply dict_get_elem in Hcc.
  intros [= <-] [->|?]%dict_set_elem; eauto.
Qed.


(** The columns and the mask of the preprocessing are functions of the
    column names and of the analysis dates. *)
Lemma necessary_columns_ext self self2 df :
  in_field self2 = in_field self → out_field self2 = out_field self →
  cat_field self2 = cat_field self →
  necessary_columns self2 df = necessary_columns self df.
Proof. unfold necessary_columns. by intros -> -> ->. Qed.

Lemma overlap_mask_ext self self2 cols :
  in_field self2 = in_field self → out_field self2 = out_field self →
  start_analysis_dt self2 = start_analysis_dt self →
  end_analysis_dt self2 = end_analysis_dt self →
  overlap_mask self2 cols = overlap_mask self cols.
Proof. unfold overlap_mask. by intros -> -> -> ->. Qed.

Section frames.

Context (pd_Timestamp : pyval → string + datetime64).
Context (pystr : pyval → string).

(** The frame a constructed scenario holds, from the columns it was built
    of. *)
Lemma Scenario_init_frame kw w sc w' :
  Scenario_init pd_Timestamp pystr kw w = (Ok sc, w') →
  ∃ self df cols m,
    fr_build (field_results pd_Timestamp pystr (heap w) kw) = Some self ∧
    sc = set_stops_preprocessed_df self (length (heap w) + 2) ∧
    heap w !! stops_df self = Some df ∧
    necessary_columns self df = Ok cols ∧
    heap w' !! (length (heap w) + 2)%nat =
      Some (reset_index_drop (df_loc (mkDataFrame (df_index df) cols) m)).
Proof.
  intros (self & Hb & _ & Hrun)%Scenario_init_Ok.
  destruct (preprocess_stops_df_Ok _ _ _ _ Hrun)
    as (df & cols & c_in & c_out & m1 & m4 &
        Hdf & Hcols & Hin & Hout & Hm1 & Hm4 & Hheap & ->).
  eexists self, df, cols, _. repeat (split; [done|]).
  rewrite Hheap, lookup_app_r by lia.
  by replace (length (heap w) + 2 - length (heap w))%nat with 2%nat by lia.
Qed.

(** X14. The columns of stops_preprocessed_df are exactly in_field,
    out_field and, when it is not None, cat_field, each once; every
    other column of stops_df, the occ_weight_field column included, is
    left out. *)
Theorem preprocessed_frame_has_the_necessary_columns kw w sc w' :
  Scenario_init pd_Timestamp pystr kw w = (Ok sc, w') →
  ∃ l pre,
    stops_preprocessed_df sc = Some l ∧
    heap w' !! l = Some pre ∧
    NoDup (columns pre) ∧
    ∀ c, c ∈ columns pre ↔
         c = in_field sc ∨ c = out_field sc ∨ cat_field sc = Some c.
Proof.
  intros (self & df & cols & m & _ & -> & _ & Hcols & Hpre)
    %Scenario_init_frame.
  eexists _, _. split; [done|]. split; [exact Hpre|].
  unfold columns, reset_index_drop, df_loc; cbn [df_data].
  rewrite prod_map_keys.
  exact (necessary_columns_keys _ _ _ Hcols).
Qed.

(** X15. When every column of stops_df has one value per row,
    stops_preprocessed_df has too, and its index is 0, 1, ..., n-1 for
    its n records, whatever the index of stops_df was. *)
Theorem preprocessed_frame_is_renumbered kw w sc w' df :
  Scenario_init pd_Timestamp pystr kw w = (Ok sc, w') →
  heap w !! stops_df sc = Some df →
  df_wf df →
  ∃ l pre vs,
    stops_preprocessed_df sc = Some l ∧
    heap w' !! l = Some pre ∧
    visits pre (in_field sc) (out_field sc) (cat_field sc) = Some vs ∧
    df_wf pre ∧
    df_index pre = Z.of_nat <$> seq 0 (length vs).
Proof.
  intros (self & df' & cols & m & _ & -> & Hdf & Hcols & Hpre)
    %Scenario_init_frame Hdf' Hwf.
  cbn [set_stops_preprocessed_df stops_df in_field out_field cat_field
       stops_preprocessed_df] in *.
  assert (df' = df) as -> by congruence.
  assert (∀ k c, dict_get (df_data df) k = Some c →
                 length (mask_filter m c) =
                 length (mask_filter m (df_index df))) as Hlen.
  { intros k c Hc%dict_get_elem. apply mask_filter_length.
    unfold df_wf in Hwf. rewrite Forall_forall in Hwf.
    apply (Hwf _ Hc). }
  destruct (necessary_columns_get _ _ _ Hcols)
    as ((i & Hi & Hi') & (o & Ho & Ho') & Hcat).
  assert (Forall
    (λ c : string * Series,
       length c.2 =
       length (Z.of_nat <$> seq 0 (length (mask_filter m (df_index df)))))
    (prod_map id (mask_filter m) <$> cols)) as Hwf'.
  { rewrite Forall_fmap, Forall_forall. intros p Hp. simpl.
    rewrite length_fmap, length_seq.
    destruct (necessary_columns_cells _ _ _ p Hcols Hp) as [k Hk].
    apply mask_filter_length.
    unfold df_wf in Hwf. rewrite Forall_forall in Hwf. apply (Hwf _ Hk). }
  destruct (cat_field self) as [c|] eqn:Hc.
  - destruct (Hcat c eq_refl) as (cs & Hcs & Hcs').
    eexists _, _, _. split; [done|]. split; [exact Hpre|].
    unfold visits, reset_index_drop, df_loc, df_wf; cbn [df_data df_index].
    rewrite !dict_get_fmap, Hi', Ho', Hcs'.
    cbn [fmap option_fmap option_map mbind option_bind].
    split; [done|]. split; [done|].
    rewrite length_fmap, !length_zip.
    rewrite (Hlen _ _ Hi), (Hlen _ _ Ho), (Hlen _ _ Hcs).
    by rewrite !Nat.min_id.
  - eexists _, _, _. split; [done|]. split; [exact Hpre|].
    unfold visits, reset_index_drop, df_loc, df_wf; cbn [df_data df_index].
    rewrite !dict_get_fmap, Hi', Ho'.
    cbn [fmap option_fmap option_map mbind option_bind].
    split; [done|]. split; [done|].
    rewrite length_fmap, !length_zip.
    rewrite (Hlen _ _ Hi), (Hlen _ _ Ho).
    by rewrite !Nat.min_id.
Qed.

(** X16. A construction that succeeds logs "<n> records with missing
    entry timestamps - records ignored" when the entry column of stops_df
    has n > 0 missing values, then the same for the exit column, and
    nothing else. *)
Theorem missing_timestamps_are_logged kw w sc w' :
  Scenario_init pd_Timestamp pystr kw w = (Ok sc, w') →
  ∃ df in_col out_col,
    heap w !! stops_df sc = Some df ∧
    dict_get (df_data df) (in_field sc) = Some in_col ∧
    dict_get (df_data df) (out_field sc) = Some out_col ∧
    log w' = log w ++ missing_warnings in_col out_col.
Proof.
  intros (self & Hb & _ & Hrun)%Scenario_init_Ok.
  destruct (preprocess_stops_df_Ok _ _ _ _ Hrun)
    as (df & cols & _ & _ & _ & _ & Hdf & Hcols & _ & _ & _ & _ & _ & ->).
  destruct (necessary_columns_get _ _ _ Hcols)
    as ((i & Hi & _) & (o & Ho & _) & _).
  exists df, i, o. repeat (split; [done|]).
  pose proof (preprocess_stops_df_log self w df i o Hdf Hi Ho) as Hlog.
  by rewrite Hrun in Hlog.
Qed.

(** X17. The preprocessing is idempotent: a scenario constructed with
    the same parameters from the stops_preprocessed_df of a scenario has
    the same records in its own stops_preprocessed_df. *)
Theorem preprocessing_is_idempotent kw w sc w' l sc2 w'' :
  Scenario_init pd_Timestamp pystr kw w = (Ok sc, w') →
  stops_preprocessed_df sc = Some l →
  Scenario_init pd_Timestamp pystr (<["stops_df" := VDataFrame l]> kw) w' =
    (Ok sc2, w'') →
  ∃ pre l2 pre2 vs,
    heap w' !! l = Some pre ∧
    stops_preprocessed_df sc2 = Some l2 ∧
    heap w'' !! l2 = Some pre2 ∧
    visits pre (in_field sc) (out_field sc) (cat_field sc) = Some vs ∧
    visits pre2 (in_field sc) (out_field sc) (cat_field sc) = Some vs.
Proof.
  intros Hinit Hl Hinit2.
  destruct (Scenario_init_Ok _ _ _ _ _ _ Hinit)
    as (self & Hb & _ & [n ->]%preprocess_stops_df_fields).
  destruct (Scenario_init_Ok _ _ _ _ _ _ Hinit2)
    as (self2 & Hb2 & _ & [n2 ->]%preprocess_stops_df_fields).
  destruct (Scenario_init_preprocessed _ _ _ _ _ _ Hinit)
    as (l1 & pre & df & t0 & t1 & vs & Hl1 & _ & Hpre & _ & Ht0 & Ht1 &
        _ & Hvis).
  destruct (Scenario_init_preprocessed _ _ _ _ _ _ Hinit2)
    as (l2 & pre2 & df2 & t0' & t1' & vs2 & Hl2 & _ & Hpre2 & Hdf2 &
        Ht0' & Ht1' & Hvs2 & Hvis2).
  cbn [set_stops_preprocessed_df stops_df in_field out_field cat_field
       start_analysis_dt end_analysis_dt] in *.
  assert (l1 = l) as -> by congruence.
  destruct (instance_data _ _ _ _ _ Hb2) as (Hs2 & _).
  rewrite lookup_insert_eq in Hs2. injection Hs2 as Hs2.
  rewrite <- Hs2, Hpre in Hdf2. injection Hdf2 as <-.
  destruct (instances_agree _ _ _ _ _ _ _ _ Hb Hb2)
    as (Hi & Ho & Hc & Hs & He).
  { intros name Hname. rewrite !elem_of_cons, elem_of_nil in Hname.
    destruct Hname as [->|[->|[->|[->|[->|[]]]]]];
      by rewrite lookup_insert_ne. }
  rewrite Hi, Ho, Hc in *. rewrite Hs in Ht0'. rewrite He in Ht1'.
  assert (t0' = t0) as -> by congruence.
  assert (t1' = t1) as -> by congruence.
  rewrite Hvis in Hvs2. injection Hvs2 as <-.
  exists pre, l2, pre2, (filter (overlaps t0 t1) vs).
  repeat (split; [done|]).
  rewrite Hvis2. f_equal. by apply list_filter_filter_l.
Qed.

(** X18. For two scenarios over the same stops_df and columns, the
    analysis span of the first within the span of the second, the
    records of the first stops_preprocessed_df are the records of the
    second that overlap the span of the first. *)
Theorem narrower_span_filters_the_wider kw1 kw2 w sc1 w1 sc2 w2 s1 e1 s2 e2 :
  Scenario_init pd_Timestamp pystr kw1 w = (Ok sc1, w1) →
  Scenario_init pd_Timestamp pystr kw2 w = (Ok sc2, w2) →
  stops_df sc1 = stops_df sc2 →
  in_field sc1 = in_field sc2 →
  out_field sc1 = out_field sc2 →
  cat_field sc1 = cat_field sc2 →
  start_analysis_dt sc1 = VDatetime64 (Some s1) →
  end_analysis_dt sc1 = VDatetime64 (Some e1) →
  start_analysis_dt sc2 = VDatetime64 (Some s2) →
  end_analysis_dt sc2 = VDatetime64 (Some e2) →
  s2 ≤ s1 → e1 ≤ e2 →
  ∃ l1 pre1 l2 pre2 vs2,
    stops_preprocessed_df sc1 = Some l1 ∧ heap w1 !! l1 = Some pre1 ∧
    stops_preprocessed_df sc2 = Some l2 ∧ heap w2 !! l2 = Some pre2 ∧
    visits pre2 (in_field sc2) (out_field sc2) (cat_field sc2) = Some vs2 ∧
    visits pre1 (in_field sc1) (out_field sc1) (cat_field sc1) =
      Some (filter (overlaps (Some s1) (Some e1)) vs2).
Proof.
  intros (l1 & pre1 & df1 & t0 & t1 & vs1 & Hl1 & _ & Hpre1 & Hdf1 & Ht0 &
    Ht1 & Hvs1 & Hvis1)%Scenario_init_preprocessed.
  intros (l2 & pre2 & df2 & t0' & t1' & vs2 & Hl2 & _ & Hpre2 & Hdf2 & Ht0' &
    Ht1' & Hvs2 & Hvis2)%Scenario_init_preprocessed.
  intros Hdf Hi Ho Hc Hs1 He1 Hs2 He2 Hs He.
  rewrite Hdf, Hdf2 in Hdf1. injection Hdf1 as <-.
  rewrite Hi, Ho, Hc, Hvs2 in Hvs1. injection Hvs1 as <-.
  assert (t0 = Some s1) as -> by congruence.
  assert (t1 = Some e1) as -> by congruence.
  assert (t0' = Some s2) as -> by congruence.
  assert (t1' = Some e2) as -> by congruence.
  exists l1, pre1, l2, pre2, (filter (overlaps (Some s2) (Some e2)) vs2).
  repeat (split; [done|]).
  rewrite Hvis1. f_equal. symmetry. apply list_filter_filter_l.
  intros [[a b] c]. unfold overlaps; simpl.
  destruct a, b; try done. lia.
Qed.

(** No record overlaps a span that has NaT for a bound. *)
Lemma filter_overlaps_NaT t0 t1 (vs : list visit) :
  t0 = None ∨ t1 = None → filter (overlaps t0 t1) vs = [].
Proof.
  intros Hnat. induction vs as [|v vs IH]; [done|].
  rewrite filter_cons, IH. rewrite decide_False; [done|].
  unfold overlaps.
  destruct v as [[[] []] ?], t0, t1, Hnat as [Hn|Hn]; simpl; try tauto;
    discriminate Hn.
Qed.

(** X19. [date_relationship] lets NaT through (no comparison with NaT
    holds), and the preprocessing then keeps no record: a scenario
    constructed with NaT for its start or its end has an empty
    stops_preprocessed_df. *)
Theorem NaT_analysis_date_keeps_no_record kw w sc w' :
  Scenario_init pd_Timestamp pystr kw w = (Ok sc, w') →
  start_analysis_dt sc = VDatetime64 None ∨
  end_analysis_dt sc = VDatetime64 None →
  ∃ l pre,
    stops_preprocessed_df sc = Some l ∧
    heap w' !! l = Some pre ∧
    visits pre (in_field sc) (out_field sc) (cat_field sc) = Some [].
Proof.
  intros (l & pre & df & t0 & t1 & vs & Hl & _ & Hpre & _ & Ht0 & Ht1 &
    _ & Hvis)%Scenario_init_preprocessed Hnat.
  exists l, pre. repeat (split; [done|]).
  rewrite Hvis, filter_overlaps_NaT; [done|].
  destruct Hnat as [H|H]; [left|right]; congruence.
Qed.

(** X20. A frame passed as 'stops_preprocessed_df' is not kept: the
    constructed scenario holds the frame the preprocessing created. A
    dict passed as 'hills' is kept, and without it hills is None. *)
Theorem stops_preprocessed_df_is_recomputed kw w sc w' :
  Scenario_init pd_Timestamp pystr kw w = (Ok sc, w') →
  (∀ l0, kw !! "stops_preprocessed_df" = Some (VDataFrame l0) →
         stops_preprocessed_df sc ≠ Some l0) ∧
  (∀ h, kw !! "hills" = Some (VHills h) → hills sc = Some h) ∧
  (kw !! "hills" = None → hills sc = None).
Proof.
  intros Hinit.
  destruct (Scenario_init_Ok _ _ _ _ _ _ Hinit)
    as (self & Hb%fr_build_Some & _ & [n ->]%preprocess_stops_df_fields).
  destruct (Scenario_init_preprocessed _ _ _ _ _ _ Hinit)
    as (l1 & _ & _ & _ & _ & _ & Hl1 & Hfresh & _).
  pose proof (f_equal r_stops_preprocessed_df Hb) as Hp.
  pose proof (f_equal r_hills Hb) as Hh.
  cbn [field_results r_stops_preprocessed_df r_hills] in Hp, Hh.
  clear Hb. unfold optional in Hp, Hh.
  split; [|split].
  - intros l0 Hk Heq. rewrite Hk in Hp. unfold as_opt_dataframe in Hp.
    case_decide as Hl0; [|done]. rewrite Hl1 in Heq. injection Heq as ->.
    rewrite Hfresh in Hl0. by destruct Hl0.
  - intros h Hk. rewrite Hk in Hh. simpl in *. congruence.
  - intros Hk. rewrite Hk in Hh. simpl in *. congruence.
Qed.

(** X21. The preprocessing depends on stops_df, in_field, out_field,
    cat_field and the analysis dates only: two constructions from the
    same state that agree on these parameters create the same frames and
    log the same warnings, whatever the other parameters are
    (cats_to_exclude, occ_weight_field, bin_size_minutes, ...). *)
Theorem preprocessing_ignores_the_other_parameters kw1 kw2 w sc1 w1 sc2 w2 :
  Scenario_init pd_Timestamp pystr kw1 w = (Ok sc1, w1) →
  Scenario_init pd_Timestamp pystr kw2 w = (Ok sc2, w2) →
  (∀ name,
     name ∈ ["stops_df"; "in_field"; "out_field"; "cat_field";
             "start_analysis_dt"; "end_analysis_dt"] →
     kw2 !! name = kw1 !! name) →
  stops_preprocessed_df sc2 = stops_preprocessed_df sc1 ∧
  heap w2 = heap w1 ∧ log w2 = log w1.
Proof.
  intros Hinit1 Hinit2 Hkw.
  destruct (Scenario_init_Ok _ _ _ _ _ _ Hinit1) as (self1 & Hb1 & _ & Hrun1).
  destruct (Scenario_init_Ok _ _ _ _ _ _ Hinit2) as (self2 & Hb2 & _ & Hrun2).
  destruct (instances_agree _ _ _ _ _ _ _ _ Hb1 Hb2)
    as (Hi & Ho & Hc & Hs & He).
  { intros name Hname. apply Hkw. by right. }
  assert (stops_df self2 = stops_df self1) as Hdf.
  { destruct (instance_data _ _ _ _ _ Hb1) as (H1 & _).
    destruct (instance_data _ _ _ _ _ Hb2) as (H2 & _).
    rewrite Hkw in H2 by (by left). congruence. }
  pose proof (preprocess_stops_df_post _ _ _ _ Hrun1) as (_ & _ & Hp1).
  pose proof (preprocess_stops_df_post _ _ _ _ Hrun2) as (_ & _ & Hp2).
  rewrite Hdf in Hp2.
  destruct (heap w !! stops_df self1) as [df|] eqn:Hl; [|done].
  rewrite (necessary_columns_ext self1 self2) in Hp2 by done.
  destruct (necessary_columns self1 df) as [cols|] eqn:Hcols; [|done].
  cbv zeta in Hp1, Hp2.
  rewrite (overlap_mask_ext self1 self2) in Hp2 by done.
  destruct (overlap_mask self1 cols) as [m|]; [|done].
  destruct Hp1 as [[= ->] Hh1]. destruct Hp2 as [[= ->] Hh2].
  split; [done|]. split; [congruence|].
  destruct (necessary_columns_get _ _ _ Hcols)
    as ((i & Hi1 & _) & (o & Ho1 & _) & _).
  pose proof (preprocess_stops_df_log self1 w df i o Hl Hi1 Ho1) as Hlog1.
  rewrite Hrun1 in Hlog1.
  rewrite <- Hdf in Hl. rewrite <- Hi in Hi1. rewrite <- Ho in Ho1.
  pose proof (preprocess_stops_df_log self2 w df i o Hl Hi1 Ho1) as Hlog2.
  rewrite Hrun2 in Hlog2. simpl in *. congruence.
Qed.


(** X23. A constructed scenario holds the caller's stops_df object
    itself, and its stops_preprocessed_df is another object: an
    assignment to a column of stops_df afterwards shows through
    scenario.stops_df and leaves stops_preprocessed_df as it was. *)
Theorem stops_df_is_shared_and_its_preprocessed_copy_is_not
    kw w sc w' name s :
  Scenario_init pd_Timestamp pystr kw w = (Ok sc, w') →
  ∃ df l' pre w'',
    heap w' !! stops_df sc = Some df ∧
    stops_preprocessed_df sc = Some l' ∧
    heap w' !! l' = Some pre ∧
    setitem (stops_df sc) name s w' = (Ok (), w'') ∧
    heap w'' !! stops_df sc =
      Some {| df_index := df_index df;
              df_data := dict_set (df_data df) name s |} ∧
    heap w'' !! l' = Some pre.
Proof.
  intros Hinit.
  destruct (Scenario_init_preprocessed _ _ _ _ _ _ Hinit)
    as (l' & pre & df & _ & _ & _ & Hl' & Hfresh & Hpre & Hdf & _).
  destruct (Scenario_init_Ok _ _ _ _ _ _ Hinit) as (self & _ & _ & Hrun).
  apply preprocess_stops_df_prefix in Hrun.
  pose proof (prefix_lookup_Some _ _ _ _ Hdf Hrun) as Hdf'.
  assert (stops_df sc ≠ l') as Hne by congruence.
  exists df, l', pre. eexists. repeat (split; [done|]).
  unfold setitem. rewrite Hdf'. split; [done|]. cbn [heap]. split.
  - apply list_lookup_insert_eq. by eapply lookup_lt_Some.
  - by rewrite list_lookup_insert_ne.
Qed.

End frames.

Lemma preprocessed_frame_has_the_necessary_columns_witness :
  ∃ sc w' l pre,
    Scenario_init Timestamp_ns str_example
      (<["cat_field" := VStr "PatType"]> ex_kwargs) ex_world = (Ok sc, w') ∧
    stops_preprocessed_df sc = Some l ∧
    heap w' !! l = Some pre ∧
    ("InRoomTS" ∈ columns pre ∧ "OutRoomTS" ∈ columns pre ∧
     "PatType" ∈ columns pre ∧ "Severity" ∉ columns pre).
Proof.
  eexists _, _.
  assert (Scenario_init Timestamp_ns str_example
            (<["cat_field" := VStr "PatType"]> ex_kwargs) ex_world =
          (Ok _, _)) as E by (vm_compute; reflexivity).
  destruct (preprocessed_frame_has_the_necessary_columns _ _ _ _ _ _ E)
    as (l & pre & Hl & Hpre & _ & Hcols).
  exists l, pre. split; [exact E|]. split; [exact Hl|]. split; [exact Hpre|].
  rewrite !Hcols. simpl. split; [by left|]. split; [right; by left|].
  split; [by do 2 right|].
  intros [H|[H|H]]; discriminate H.
Defined.

Lemma preprocessed_frame_is_renumbered_witness :
  ∃ sc w' l pre vs,
    Scenario_init Timestamp_ns str_example ex_kwargs ex_world = (Ok sc, w') ∧
    stops_preprocessed_df sc = Some l ∧
    heap w' !! l = Some pre ∧
    visits pre (in_field sc) (out_field sc) (cat_field sc) = Some vs ∧
    df_wf pre ∧
    df_index pre = Z.of_nat <$> seq 0 (length vs).
Proof.
  eexists _, _.
  assert (Scenario_init Timestamp_ns str_example ex_kwargs ex_world =
          (Ok _, _)) as E by (vm_compute; reflexivity).
  destruct (preprocessed_frame_is_renumbered _ _ _ _ _ _ ex_stops E)
    as (l & pre & vs & H).
  - reflexivity.
  - repeat constructor.
  - exists l, pre, vs. split; [exact E|exact H].
Defined.

Lemma missing_timestamps_are_logged_witness :
  ∃ sc w',
    Scenario_init Timestamp_ns str_example ex_kwargs ex_world_missing =
      (Ok sc, w') ∧
    log w' = ["2 records with missing entry timestamps - records ignored";
              "1 records with missing exit timestamps - records ignored"].
Proof.
  eexists _, _.
  assert (Scenario_init Timestamp_ns str_example ex_kwargs ex_world_missing =
          (Ok _, _)) as E by (vm_compute; reflexivity).
  split; [exact E|].
  destruct (missing_timestamps_are_logged _ _ _ _ _ _ E)
    as (df & i & o & Hdf & Hi & Ho & ->).
  vm_compute in Hdf. injection Hdf as <-.
  vm_compute in Hi, Ho. injection Hi as <-. injection Ho as <-.
  vm_compute. reflexivity.
Defined.

Lemma preprocessing_is_idempotent_witness :
  ∃ sc w' l sc2 w'' pre l2 pre2 vs,
    Scenario_init Timestamp_ns str_example ex_kwargs ex_world = (Ok sc, w') ∧
    stops_preprocessed_df sc = Some l ∧
    Scenario_init Timestamp_ns str_example
      (<["stops_df" := VDataFrame l]> ex_kwargs) w' = (Ok sc2, w'') ∧
    heap w' !! l = Some pre ∧
    stops_preprocessed_df sc2 = Some l2 ∧
    heap w'' !! l2 = Some pre2 ∧
    visits pre (in_field sc) (out_field sc) (cat_field sc) = Some vs ∧
    visits pre2 (in_field sc) (out_field sc) (cat_field sc) = Some vs.
Proof.
  eexists _, _, 3%nat, _, _.
  assert (Scenario_init Timestamp_ns str_example ex_kwargs ex_world =
          (Ok _, _)) as E by (vm_compute; reflexivity).
  match type of E with _ = (_, ?w1) =>
    assert (Scenario_init Timestamp_ns str_example
              (<["stops_df" := VDataFrame 3%nat]> ex_kwargs) w1 =
            (Ok _, _)) as E2 by (vm_compute; reflexivity)
  end.
  destruct (preprocessing_is_idempotent _ _ _ _ _ _ 3%nat _ _ E eq_refl E2)
    as (pre & l2 & pre2 & vs & H).
  exists pre, l2, pre2, vs.
  split; [exact E|]. split; [reflexivity|]. split; [exact E2|]. exact H.
Defined.

Lemma narrower_span_filters_the_wider_witness :
  ∃ sc1 w1 sc2 w2 l1 pre1 l2 pre2 vs2,
    Scenario_init Timestamp_ns str_example ex_kwargs ex_world = (Ok sc1, w1) ∧
    Scenario_init Timestamp_ns str_example
      (<["start_analysis_dt" := VDatetime64 (Some 0)]>
         (<["end_analysis_dt" := VDatetime64 (Some 250)]> ex_kwargs))
      ex_world = (Ok sc2, w2) ∧
    stops_preprocessed_df sc1 = Some l1 ∧ heap w1 !! l1 = Some pre1 ∧
    stops_preprocessed_df sc2 = Some l2 ∧ heap w2 !! l2 = Some pre2 ∧
    visits pre2 (in_field sc2) (out_field sc2) (cat_field sc2) = Some vs2 ∧
    visits pre1 (in_field sc1) (out_field sc1) (cat_field sc1) =
      Some (filter (overlaps (Some 10) (Some 100)) vs2).
Proof.
  eexists _, _, _, _.
  assert (Scenario_init Timestamp_ns str_example ex_kwargs ex_world =
          (Ok _, _)) as E1 by (vm_compute; reflexivity).
  assert (Scenario_init Timestamp_ns str_example
            (<["start_analysis_dt" := VDatetime64 (Some 0)]>
               (<["end_analysis_dt" := VDatetime64 (Some 250)]> ex_kwargs))
            ex_world = (Ok _, _)) as E2 by (vm_compute; reflexivity).
  destruct (narrower_span_filters_the_wider _ _ _ _ _ _ _ _ _ 10 100 0 250
    E1 E2) as (l1 & pre1 & l2 & pre2 & vs2 & H); try reflexivity; try lia.
  exists l1, pre1, l2, pre2, vs2.
  split; [exact E1|]. split; [exact E2|]. exact H.
Defined.

Lemma NaT_analysis_date_keeps_no_record_witness :
  ∃ sc w' l pre,
    Scenario_init Timestamp_ns str_example
      (<["start_analysis_dt" := VDatetime64 None]> ex_kwargs) ex_world =
      (Ok sc, w') ∧
    stops_preprocessed_df sc = Some l ∧
    heap w' !! l = Some pre ∧
    visits pre (in_field sc) (out_field sc) (cat_field sc) = Some [].
Proof.
  eexists _, _.
  assert (Scenario_init Timestamp_ns str_example
            (<["start_analysis_dt" := VDatetime64 None]> ex_kwargs) ex_world =
          (Ok _, _)) as E by (vm_compute; reflexivity).
  destruct (NaT_analysis_date_keeps_no_record _ _ _ _ _ _ E)
    as (l & pre & H); [by left|].
  exists l, pre. split; [exact E|exact H].
Defined.

Lemma stops_preprocessed_df_is_recomputed_witness :
  ∃ sc w',
    Scenario_init Timestamp_ns str_example
      (<["stops_preprocessed_df" := VDataFrame 0%nat]>
         (<["hills" := VHills ex_hills]> ex_kwargs)) ex_world = (Ok sc, w') ∧
    stops_preprocessed_df sc ≠ Some 0%nat ∧
    hills sc = Some ex_hills.
Proof.
  eexists _, _.
  assert (Scenario_init Timestamp_ns str_example
            (<["stops_preprocessed_df" := VDataFrame 0%nat]>
               (<["hills" := VHills ex_hills]> ex_kwargs)) ex_world =
          (Ok _, _)) as E by (vm_compute; reflexivity).
  split; [exact E|].
  destruct (stops_preprocessed_df_is_recomputed _ _ _ _ _ _ E)
    as (H1 & H2 & _).
  split; [apply H1|apply H2]; vm_compute; reflexivity.
Defined.

Lemma preprocessing_ignores_the_other_parameters_witness :
  ∃ sc1 w1 sc2 w2,
    Scenario_init Timestamp_ns str_example ex_kwargs ex_world = (Ok sc1, w1) ∧
    Scenario_init Timestamp_ns str_example
      (<["cats_to_exclude" := VList [VStr "a"]]>
         (<["bin_size_minutes" := VInt 30]> ex_kwargs)) ex_world =
      (Ok sc2, w2) ∧
    stops_preprocessed_df sc2 = stops_preprocessed_df sc1 ∧
    heap w2 = heap w1 ∧ log w2 = log w1.
Proof.
  eexists _, _, _, _.
  assert (Scenario_init Timestamp_ns str_example ex_kwargs ex_world =
          (Ok _, _)) as E1 by (vm_compute; reflexivity).
  assert (Scenario_init Timestamp_ns str_example
            (<["cats_to_exclude" := VList [VStr "a"]]>
               (<["bin_size_minutes" := VInt 30]> ex_kwargs)) ex_world =
          (Ok _, _)) as E2 by (vm_compute; reflexivity).
  split; [exact E1|]. split; [exact E2|].
  apply (preprocessing_ignores_the_other_parameters _ _ _ _ _ _ _ _ _ E1 E2).
  intros name Hname. rewrite !elem_of_cons, elem_of_nil in Hname.
  destruct Hname as [->|[->|[->|[->|[->|[->|[]]]]]]]; vm_compute; reflexivity.
Defined.


Lemma stops_df_is_shared_and_its_preprocessed_copy_is_not_witness :
  ∃ sc w' w'',
    Scenario_init Timestamp_ns str_example ex_kwargs ex_world = (Ok sc, w') ∧
    setitem (stops_df sc) "InRoomTS" [] w' = (Ok (), w'') ∧
    heap w'' !! 0%nat =
      Some {| df_index := df_index ex_stops;
              df_data := dict_set (df_data ex_stops) "InRoomTS" [] |} ∧
    heap w'' !! 3%nat = heap w' !! 3%nat.
Proof.
  eexists _, _.
  assert (Scenario_init Timestamp_ns str_example ex_kwargs ex_world =
          (Ok _, _)) as E by (vm_compute; reflexivity).
  destruct (stops_df_is_shared_and_its_preprocessed_copy_is_not _ _ _ _ _ _
    "InRoomTS" [] E)
    as (df & l' & pre & w'' & Hdf & Hl' & Hpre & Hset & H1 & H2).
  exists w''. split; [exact E|]. split; [exact Hset|].
  vm_compute in Hdf. injection Hdf as <-.
  vm_compute in Hl'. injection Hl' as <-.
  split; [exact H1|]. by rewrite H2, Hpre.
Defined.

(* ===================================================================== *)
(** ** Further properties of [create_scenario] (X24, X25) *)
(* ===================================================================== *)

(** X24. When the TOML file cannot be opened, or is not valid TOML,
    [create_scenario] raises that error and constructs nothing, whatever
    params_dict and the keyword arguments are. *)
Theorem create_scenario_toml_failure pd_Timestamp pystr params_dict path
    kwargs w :
  (files w !! path = None →
   create_scenario pd_Timestamp pystr params_dict (Some path) kwargs w =
     (Raise (FileNotFoundError path), w)) ∧
  (files w !! path = Some None →
   create_scenario pd_Timestamp pystr params_dict (Some path) kwargs w =
     (Raise (TOMLDecodeError path), w)).
Proof.
  unfold create_scenario, create_scenario_params, mbind, M_bind, tomllib_load.
  split; by intros ->.
Qed.

(** X25. With one source of parameters only (keyword arguments, a
    params_dict or a TOML file), [create_scenario] is the call of
    [Scenario] with the parameters of that source. *)
Theorem create_scenario_single_source pd_Timestamp pystr d path w :
  create_scenario pd_Timestamp pystr None None d w =
    Scenario_init pd_Timestamp pystr d w ∧
  create_scenario pd_Timestamp pystr (Some d) None ∅ w =
    Scenario_init pd_Timestamp pystr d w ∧
  (files w !! path = Some (Some d) →
   create_scenario pd_Timestamp pystr None (Some path) ∅ w =
     Scenario_init pd_Timestamp pystr d w).
Proof.
  assert (dict_update ∅ d = d) as Hd.
  { apply map_eq. intros k. rewrite dict_update_lookup, lookup_empty.
    by destruct (d !! k). }
  unfold create_scenario, create_scenario_params, mbind, M_bind, tomllib_load,
    mret, M_ret.
  split; [|split].
  - case_decide as Hsize; [by rewrite Hd|].
    by assert (d = ∅) as -> by (apply map_size_empty_inv; lia).
  - rewrite map_size_empty, decide_False by lia. by rewrite Hd.
  - intros ->. rewrite map_size_empty, decide_False by lia. by rewrite Hd.
Qed.

Lemma create_scenario_toml_failure_witness :
  create_scenario Timestamp_ns str_example (Some ex_params_dict)
    (Some "missing.toml") ex_kwargs ex_world_toml =
  (Raise (FileNotFoundError "missing.toml"), ex_world_toml).
Proof.
  refine (proj1 (create_scenario_toml_failure Timestamp_ns str_example
    (Some ex_params_dict) "missing.toml" ex_kwargs ex_world_toml) _).
  vm_compute; reflexivity.
Defined.
